(* ===== verification/_CoqProject ===== *)
-Q . S2P
Prelude.v
Loop.v
PyStr.v
PyText.v
PyValue.v
Parens.v
GraphTitle.v
GraphTabName.v
TabNameLoop.v
GraphRegistry.v
ParamCode.v
ParamParse.v
HtmlScript.v
HtmlDocument.v
ScriptLoop.v
GraphParam.v
GraphRequest.v
Installer.v
InstallerRun.v
InstallerHost.v
