(* ===== verification/Prelude.v ===== *)
(** * Verification of the mitosheet graph utilities and installer steps

    The program (under [src/]) is a slice of the Mito spreadsheet monorepo:

    - [src/mitosheet/mitosheet/step_performers/graph_steps/graph_utils.py]
      turns the description of a chart into text: [param_dict_to_code]
      serialises a nested parameter dictionary into keyword-argument source
      code, [get_graph_title] builds the chart title, [get_new_graph_tab_name]
      probes for the first free tab name [graph<N>],
      [get_html_and_script_from_figure] cuts the chart container and the
      inline scripts out of the HTML document the rendering engine wrote, and
      [get_column_header_from_optional_column_id_graph_param] resolves an
      optional column identifier to its header through the spreadsheet state.
    - [src/mitoinstaller/mitoinstaller/installer_steps/mitosheet_installer_steps.py]
      is the sequence of installer steps (dependency check, removal of the old
      package, installation, extension activation).

    The five functions of [graph_utils.py] are independent of one another;
    they share only Python's string and dictionary primitives, and meet in
    the graph step that calls them, which is outside [src/].  The installer
    steps share the commands they issue to the host.  The development has
    files for the primitives, one file per function or group of steps, and
    files for the callers the specification describes.

    ** Files, in dependency order

    - [Prelude] (this file): the representation of Python strings ([str],
      string literals through the coercion [lit]), Python exceptions as values
      ([exn]) and fallible computations ([result], with stdpp's monad
      notation and [mapR] for a loop that collects results), the scope
      [py_scope], the tactics ([case_cmp], [case_result], [str_norm],
      [by_compute]) and the hint database [py], the lemmas on results,
      lists and integers the components share, and [commute], the
      independence of two fallible computations (either order gives the
      same values or the same exception).
    - [Loop]: what the three [while]-like loops of the program share.  A
      loop is its [body : St -> St + Res] (one test and one iteration, or
      the exit value); from it come the step relation [step], the run on
      fuel [iterate], the big-step relation [returns] and [eventually].
      Lemmas: determinism, fuel monotonicity, invariants along [rtc step],
      and termination, strong normalisation and the reachable exit from a
      measure that decreases under an invariant.  [run] is the loop without
      fuel, by recursion on the proof that the state is strongly
      normalising, and [loop] the total function of a loop that ends from
      every state; the run on fuel returns their value.
    - [PyStr]: the Python string operations [graph_utils.py] calls: [len],
      slicing [slice] (negative indices, clamping), [find] (with the start
      argument, [-1] when absent), [startswith], [join], [repeat] ([s * n])
      and [str_of_int] (the text an f-string writes for an int), each with
      the lemmas that specify it; and the vocabulary for delimited text,
      [marks t sub] (in [t ++ sub] the first occurrence of [sub] is the one
      at the end) and [clear_of a sub] ([sub] cannot start inside [a]), with
      the lemmas that locate a delimiter ([find_marks], [find_clear],
      [find_app_clear_marks]).  The tactic [len_lia] decides arithmetic on
      lengths: it normalises them with the rewrite database [py], to which
      a component adds the lengths of its markers, and calls [lia].
    - [PyText]: the operations the installer calls: [strip], [split],
      [lower], [repr_str] and [repr_list], with [join_split] (joining the
      pieces of a split gives the string back).
    - [PyValue]: the values of a parameter dictionary ([scalar], [pyval] with
      nested dictionaries as lists of items) with the induction principle
      [pyval_ind'], and the class [Transpiler] whose method is
      [column_header_to_transpiled_code].
    - [Parens]: the scan of parentheses ([paren_scan], [paren_max],
      [balanced], [paren_free]) in which the structural theorems on the
      serialised text are stated, with its lemmas on concatenation.
    - [GraphTitle]: [get_graph_title], the ten graph-type constants and
      [GRAPH_TITLE_LABELS] as a finite map.  Theorems: the title on every
      graph type of the table, and [KeyError] exactly on the others.
    - [GraphTabName]: [get_new_graph_tab_name]; the [while] loop is [probe].
      Theorems: the loop ends within one more iteration than there are
      records (pigeonhole, [free_name_exists]), the name returned is used by
      no record and has the least free number, [KeyError] exactly when a
      record has no tab name, and the result does not depend on the order of
      the records ([Proper] instance for permutations).
    - [TabNameLoop]: the probing loop as a transition system on its two
      variables ([probe_state], [probe_body], [probe_init]); [probe] is its
      run on fuel.  Theorems: the invariant of the reachable states (the
      name is that of the counter, all smaller numbers are taken, the
      counter is bounded by the number of names); strong normalisation from
      every state; the run eventually leaves the loop with the result of
      the function, after as many iterations as the number in the name.
      [get_new_graph_tab_name_wf] is the function without fuel, with the
      type of the source; the function on fuel returns its value.
    - [GraphRegistry]: the caller of [get_new_graph_tab_name], which is
      outside the sources and is modelled from the specification: a
      request chooses a name and stores a record with it under the graph
      id ([add_graph_tab], with Python's dictionary assignment [dict_set]).
      Theorems: requests served one after the other keep the registry well
      formed ([registry_wf]: every record has a tab name, no two the same);
      from the empty registry they get [graph0], [graph1], ... in order.
    - [ParamCode]: [param_dict_to_code]; the [for] loop is [for_items], the
      body of the function [dict_to_code], the [isinstance] dispatch with the
      recursive call [code_chunk].  The reference definition [code_spec]
      writes the text as opening, joined entries, closing.  Theorems: the
      loop computes the reference text; the single-line layout has no line
      break on flat dictionaries and has one on nested dictionaries; both
      layouts agree up to white space; the text is balanced and nests as
      deep as the dictionaries.
    - [ParamParse]: a parser [parse] of the generated text, which is not
      code of the repository but the specification of what the text means,
      and the class [LiteralCodec] of converters whose literals can be read
      back.  Theorems: [parse] reads the text of a well-formed dictionary
      back as that dictionary, from both layouts (round trip), so the text
      determines the dictionary; below the top level [parse_value] reads
      the [dict(...)] call back; the sample converter is an instance.  The
      parser runs on fuel, one unit per item and per dictionary, and the
      length of the text is enough.
    - [HtmlScript]: [get_html_and_script_from_figure]; the container slice is
      [get_div], the [while] loop [script_loop], the rendering engine the
      class [Renderer].  A document is abstractly a list of [segment]s;
      theorems: on the rendering of a well-formed document the loop returns
      the bodies of the scripts in order (refinement); the function returns
      on every text; the container slice excludes the closing tag, is empty
      without the marker, and loses the last character without a closing
      tag, and these three cases are the only ones ([get_div_cases]); a
      script element that is never closed is dropped.  [script_body]
      is one iteration of the loop on the pair of its variables.
    - [HtmlDocument]: [document_of] cuts any text into the segments and the
      rest the loop sees.  Theorems: a text is the rendering of its
      document, which is well formed, and the document of a rendering is
      the document rendered (round trip); hence the refinement theorem holds
      for every text, and the script is never longer than the text.
    - [ScriptLoop]: the script loop as a transition system on the pair
      [(script, index)] ([script_body] of [HtmlScript], [script_init]);
      [script_loop] is its run on fuel.  Theorems: the reachable states
      are exactly the states [script_state_at] of the document of the text,
      one per script element (a simulation by the number of elements
      consumed); [index] stays inside the text and [script] is no longer
      than [index]; strong normalisation from every pair, negative index
      included; the run of the function eventually leaves the loop with its
      result.  [get_html_and_script_from_figure_wf] is the function without
      fuel, which returns the dictionary itself; the function on fuel
      returns its value.
    - [GraphParam]: [get_column_header_from_optional_column_id_graph_param]
      with the state manager's tables as [State].  Theorems: when a header
      is returned and which; [None] on an absent parameter; the only
      [KeyError] is that of a missing [sheet_index]; a negative
      [sheet_index] counts from the end and one out of range raises
      [IndexError]; the function returns exactly on the [resolvable]
      parameters, and the exception of a call that raises is
      [resolve_error], which the parameter asked for does not change.
      The result is [Ok (Some header)] for a header and [Ok None] for
      Python's [None]; a header is a value of a column label, which the
      state manager never leaves [None], so the two are not confused.
    - [GraphRequest]: the graph-render request of the specification
      (sections 2, 6 and 7), which composes the functions: [axis_headers]
      resolves an optional column parameter to at most one header,
      [graph_outputs_of] builds the title, the code of the parameter tree
      and the fragments of its rendering, [graph_request] does the one
      then the other.  The assembly of the tree from the headers is a
      parameter; the engine is a [Renderer] on parameter trees.
      Theorems: the request returns exactly when both parameters are
      resolvable and the graph type is known, and what it raises
      otherwise; the two resolutions commute; an unresolvable parameter
      is left out.
    - [Installer]: the installer steps as programs [prog] over the commands
      [cmd] of the host, with [try_except]; [exec] runs a program against a
      host and records the commands issued; [run_installer_steps] is the
      runner, which is outside the sources and is modelled from the
      specification as the sequence that stops at the first step that
      raises, and [installer] is the runner on [MITOSHEET_INSTALLER_STEPS];
      [eqp] is equality of programs up
      to their continuations, with [Proper] instances for [exec], bind and
      [try_except].  Theorems: the verdict of the dependency check; the
      installation step equals the [try] that raises again (the branch
      under [if False] is dead); a rejected environment stops the installer
      before any package is touched; a successful run issues the five
      commands in order; no run asks the user or installs with
      [user_install].
    - [InstallerRun]: the run of a program one command at a time: a
      [config] is the program left, the state of the host and the commands
      issued, [run_body] issues the next command.  Theorems: [exec] is the
      result of the run, one step per command; at every moment of a run of
      the installer the commands issued are a beginning of the complete or
      of the failed installation; the installer is the decision tree
      [installer_outcome] on the answers of the host; it returns exactly
      when the environment is compatible and every command succeeds in its
      turn, and then the run reaches the end of the steps; a failed
      installation is not rolled back; every run stops within five
      commands.
    - [InstallerHost]: the class [PipHost] of the hosts that keep what the
      installer relies on from its commands (an uninstallation that returns
      has removed the packages it names, an installation that returns has
      installed them, no other package is installed, the other commands
      touch none).  Theorems, for every host of the class: when the
      installer returns, [mitosheet] is installed and [mitosheet3] is not;
      when the installation raises after the removal, [mitosheet3] is gone
      and [mitosheet] is there only if it was before; a rejected
      environment keeps its packages.  The simulated machine is an
      instance.

    ** Conventions

    - A Python [str] is a [list ascii]; a character is the code point of its
      number, below 256.  The markers the sources search for are ASCII.
    - A Python [int] is a [Z] wherever the source can see a negative value
      ([find] returns [-1] and the source feeds it back as a start index,
      [level] is a parameter); a length is a [nat] inside the model and is
      converted where the source compares it.
    - A dictionary that the source iterates is the list of its items in
      iteration order; a dictionary that the source only looks up is a
      [gmap].  A list of items may repeat a key, which a Python dictionary
      cannot: the theorems on such a dictionary hold for every list, hence
      for the lists without a repeated key, and [registry_wf] asks for
      distinct keys where the caller relies on them.
    - An exception is a value [Raise e] of [result]; a function that cannot
      raise returns its value directly.
    - A [while] loop is a [Fixpoint] on a fuel argument and returns [None]
      only when the fuel runs out.  [get_new_graph_tab_name] gives [probe]
      one more unit than there are records: among that many candidate names
      one is free.  [get_html_and_script_from_figure] gives [script_loop]
      one more unit than the document has characters: every iteration moves
      [index] forward by at least the 9 characters of the closing tag.  Both
      functions are proved to return with that fuel on every input, and
      both loops are proved strongly normalising as relations, without
      fuel ([TabNameLoop], [ScriptLoop]).  From those proofs each function
      is also defined without fuel, with the result type of the source,
      and the function on fuel is proved to return its value.  The proof
      of termination is put behind [2 ^ 32] constructors, so the functions
      without fuel evaluate as well.
    - A step of the installer is a finite tree of commands; the host is a
      parameter of [exec], any function from commands and states to answers.

    ** Not modelled

    The rendering engine (plotly's [write_html]), the converter
    [column_header_to_transpiled_code], the state manager and the commands
    of the installer are outside [src/]: the components that call them take
    them as a class or as a parameter, and the theorems hold for every
    instance.  The methods of [Transpiler] and [Renderer] are total
    functions: a converter or an engine that raises is not modelled, and
    the source does not catch what they raise.  What [pip] and [jupyter] do to a real machine is not
    modelled: [PipHost] states the few facts about packages the installer
    relies on, and nothing about dependencies, versions or the files of
    the extension.  The graph step that calls [get_new_graph_tab_name] is
    outside [src/] too; of it only the storing of the chosen name and
    the order in which it calls the functions are modelled, from the
    specification, and how it assembles the parameter tree is a parameter.
    The runner of the installer steps and the class [InstallerStep] are
    outside [src/] as well: the theorems on the whole installer go through
    the modelled runner, and say nothing of what the real runner logs or
    reports around the steps.  The frontend that inserts the markup in the
    page and executes the script entry is not in the repository and is not
    modelled: what is proved stops at the pair the extractor returns.
    Floats, timestamps and tuples as parameter values are left out of [pyval]: Python's text of a float is
    the shortest decimal that reads back as the same double, which the
    model of [str] does not cover, and no modelled function looks inside a
    header beyond [str()].  Characters above code point 255 are not
    represented; the functions of [graph_utils.py] only compare characters
    for equality, and the classes of characters the installer tests
    ([isspace], [lower]) are modelled on the range below 256. *)

From Stdlib Require Export Ascii ZArith Lia.
From stdpp Require Export base tactics option list strings.

#[global] Open Scope Z_scope.

Declare Scope py_scope.
Delimit Scope py_scope with py.
#[global] Open Scope py_scope.

(** ** Python strings and string literals *)

Abbreviation str := (list ascii).

Definition lit (s : string) : str := String.list_ascii_of_string s.

Coercion lit : string >-> list.

(** The double quote and the line feed, which a literal cannot hold. *)
Definition dquote : ascii := "034"%char.
Definition newline : ascii := "010"%char.

(** ** Exceptions and fallible results *)

(** The exceptions the modelled code can raise. [KeyError] carries the
    missing key, [Exception] its message. *)
Inductive exn : Type :=
  | KeyError (key : str)
  | IndexError
  | TypeError
  | Exception (msg : str).

Inductive result (A : Type) : Type :=
  | Ok (a : A)
  | Raise (e : exn).

Arguments Ok {A} a.
Arguments Raise {A} e.

#[export] Instance exn_eq_dec : EqDecision exn.
Proof. solve_decision. Defined.

#[export] Instance result_eq_dec `{EqDecision A} : EqDecision (result A).
Proof. solve_decision. Defined.

#[export] Instance result_ret : MRet result := @Ok.

#[export] Instance result_bind : MBind result := fun A B f m =>
  match m with
  | Ok a => f a
  | Raise e => Raise e
  end.

#[export] Instance result_fmap : FMap result := fun A B f m =>
  match m with
  | Ok a => Ok (f a)
  | Raise e => Raise e
  end.

(** [of_option e o]: the value of [o], or the exception [e] when there is
    none (a dictionary or list access that fails). *)
Definition of_option {A} (e : exn) (o : option A) : result A :=
  match o with
  | Some a => Ok a
  | None => Raise e
  end.

Definition is_Ok {A} (r : result A) : Prop := exists a, r = Ok a.

(** [mapR f l]: [f] on each element in order, stopping at the first
    exception (a [for] loop that appends [f x] to a list). *)
Fixpoint mapR {A B} (f : A -> result B) (l : list A) : result (list B) :=
  match l with
  | [] => Ok []
  | x :: l' => y ← f x; ys ← mapR f l'; Ok (y :: ys)
  end.

(** ** Tactics *)

(** Case analysis on the boolean comparisons of integers in the goal or in a
    hypothesis, keeping the fact in the context for [lia]. *)
Ltac case_cmp :=
  repeat match goal with
  | |- context [?a <? ?b] => destruct (Z.ltb_spec a b)
  | |- context [?a <=? ?b] => destruct (Z.leb_spec a b)
  | |- context [?a =? ?b] => destruct (Z.eqb_spec a b)
  | H : context [?a <? ?b] |- _ => destruct (Z.ltb_spec a b)
  | H : context [?a <=? ?b] |- _ => destruct (Z.leb_spec a b)
  | H : context [?a =? ?b] |- _ => destruct (Z.eqb_spec a b)
  end.

(** Case analysis on a [result] or [option] scrutinised in the goal. *)
Ltac case_result :=
  match goal with
  | |- context [match ?r with Ok _ => _ | Raise _ => _ end] =>
      let E := fresh "E" in destruct r eqn:E
  | |- context [mbind _ ?r] => let E := fresh "E" in destruct r eqn:E
  end.

(** Concatenations in normal form: no empty right operand, nested to the
    right, literals pushed through. *)
Ltac str_norm := repeat (rewrite ?app_nil_r, <- ?app_assoc; simpl).

(** Decide a closed decidable proposition by evaluation. *)
Ltac by_compute := apply (bool_decide_unpack _); vm_compute; exact I.

Create HintDb py discriminated.
Create Rewrite HintDb py.

(** ** Shared lemmas *)

Section Result.
Context {A B : Type}.
Implicit Types (f : A -> result B) (m : result A).

Lemma bind_Ok f a : (Ok a ≫= f) = f a.
Proof. reflexivity. Qed.

Lemma bind_Raise f e : (Raise e ≫= f) = Raise e.
Proof. reflexivity. Qed.

Lemma bind_Ok_inv f m b :
  (m ≫= f) = Ok b -> exists a, m = Ok a /\ f a = Ok b.
Proof. destruct m; [eauto | discriminate]. Qed.

Lemma is_Ok_Ok (a : A) : is_Ok (Ok a).
Proof. by exists a. Qed.

Lemma is_Ok_Raise e : ~ is_Ok (@Raise A e).
Proof. by intros [? ?]. Qed.

Lemma of_option_Ok e (o : option A) a : of_option e o = Ok a <-> o = Some a.
Proof. destruct o; simpl; split; congruence. Qed.

Lemma of_option_Raise e (o : option A) e' :
  of_option e o = Raise e' <-> o = None /\ e' = e.
Proof. destruct o; simpl; split; [congruence | intros [? _]; congruence | intros [= ->]; done | intros [_ ->]; done]. Qed.

Lemma mapR_Ok_fmap (g : A -> B) l : mapR (fun x => Ok (g x)) l = Ok (g <$> l).
Proof. induction l as [|x l IH]; simpl; [done|]. by rewrite IH. Qed.

Lemma mapR_Ok_length f l ys : mapR f l = Ok ys -> length ys = length l.
Proof.
  revert ys. induction l as [|x l IH]; simpl; intros ys H.
  - by inv H.
  - destruct (f x); [|discriminate]. simpl in H.
    destruct (mapR f l); [|discriminate]. inv H. simpl. f_equal. by apply IH.
Qed.

Lemma mapR_Ok_Forall2 f l ys :
  mapR f l = Ok ys <-> Forall2 (fun x y => f x = Ok y) l ys.
Proof.
  revert ys. induction l as [|x l IH]; simpl; intros ys.
  - split; [intros [= <-]; constructor | by inversion 1].
  - split.
    + destruct (f x) eqn:E; [|discriminate]. simpl.
      destruct (mapR f l) eqn:E'; [|discriminate]. intros [= <-].
      constructor; [done | by apply IH].
    + inversion 1 as [|? y ? ys' Hx Hl]; subst. rewrite Hx. simpl.
      apply IH in Hl. by rewrite Hl.
Qed.
Lemma mapR_cons_Ok f x l y ys :
  f x = Ok y -> mapR f l = Ok ys -> mapR f (x :: l) = Ok (y :: ys).
Proof. intros Hx Hl. simpl. by rewrite Hx, Hl. Qed.

Lemma mapR_Ok_elem_of f l ys y :
  mapR f l = Ok ys -> y ∈ ys <-> exists x, x ∈ l /\ f x = Ok y.
Proof.
  intros H%mapR_Ok_Forall2. induction H as [|x y' l ys Hx _ IH].
  - split; [by intros ?%elem_of_nil | by intros (? & ?%elem_of_nil & _)].
  - rewrite elem_of_cons, IH. split.
    + intros [->|(x' & ? & ?)]; [exists x | exists x']; by rewrite elem_of_cons; auto.
    + intros (x' & [->|?]%elem_of_cons & Hx'); [left; congruence | right; eauto].
Qed.

Lemma mapR_Raise f l e :
  mapR f l = Raise e -> exists x, x ∈ l /\ f x = Raise e.
Proof.
  induction l as [|x l IH]; simpl; [done|].
  destruct (f x) as [y|e'] eqn:Hx; simpl.
  - destruct (mapR f l) as [ys|e'']; simpl; [done|]. intros [= ->].
    destruct IH as (x' & ? & ?); [done|]. exists x'. by rewrite elem_of_cons; auto.
  - intros [= ->]. exists x. by rewrite elem_of_cons; auto.
Qed.

Lemma mapR_Ok_or_Raise f l :
  (exists ys, mapR f l = Ok ys) \/ (exists e, mapR f l = Raise e).
Proof. destruct (mapR f l); eauto. Qed.

(** When [f] can raise only [e0], the outcome of [mapR] does not depend on
    the order of the list, up to the order of the results. *)
Lemma mapR_Permutation f e0 l l' :
  (forall x e, f x = Raise e -> e = e0) -> l ≡ₚ l' ->
  match mapR f l, mapR f l' with
  | Ok ys, Ok ys' => ys ≡ₚ ys'
  | Raise e, Raise e' => e = e'
  | _, _ => False
  end.
Proof.
  intros He Hp.
  induction Hp as [|x l l' Hp IH|x y l|l l' l'' _ IH1 _ IH2]; simpl.
  - done.
  - destruct (f x); simpl; [|done].
    destruct (mapR f l), (mapR f l'); simpl; try done. by constructor.
  - destruct (f x) eqn:Hx, (f y) eqn:Hy, (mapR f l) eqn:E; simpl;
      try done; try (by constructor); apply He in Hx, Hy; congruence.
  - destruct (mapR f l), (mapR f l'), (mapR f l''); try done; by etrans.
Qed.
End Result.

#[export] Hint Rewrite @bind_Ok @bind_Raise : py.

(** ** Independent computations *)

(** Two fallible computations commute when running them in either order
    gives the same pair of values or the same exception: the order matters
    only when both raise, and raise different exceptions. *)
Definition commute {A B} (a : result A) (b : result B) : Prop :=
  (x ← a; y ← b; Ok (x, y)) = (y ← b; x ← a; Ok (x, y)).

Section Commute.
Context {A B : Type}.
Implicit Types (a : result A) (b : result B).

Lemma commute_iff a b :
  commute a b <-> is_Ok a \/ is_Ok b \/ exists e, a = Raise e /\ b = Raise e.
Proof.
  unfold commute. destruct a as [x|e], b as [y|e']; cbn.
  - split; [left; apply is_Ok_Ok | done].
  - split; [left; apply is_Ok_Ok | done].
  - split; [right; left; apply is_Ok_Ok | done].
  - split.
    + intros [= ->]. right. right. by exists e'.
    + intros [[? ?]|[[? ?]|(? & [= ->] & [= ->])]]; done.
Qed.

(** Commuting computations can be swapped in front of any continuation. *)
Lemma commute_elim {C} a b (f : A -> B -> result C) :
  commute a b -> (x ← a; y ← b; f x y) = (y ← b; x ← a; f x y).
Proof.
  intros [[x ->]|[[y ->]|(e & -> & ->)]]%commute_iff;
    [by destruct b | by destruct a | done].
Qed.

End Commute.

Lemma commute_sym {A B} (a : result A) (b : result B) :
  commute a b -> commute b a.
Proof. rewrite !commute_iff. intros [?|[?|(e & ? & ?)]]; eauto. Qed.

(** Lists. *)

Lemma length_omap_le {A B} (f : A -> option B) (l : list A) :
  (length (omap f l) <= length l)%nat.
Proof.
  induction l as [|x l IH]; [done|]. csimpl. destruct (f x); simpl; lia.
Qed.

(** A list contained in a list without duplicates has none. *)
Lemma submseteq_NoDup {A} (l k : list A) : l ⊆+ k -> NoDup k -> NoDup l.
Proof.
  intros [k' Hp]%submseteq_Permutation. rewrite Hp. by intros [? _]%NoDup_app.
Qed.

Lemma submseteq_Forall {A} (P : A -> Prop) (l k : list A) :
  l ⊆+ k -> Forall P k -> Forall P l.
Proof.
  intros [k' Hp]%submseteq_Permutation. rewrite Hp. by intros [? _]%Forall_app.
Qed.

(** Integers and lengths. *)

Lemma Z_to_nat_of_nat_sub (a b : nat) :
  Z.to_nat (Z.of_nat a - Z.of_nat b) = (a - b)%nat.
Proof. lia. Qed.

Lemma lit_inj (s t : string) : lit s = lit t -> s = t.
Proof.
  unfold lit. intros H.
  rewrite <- (String.string_of_list_ascii_of_string s),
          <- (String.string_of_list_ascii_of_string t).
  by rewrite H.
Qed.

#[export] Instance lit_Inj : Inj (=) (=) lit.
Proof. exact lit_inj. Qed.
