(* ===== verification/Loop.v ===== *)
(** * Loop: [while] loops as transition systems

    The sources have three loops whose number of iterations is not the length
    of a list: the probing loop of [get_new_graph_tab_name], the script loop
    of [get_html_and_script_from_figure], and the run of an installer program
    against its host.  This file is what they share.

    A loop is given by its [body : St -> St + Res]: one evaluation of the
    test and, when it holds, of the loop body ([inl], the next state of the
    loop variables), or the value the code after the loop computes ([inr]).
    From it come the one-step relation [step], the exit relation [exits],
    the run on fuel [iterate] (the form in which the components define their
    loops), the big-step relation [returns], and [eventually], the states a
    run is bound to reach.

    The lemmas are those every loop needs: the relation is deterministic and
    a state steps or exits; [iterate] computes [returns] and only gains from
    more fuel; an invariant of [step] holds on every reachable state; a
    measure that decreases along [step] under an invariant bounds the number
    of iterations, so the loop returns within that fuel, is strongly
    normalising, and eventually exits in a state that satisfies the
    invariant.  On a strongly normalising state the loop is also a total
    function, [run], defined by recursion on the proof of normalisation,
    and [loop] when every state is; the run on fuel returns its value. *)

From stdpp Require Import relations.
From S2P Require Import Prelude.

Section Loop.
Context {St Res : Type}.
Variable body : St -> St + Res.
Implicit Types (s : St) (r : Res) (P Q I : St -> Prop).

(** ** The semantics of a loop *)

(** One iteration: the test holds and the body leads from [s] to [s']. *)
Inductive step : relation St :=
  | step_body s s' : body s = inl s' -> step s s'.

(** The loop is left in [s] with the value [r]. *)
Definition exits s r : Prop := body s = inr r.

Definition halted s : Prop := exists r, exits s r.

(** The run with at most [fuel] evaluations of the test; [None] only when
    the fuel runs out. *)
Fixpoint iterate (fuel : nat) s : option Res :=
  match fuel with
  | O => None
  | S fuel' =>
      match body s with
      | inl s' => iterate fuel' s'
      | inr r => Some r
      end
  end.

(** The loop started in [s] is left with [r]. *)
Inductive returns : St -> Res -> Prop :=
  | returns_exit s r : body s = inr r -> returns s r
  | returns_step s s' r : body s = inl s' -> returns s' r -> returns s r.

(** The run from [s] reaches a state that satisfies [P].  The steps are
    deterministic, so this is the run, not one run among others
    ([eventually_unfold]). *)
Inductive eventually P s : Prop :=
  | eventually_now : P s -> eventually P s
  | eventually_step s' : step s s' -> eventually P s' -> eventually P s.

(** ** One step *)

Lemma step_iff s s' : step s s' <-> body s = inl s'.
Proof. split; [by intros [] | by constructor]. Qed.

Lemma step_det s s1 s2 : step s s1 -> step s s2 -> s1 = s2.
Proof. rewrite !step_iff. congruence. Qed.

#[export] Instance halted_dec s : Decision (halted s).
Proof.
  unfold halted, exits. destruct (body s) as [s'|r].
  - right. by intros [r ?].
  - left. by exists r.
Defined.

(** A state exits or steps, never both. *)
Lemma halted_nf s : halted s <-> nf step s.
Proof.
  unfold halted, exits, nf, red. setoid_rewrite step_iff.
  destruct (body s) as [s'|r].
  - split; [by intros [] | intros []; by exists s'].
  - split; [by intros _ [] | by exists r].
Qed.

Definition step_or_exit s : {s' | step s s'} + {r | exits s r} :=
  match body s as b return body s = b -> _ with
  | inl s' => fun E => inl (exist _ s' (step_body s s' E))
  | inr r => fun E => inr (exist _ r E)
  end eq_refl.

(** The run without fuel, from a state from which every run is finite: the
    recursion is on the proof of that, so the loop is a total function
    there. *)
Fixpoint run s (a : sn step s) {struct a} : Res :=
  match step_or_exit s with
  | inl (exist _ s' Hs) => run s' (Acc_inv a Hs)
  | inr (exist _ r _) => r
  end.

(** A loop that ends from every state, as a total function of the state.
    The proof of termination is put behind [2 ^ 32] constructors, so that
    evaluation runs that many iterations without looking into it. *)
Definition loop (terminates : forall s, sn step s) s : Res :=
  run s (Acc_intro_generator 32 terminates s).

(** ** Fuel *)

Lemma iterate_exit fuel s r : exits s r -> iterate (S fuel) s = Some r.
Proof. unfold exits. simpl. by intros ->. Qed.

Lemma iterate_step fuel s s' : step s s' -> iterate (S fuel) s = iterate fuel s'.
Proof. intros E%step_iff. simpl. by rewrite E. Qed.

Lemma iterate_mono fuel fuel' s r :
  iterate fuel s = Some r -> (fuel <= fuel')%nat -> iterate fuel' s = Some r.
Proof.
  revert fuel' s. induction fuel as [|fuel IH]; intros [|fuel'] s; try done; [lia|].
  simpl. destruct (body s); [|done]. intros ? ?. apply IH; [done | lia].
Qed.

Lemma iterate_returns fuel s r : iterate fuel s = Some r -> returns s r.
Proof.
  revert s. induction fuel as [|fuel IH]; intros s; [done|]. simpl.
  destruct (body s) as [s'|r'] eqn:E.
  - intros ?%IH. by eapply returns_step.
  - intros [= ->]. by apply returns_exit.
Qed.

Lemma returns_iterate s r : returns s r -> exists fuel, iterate fuel s = Some r.
Proof.
  induction 1 as [s r E|s s' r E _ [fuel IH]].
  - exists 1%nat. by apply iterate_exit.
  - exists (S fuel). by rewrite (iterate_step _ _ s') by by constructor.
Qed.

Lemma returns_det s r1 r2 : returns s r1 -> returns s r2 -> r1 = r2.
Proof.
  intros [n1 H1]%returns_iterate [n2 H2]%returns_iterate.
  apply (iterate_mono _ (n1 `max` n2)) in H1, H2; [congruence | lia..].
Qed.

(** The run as a sequence of steps: [iterate] returns within [fuel] exactly
    when fewer than [fuel] steps lead to a state that exits. *)
Lemma iterate_nsteps fuel s r :
  iterate fuel s = Some r <->
  exists k s', (k < fuel)%nat /\ nsteps step k s s' /\ exits s' r.
Proof.
  revert s. induction fuel as [|fuel IH]; intros s.
  { split; [done | intros (? & ? & ? & _); lia]. }
  destruct (step_or_exit s) as [[s1 Hs]|[r1 Hr]].
  - rewrite (iterate_step _ _ _ Hs), IH. split.
    + intros (k & s' & ? & ? & ?). exists (S k), s'. split_and!; [lia | | done].
      by eapply nsteps_l.
    + intros (k & s' & ? & Hk & He). inversion Hk as [|k' ? s2 ? Hs2 Hk']; subst.
      * apply step_iff in Hs. unfold exits in He. congruence.
      * rewrite (step_det _ _ _ Hs Hs2). exists k', s'. split_and!; [lia | done..].
  - rewrite (iterate_exit _ _ _ Hr). split.
    + intros [= <-]. exists 0%nat, s. split_and!; [lia | constructor | done].
    + intros (k & s' & _ & Hk & He). inversion Hk as [|? ? s2 ? Hs2]; subst.
      * unfold exits in *. congruence.
      * apply step_iff in Hs2. unfold exits in Hr. congruence.
Qed.

Lemma nsteps_det k s s1 s2 : nsteps step k s s1 -> nsteps step k s s2 -> s1 = s2.
Proof.
  intros H1. revert s2. induction H1 as [|k s s' s1 Hs _ IH]; intros s2 H2.
  - by inversion H2.
  - inversion H2 as [|? ? s'' ? Hs' H2']; subst.
    rewrite <- (step_det _ _ _ Hs Hs') in H2'. by apply IH.
Qed.

(** No run is longer than the run to an exit. *)
Lemma nsteps_exits_le n k s s1 s2 r :
  nsteps step n s s1 -> exits s1 r -> nsteps step k s s2 -> (k <= n)%nat.
Proof.
  intros Hn He Hk. destruct (decide (k <= n)%nat) as [|Hgt]; [done|exfalso].
  replace k with (n + S (k - n - 1))%nat in Hk by lia.
  apply nsteps_add_inv in Hk as (s' & Hn' & Hrest).
  rewrite <- (nsteps_det _ _ _ _ Hn Hn') in Hrest.
  inversion Hrest as [|? ? s'' ? Hs%step_iff]; subst. unfold exits in He. congruence.
Qed.

Lemma returns_rtc s r : returns s r <-> exists s', rtc step s s' /\ exits s' r.
Proof.
  split.
  - intros [fuel (k & s' & _ & Hk & He)%iterate_nsteps]%returns_iterate.
    exists s'. split; [by eapply rtc_nsteps_2 | done].
  - intros (s' & [k Hk]%rtc_nsteps & He). apply (iterate_returns (S k)).
    apply iterate_nsteps. exists k, s'. split_and!; [lia | done..].
Qed.

(** ** The run without fuel *)

Lemma run_returns s (a : sn step s) : returns s (run s a).
Proof.
  induction a as [s a IH] using Acc_inv_dep. simpl.
  destruct (step_or_exit s) as [[s' Hs]|[r Hr]].
  - eapply returns_step; [by apply step_iff | apply IH].
  - by apply returns_exit.
Qed.

(** The value does not depend on the proof of termination. *)
Lemma run_irrel s (a a' : sn step s) : run s a = run s a'.
Proof. eapply returns_det; apply run_returns. Qed.

Lemma run_exit s (a : sn step s) r : exits s r -> run s a = r.
Proof. intros Hr. eapply returns_det; [apply run_returns | by apply returns_exit]. Qed.

Lemma run_step s s' (a : sn step s) (a' : sn step s') : step s s' -> run s a = run s' a'.
Proof.
  intros Hs%step_iff. eapply returns_det; [apply run_returns|].
  eapply returns_step; [done | apply run_returns].
Qed.

(** The run on fuel, when it returns, returns the value of [run]; and some
    fuel is enough. *)
Lemma iterate_run fuel s (a : sn step s) r : iterate fuel s = Some r -> r = run s a.
Proof. intros ?%iterate_returns. eapply returns_det; [done | apply run_returns]. Qed.

Lemma run_iterate s (a : sn step s) : exists fuel, iterate fuel s = Some (run s a).
Proof. apply returns_iterate, run_returns. Qed.

Section Total.
Context (terminates : forall s, sn step s).

Lemma loop_returns s : returns s (loop terminates s).
Proof. apply run_returns. Qed.

Lemma loop_unfold s :
  loop terminates s =
  match body s with
  | inl s' => loop terminates s'
  | inr r => r
  end.
Proof.
  destruct (body s) as [s'|r] eqn:E.
  - by apply run_step, step_iff.
  - by apply run_exit.
Qed.

Lemma iterate_loop fuel s r : iterate fuel s = Some r -> r = loop terminates s.
Proof. apply iterate_run. Qed.

Lemma loop_iterate s : exists fuel, iterate fuel s = Some (loop terminates s).
Proof. apply run_iterate. Qed.

End Total.

(** ** Invariants *)

Lemma rtc_invariant I s s' :
  (forall s1 s2, I s1 -> step s1 s2 -> I s2) -> I s -> rtc step s s' -> I s'.
Proof. intros Hpres Hs Hrtc. induction Hrtc; eauto. Qed.

(** ** Eventually *)

Lemma eventually_mono P Q s :
  (forall s', P s' -> Q s') -> eventually P s -> eventually Q s.
Proof. intros HPQ. induction 1; [apply eventually_now | eapply eventually_step]; eauto. Qed.

Lemma eventually_trans P Q s :
  eventually P s -> (forall s', P s' -> eventually Q s') -> eventually Q s.
Proof. intros H HPQ. induction H; [|eapply eventually_step]; eauto. Qed.

Lemma eventually_rtc P s : eventually P s <-> exists s', rtc step s s' /\ P s'.
Proof.
  split.
  - induction 1 as [s|s s1 Hs _ (s' & ? & ?)]; [by exists s|].
    exists s'. split; [by eapply rtc_l | done].
  - intros (s' & Hrtc & HP). induction Hrtc; [by apply eventually_now|].
    eapply eventually_step; eauto.
Qed.

(** The steps being deterministic, what the run eventually reaches is what
    every continuation of it reaches. *)
Lemma eventually_unfold P s :
  eventually P s <->
  P s \/ (red step s /\ forall s', step s s' -> eventually P s').
Proof.
  split.
  - intros [?|s1 Hs Hev]; [by left|]. right. split; [by exists s1|].
    intros s' Hs'. by rewrite <- (step_det _ _ _ Hs Hs').
  - intros [?|[[s1 Hs] Hall]]; [by apply eventually_now|].
    eapply eventually_step; eauto.
Qed.

Lemma eventually_halted s : eventually halted s <-> exists r, returns s r.
Proof.
  rewrite eventually_rtc. split.
  - intros (s' & ? & r & ?). exists r. apply returns_rtc. eauto.
  - intros (r & (s' & ? & ?)%returns_rtc). exists s'. split; [done | by exists r].
Qed.

(** ** Termination by a measure *)

Section Measure.
Context (I : St -> Prop) (measure : St -> nat).
Hypothesis step_decreases :
  forall s s', I s -> step s s' -> I s' /\ (measure s' < measure s)%nat.

Lemma measure_nsteps k s s' :
  I s -> nsteps step k s s' -> I s' /\ (k + measure s' <= measure s)%nat.
Proof.
  intros Hs Hk. induction Hk as [|k s s1 s' Hstep _ IH]; [split; [done | lia]|].
  destruct (step_decreases _ _ Hs Hstep) as [H1 ?].
  destruct (IH H1). split; [done | lia].
Qed.

(** The loop returns within [measure s] iterations, from a state in which
    the invariant still holds. *)
Lemma measure_iterate s :
  I s ->
  exists k s' r, (k <= measure s)%nat /\ nsteps step k s s' /\ I s' /\ exits s' r /\
    iterate (S (measure s)) s = Some r.
Proof.
  remember (measure s) as n eqn:Hn. revert s Hn.
  induction n as [n IH] using lt_wf_ind. intros s -> Hs.
  destruct (step_or_exit s) as [[s1 Hstep]|[r Hr]].
  - destruct (step_decreases _ _ Hs Hstep) as [H1 Hlt].
    destruct (IH _ Hlt s1 eq_refl H1) as (k & s' & r & ? & ? & ? & ? & Hit).
    exists (S k), s', r. split_and!; [lia | by eapply nsteps_l | done.. |].
    rewrite (iterate_step _ _ _ Hstep). apply (iterate_mono _ _ _ _ Hit). lia.
  - exists 0%nat, s, r. split_and!; [lia | constructor | done.. |].
    by apply iterate_exit.
Qed.

Lemma measure_returns s : I s -> exists r, returns s r.
Proof.
  intros (_ & _ & r & _ & _ & _ & _ & Hit)%measure_iterate.
  exists r. by eapply iterate_returns.
Qed.

Lemma measure_eventually s : I s -> eventually (fun s' => I s' /\ halted s') s.
Proof.
  intros (k & s' & r & _ & Hk & ? & ? & _)%measure_iterate.
  apply eventually_rtc. exists s'. split; [by eapply rtc_nsteps_2|].
  split; [done | by exists r].
Qed.

Lemma measure_sn s : I s -> sn step s.
Proof.
  remember (measure s) as n eqn:Hn. revert s Hn.
  induction n as [n IH] using lt_wf_ind. intros s -> Hs.
  constructor. intros s' Hstep. destruct (step_decreases _ _ Hs Hstep).
  by eapply IH.
Qed.

(** The fuel [S (measure s)] gives the value of the run without fuel. *)
Lemma measure_iterate_run s (a : sn step s) :
  I s -> iterate (S (measure s)) s = Some (run s a).
Proof.
  intros (_ & _ & r & _ & _ & _ & _ & Hit)%measure_iterate.
  by rewrite Hit, (iterate_run _ _ a r Hit).
Qed.

Lemma measure_iterate_loop terminates s :
  I s -> iterate (S (measure s)) s = Some (loop terminates s).
Proof. apply measure_iterate_run. Qed.

End Measure.

End Loop.

Arguments step_body {St Res body}.
Arguments returns_exit {St Res body}.
Arguments returns_step {St Res body}.
