(* ===== verification/PyStr.v ===== *)
(** * PyStr: the Python string operations the sources call

    [len], slicing, [str.find], [str.startswith], [str.join], repetition
    ([s * n]) and the decimal text of an integer, as functions on [str], with
    the lemmas the components use: where [find] lands in a concatenation,
    what a slice of a concatenation is, and that distinct numbers have
    distinct texts.  Indices are [Z], as in Python: [find] answers [-1] for
    "absent", and a negative index given to [find] or to a slice counts from
    the end of the string. *)

From stdpp Require Import pretty.
From S2P Require Import Prelude.

(** ** Operations *)

(** [len(s)]. *)
Definition len (s : str) : Z := Z.of_nat (length s).

(** How a slice bound [i] is read against a sequence of length [n]: a
    negative bound counts from the end, and the result is clamped to
    [0 .. n]. *)
Definition clamp_index (n i : Z) : Z :=
  if i <? 0 then Z.max 0 (i + n) else Z.min i n.

(** [s[a:b]]. *)
Definition slice (s : str) (a b : Z) : str :=
  let i := clamp_index (len s) a in
  let j := clamp_index (len s) b in
  take (Z.to_nat (j - i)) (drop (Z.to_nat i) s).

(** [s.startswith(prefix)]. *)
Fixpoint startswith (s prefix : str) {struct prefix} : bool :=
  match prefix, s with
  | [], _ => true
  | _ :: _, [] => false
  | c :: p, d :: s' => bool_decide (c = d) && startswith s' p
  end.

(** The scan behind [find]: [s] is what is left of the string, its first
    character standing at position [i] of the whole. *)
Fixpoint find_from (s sub : str) (i : nat) : option nat :=
  if startswith s sub then Some i
  else match s with
       | [] => None
       | _ :: s' => find_from s' sub (S i)
       end.

(** [s.find(sub, start)]: the lowest index at or after [start] where [sub]
    occurs, [-1] when there is none.  [find_start] is the index the scan
    begins at: a negative [start] counts from the end (and is clamped to
    [0]); a [start] past the end finds nothing, not even the empty string. *)
Definition find_start (n start : Z) : Z :=
  if start <? 0 then Z.max 0 (start + n) else start.

Definition find (s sub : str) (start : Z) : Z :=
  let n := len s in
  let st := find_start n start in
  if n <? st then -1
  else match find_from (drop (Z.to_nat st) s) sub (Z.to_nat st) with
       | Some i => Z.of_nat i
       | None => -1
       end.

(** [sep.join(l)]. *)
Fixpoint join (sep : str) (l : list str) : str :=
  match l with
  | [] => []
  | x :: l' =>
      match l' with
      | [] => x
      | _ :: _ => x ++ sep ++ join sep l'
      end
  end.

(** [s * n]: [n] copies of [s], none when [n] is not positive. *)
Definition repeat (s : str) (n : Z) : str := mjoin (replicate (Z.to_nat n) s).

(** [str(n)] for an int [n]: its decimal digits, with a sign when negative. *)
Definition str_of_int (n : Z) : str := lit (pretty n).

(** [x in l] for a list of strings. *)
Definition str_in (x : str) (l : list str) : bool := bool_decide (x ∈ l).

(** [sub] occurs in [s] at position [k]. *)
Definition occurs_at (s sub : str) (k : nat) : Prop :=
  exists pre post, s = pre ++ sub ++ post /\ length pre = k.

(** [marks t sub]: in [t ++ sub], the first occurrence of [sub] is the one
    at the end; that is, [t] holds no occurrence of [sub], not even one that
    would run over into the [sub] that follows. *)
Definition marks (t sub : str) : Prop := find (t ++ sub) sub 0 = len t.

#[export] Instance marks_dec t sub : Decision (marks t sub).
Proof. unfold marks. apply _. Defined.

(** [overlaps u p]: [u] and [p] agree as far as both go, so that [p] could
    start where [u] starts, depending on what follows [u]. *)
Fixpoint overlaps (u p : str) : bool :=
  match u, p with
  | c :: u', d :: p' => bool_decide (c = d) && overlaps u' p'
  | _, _ => true
  end.

(** [clear_of a sub]: [sub] cannot start at any position of [a], whatever
    follows [a]. *)
Definition clear_of (a sub : str) : bool :=
  forallb (fun k => negb (overlaps (drop k a) sub)) (seq 0 (length a)).

(** ** Lengths *)

Lemma len_nil : len [] = 0.
Proof. reflexivity. Qed.

Lemma len_cons c (s : str) : len (c :: s) = 1 + len s.
Proof. unfold len. simpl. lia. Qed.

Lemma len_app (s t : str) : len (s ++ t) = len s + len t.
Proof. unfold len. rewrite length_app. lia. Qed.

Lemma len_nonneg (s : str) : 0 <= len s.
Proof. unfold len. lia. Qed.

Lemma len_to_nat (s : str) : Z.to_nat (len s) = length s.
Proof. unfold len. lia. Qed.

#[export] Hint Rewrite len_nil len_cons len_app len_to_nat : py.
#[export] Hint Resolve len_nonneg : py.

(** Arithmetic on lengths.  [len_facts] records that every length in sight
    is non-negative; [len_lia] first normalises the lengths with the
    database [py] (lengths of concatenations and of the markers a
    component registers), then calls [lia]. *)
Ltac recall_len s :=
  lazymatch goal with
  | _ : 0 <= len s |- _ => fail
  | _ => pose proof (len_nonneg s)
  end.

Ltac len_facts :=
  repeat match goal with
  | |- context [len ?s] => recall_len s
  | _ : context [len ?s] |- _ => recall_len s
  end.

Ltac len_lia := autorewrite with py in *; len_facts; lia.

(** ** [startswith] *)

Lemma startswith_prefix s p : startswith s p = true <-> p `prefix_of` s.
Proof.
  revert s. induction p as [|c p IH]; intros [|d s]; simpl.
  - split; [intros _; apply prefix_nil | done].
  - split; [intros _; apply prefix_nil | done].
  - split; [done | intros H; by apply prefix_nil_inv in H].
  - rewrite andb_true_iff, bool_decide_eq_true, IH. split.
    + intros [-> H]. by apply prefix_cons.
    + intros H. split; [by apply prefix_cons_inv_1 in H | by apply prefix_cons_inv_2 in H].
Qed.

Lemma startswith_app s t : startswith (s ++ t) s = true.
Proof. apply startswith_prefix. by apply prefix_app_r. Qed.

Lemma startswith_nil s : startswith s [] = true.
Proof. by destruct s. Qed.

Lemma startswith_length s p : startswith s p = true -> (length p <= length s)%nat.
Proof. rewrite startswith_prefix. apply prefix_length. Qed.

(** Cutting the string after the candidate occurrence does not change the
    answer. *)
Lemma startswith_app_l s t p :
  (length p <= length s)%nat -> startswith (s ++ t) p = startswith s p.
Proof.
  revert s. induction p as [|c p IH]; intros [|d s]; simpl; intros Hl; try done; try lia.
  f_equal. apply IH. lia.
Qed.

Lemma startswith_occurs s sub k :
  (k <= length s)%nat ->
  startswith (drop k s) sub = true <-> occurs_at s sub k.
Proof.
  intros Hk. rewrite startswith_prefix. split.
  - intros [post Hpost]. exists (take k s), post. split.
    + by rewrite <- Hpost, take_drop.
    + rewrite length_take. lia.
  - intros (pre & post & -> & <-). rewrite drop_app_length. by apply prefix_app_r.
Qed.

(** ** [find] *)
Lemma find_from_shift s sub i k :
  find_from s sub (i + k) = (fun j => (j + k)%nat) <$> find_from s sub i.
Proof.
  revert i. induction s as [|c s IH]; intros i; simpl.
  - by destruct (startswith [] sub).
  - destruct (startswith (c :: s) sub); [done|]. apply (IH (S i)).
Qed.

Lemma find_from_0 s sub i :
  find_from s sub i = (fun j => (j + i)%nat) <$> find_from s sub 0.
Proof. apply (find_from_shift s sub 0 i). Qed.

Lemma find_from_Some s sub i j :
  find_from s sub i = Some j <->
  exists k, j = (i + k)%nat /\ (k <= length s)%nat /\
    startswith (drop k s) sub = true /\
    forall k', (k' < k)%nat -> startswith (drop k' s) sub = false.
Proof.
  revert i j. induction s as [|c s IH]; intros i j; simpl.
  - destruct (startswith [] sub) eqn:E; split.
    + intros [= <-]. exists 0%nat. repeat split; [lia | lia | done | lia].
    + intros (k & -> & Hk & _ & _). simpl in Hk. f_equal. lia.
    + done.
    + intros (k & -> & Hk & Hs & _). simpl in Hk. replace k with 0%nat in Hs by lia.
      simpl in Hs. congruence.
  - destruct (startswith (c :: s) sub) eqn:E; split.
    + intros [= <-]. exists 0%nat. repeat split; [lia | lia | done | lia].
    + intros (k & -> & Hk & Hs & Hmin). destruct k as [|k]; [f_equal; lia|].
      specialize (Hmin 0%nat ltac:(lia)). simpl in Hmin. congruence.
    + intros (k & -> & Hk & Hs & Hmin)%IH. exists (S k). repeat split; [lia | simpl; lia | done |].
      intros [|k'] Hk'; [done|]. apply Hmin. lia.
    + intros (k & -> & Hk & Hs & Hmin). destruct k as [|k]; [simpl in Hs; congruence|].
      apply IH. exists k. repeat split; [lia | simpl in Hk; lia | done |].
      intros k' Hk'. apply (Hmin (S k')). lia.
Qed.

Lemma find_from_None s sub i :
  find_from s sub i = None <->
  forall k, (k <= length s)%nat -> startswith (drop k s) sub = false.
Proof.
  revert i. induction s as [|c s IH]; intros i; simpl.
  - destruct (startswith [] sub) eqn:E; split; try done.
    + intros H. specialize (H 0%nat ltac:(lia)). simpl in H. congruence.
    + intros _ k Hk. by replace k with 0%nat by lia.
  - destruct (startswith (c :: s) sub) eqn:E; split; try done.
    + intros H. specialize (H 0%nat ltac:(lia)). simpl in H. congruence.
    + intros H [|k] Hk; [done|]. simpl. eapply IH; [done | lia].
    + intros H. apply IH. intros k Hk. apply (H (S k)). lia.
Qed.

Lemma find_start_nonneg n start : 0 <= start -> find_start n start = start.
Proof. unfold find_start. case_cmp; lia. Qed.

Lemma find_start_range n start : 0 <= n -> 0 <= find_start n start.
Proof. unfold find_start. case_cmp; lia. Qed.

Section Find.
Context (s sub : str) (start : Z).
Let st := find_start (len s) start.
Let hit (k : Z) := startswith (drop (Z.to_nat k) s) sub.

Local Lemma st_nonneg : 0 <= st.
Proof. apply find_start_range, len_nonneg. Qed.

Lemma find_found r :
  st <= r <= len s -> hit r = true ->
  (forall k, st <= k < r -> hit k = false) ->
  find s sub start = r.
Proof.
  intros Hr Hhit Hmin. unfold find. fold st. pose proof st_nonneg as Hst.
  destruct (Z.ltb_spec (len s) st); [lia|].
  assert (find_from (drop (Z.to_nat st) s) sub (Z.to_nat st) = Some (Z.to_nat r)) as ->; [|lia].
  apply find_from_Some. exists (Z.to_nat (r - st)). unfold len in *.
  rewrite length_drop, drop_drop. repeat split; try lia.
  - by replace (Z.to_nat st + Z.to_nat (r - st))%nat with (Z.to_nat r) by lia.
  - intros k' Hk'. rewrite drop_drop.
    specialize (Hmin (st + Z.of_nat k') ltac:(lia)). unfold hit in Hmin.
    by replace (Z.to_nat (st + Z.of_nat k')) with (Z.to_nat st + k')%nat in Hmin by lia.
Qed.

Lemma find_absent :
  (forall k, st <= k <= len s -> hit k = false) -> find s sub start = -1.
Proof.
  intros Hno. unfold find. fold st. pose proof st_nonneg as Hst.
  destruct (Z.ltb_spec (len s) st); [done|].
  assert (find_from (drop (Z.to_nat st) s) sub (Z.to_nat st) = None) as ->; [|done].
  apply find_from_None. intros k Hk. rewrite length_drop in Hk. rewrite drop_drop.
  unfold len in *. specialize (Hno (st + Z.of_nat k) ltac:(lia)). unfold hit in Hno.
  by replace (Z.to_nat (st + Z.of_nat k)) with (Z.to_nat st + k)%nat in Hno by lia.
Qed.

Lemma find_inv :
  (find s sub start = -1 /\ forall k, st <= k <= len s -> hit k = false) \/
  (st <= find s sub start <= len s /\ hit (find s sub start) = true /\
   forall k, st <= k < find s sub start -> hit k = false).
Proof.
  unfold find. fold st. pose proof st_nonneg as Hst.
  destruct (Z.ltb_spec (len s) st); [left; split; [done | lia]|].
  destruct (find_from _ _ _) as [j|] eqn:E.
  - right. apply find_from_Some in E as (k & -> & Hk & Hhit & Hmin).
    rewrite length_drop in Hk. rewrite drop_drop in Hhit. unfold len in *.
    repeat split; try lia.
    + unfold hit. by rewrite Nat2Z.id.
    + intros k' Hk'. specialize (Hmin (Z.to_nat (k' - st)) ltac:(lia)).
      rewrite drop_drop in Hmin. unfold hit.
      by replace (Z.to_nat k') with (Z.to_nat st + Z.to_nat (k' - st))%nat by lia.
  - left. split; [done|]. intros k Hk.
    eapply find_from_None with (k := Z.to_nat (k - st)) in E.
    + rewrite drop_drop in E. unfold hit.
      by replace (Z.to_nat k) with (Z.to_nat st + Z.to_nat (k - st))%nat by lia.
    + rewrite length_drop. unfold len in *. lia.
Qed.
End Find.

(** Where a match can be. *)
Lemma find_range s sub start :
  find s sub start = -1 \/
  find_start (len s) start <= find s sub start <= len s - len sub.
Proof.
  destruct (find_inv s sub start) as [[-> _]|(Hr & Hhit & _)]; [by left|right].
  apply startswith_length in Hhit. rewrite length_drop in Hhit.
  unfold len in *. lia.
Qed.

Lemma find_ge_neg1 s sub start : -1 <= find s sub start.
Proof.
  pose proof (find_start_range (len s) start (len_nonneg s)).
  destruct (find_range s sub start); lia.
Qed.

Lemma find_short s sub start :
  len s - find_start (len s) start < len sub -> find s sub start = -1.
Proof. destruct (find_range s sub start); [done | lia]. Qed.

(** A match is an occurrence. *)
Lemma find_occurs s sub start :
  find s sub start <> -1 -> occurs_at s sub (Z.to_nat (find s sub start)).
Proof.
  destruct (find_inv s sub start) as [[-> _]|(Hr & Hhit & _)]; [done|intros _].
  pose proof (find_start_range (len s) start (len_nonneg s)).
  apply startswith_occurs; [unfold len in *; lia | done].
Qed.

(** [find] in a string that begins with [a], from a start past [a]. *)
Lemma find_app_skip a s sub i :
  0 <= i ->
  find (a ++ s) sub (len a + i) =
    if find s sub i =? -1 then -1 else len a + find s sub i.
Proof.
  intros Hi. len_facts.
  assert (Hd : forall k, 0 <= k -> drop (Z.to_nat (len a + k)) (a ++ s) = drop (Z.to_nat k) s).
  { intros k Hk. replace (Z.to_nat (len a + k)) with (length a + Z.to_nat k)%nat
      by (unfold len; lia). apply drop_app_add. }
  destruct (find_inv s sub i) as [[-> Hno]|(Hr & Hhit & Hmin)];
    rewrite find_start_nonneg in * by lia.
  - simpl. apply find_absent. rewrite find_start_nonneg, len_app by lia.
    intros k Hk. replace k with (len a + (k - len a)) by lia.
    rewrite Hd by lia. apply Hno. lia.
  - destruct (Z.eqb_spec (find s sub i) (-1)); [lia|].
    apply find_found; rewrite ?find_start_nonneg, ?len_app by lia; [lia | by rewrite Hd by lia |].
    intros k Hk. replace k with (len a + (k - len a)) by lia.
    rewrite Hd by lia. apply Hmin. lia.
Qed.

Lemma find_marks t sub rest start :
  marks t sub -> 0 <= start <= len t ->
  find (t ++ sub ++ rest) sub start = len t.
Proof.
  unfold marks. intros Hm Hs. len_facts.
  destruct (find_inv (t ++ sub) sub 0) as [[E _]|(_ & _ & Hmin)]; [lia|].
  rewrite Hm, find_start_nonneg in Hmin by lia.
  apply find_found; rewrite ?find_start_nonneg, ?len_app by lia.
  - len_lia.
  - rewrite len_to_nat, drop_app_length. apply startswith_app.
  - intros k Hk. rewrite app_assoc, drop_app_le by (rewrite length_app; unfold len in *; lia).
    rewrite startswith_app_l; [apply Hmin; lia|].
    rewrite length_drop, length_app. unfold len in *. lia.
Qed.

Lemma overlaps_false u p y : overlaps u p = false -> startswith (u ++ y) p = false.
Proof.
  revert p. induction u as [|c u IH]; intros [|d p]; simpl; try done.
  rewrite !andb_false_iff. intros [H|H]; [left|right; by apply IH].
  apply bool_decide_eq_false in H. apply bool_decide_eq_false. congruence.
Qed.

Lemma clear_of_spec a sub k y :
  clear_of a sub = true -> (k < length a)%nat ->
  startswith (drop k (a ++ y)) sub = false.
Proof.
  unfold clear_of. rewrite forallb_forall. intros H Hk.
  rewrite drop_app_le by lia. apply overlaps_false.
  specialize (H k). rewrite in_seq in H. apply negb_true_iff, H. lia.
Qed.

(** [find] from the start of a string that begins with [a], when [sub]
    cannot start inside [a]. *)
Lemma find_clear a s sub :
  clear_of a sub = true ->
  find (a ++ s) sub 0 = if find s sub 0 =? -1 then -1 else len a + find s sub 0.
Proof.
  intros Hc. rewrite <- (find_app_skip a s sub 0) by lia.
  len_facts.
  assert (Hpre : forall k, 0 <= k < len a ->
            startswith (drop (Z.to_nat k) (a ++ s)) sub = false).
  { intros k Hk. apply clear_of_spec; [done | unfold len in *; lia]. }
  destruct (find_inv (a ++ s) sub (len a + 0)) as [[-> Hno]|(Hr & Hhit & Hmin)];
    rewrite find_start_nonneg in * by lia.
  - apply find_absent. rewrite find_start_nonneg by lia. intros k Hk.
    destruct (Z.lt_ge_cases k (len a)); [apply Hpre | apply Hno]; lia.
  - apply find_found; rewrite ?find_start_nonneg by lia; [lia | done |].
    intros k Hk. destruct (Z.lt_ge_cases k (len a)); [apply Hpre | apply Hmin]; lia.
Qed.

(** Searching from the end of [a] for the delimiter [sub] that closes the
    text [t], directly or after an opening delimiter [o]. *)
Lemma find_app_marks a t sub rest :
  marks t sub -> find (a ++ t ++ sub ++ rest) sub (len a) = len a + len t.
Proof.
  intros Hm. len_facts.
  rewrite <- (Z.add_0_r (len a)) at 1. rewrite find_app_skip by done.
  rewrite find_marks by (done || lia).
  destruct (Z.eqb_spec (len t) (-1)); [lia | done].
Qed.

Lemma find_app_clear_marks a o t sub rest :
  clear_of o sub = true -> marks t sub ->
  find (a ++ o ++ t ++ sub ++ rest) sub (len a) = len a + len o + len t.
Proof.
  intros Hc Hm. len_facts.
  rewrite <- (Z.add_0_r (len a)) at 1. rewrite find_app_skip by done.
  rewrite find_clear, find_marks by (done || lia).
  destruct (Z.eqb_spec (len t) (-1)); [lia|].
  destruct (Z.eqb_spec (len o + len t) (-1)); lia.
Qed.

(** A text that [marks] a non-empty delimiter does not hold it. *)
Lemma marks_absent t sub : 0 < len sub -> marks t sub -> find t sub 0 = -1.
Proof.
  unfold marks. intros Hsub Hm.
  destruct (find_inv t sub 0) as [[E _]|(Hr & Hhit & _)]; [done|exfalso].
  rewrite find_start_nonneg in Hr by done.
  destruct (find_range t sub 0) as [E|Hb]; [lia|].
  destruct (find_inv (t ++ sub) sub 0) as [[E _]|(_ & _ & Hmin)];
    [len_lia|].
  rewrite Hm, find_start_nonneg in Hmin by done.
  specialize (Hmin (find t sub 0) ltac:(lia)).
  rewrite drop_app_le, startswith_app_l in Hmin by (rewrite ?length_drop; unfold len in *; lia).
  congruence.
Qed.

Lemma marks_clear_app o t sub :
  clear_of o sub = true -> marks t sub -> marks (o ++ t) sub.
Proof.
  unfold marks. intros Hc Hm. len_facts.
  rewrite <- app_assoc, find_clear, Hm, len_app by done.
  by destruct (Z.eqb_spec (len t) (-1)); [lia|].
Qed.


(** ** Cutting a string at a match *)

Lemma startswith_app_r s t p : startswith s p = true -> startswith (s ++ t) p = true.
Proof. rewrite !startswith_prefix. intros H. by apply prefix_app_r. Qed.

(** The text before an occurrence found from the start marks it. *)
Lemma marks_first t sub post :
  find (t ++ sub ++ post) sub 0 = len t -> marks t sub.
Proof.
  intros Hf. unfold marks. len_facts.
  destruct (find_inv (t ++ sub ++ post) sub 0) as [[E _]|(_ & _ & Hmin)]; [lia|].
  rewrite Hf, find_start_nonneg in Hmin by done.
  apply find_found; rewrite ?find_start_nonneg, ?len_app by done.
  - len_lia.
  - rewrite len_to_nat, drop_app_length, <- (app_nil_r sub) at 1. apply startswith_app.
  - intros k Hk. specialize (Hmin k Hk).
    destruct (startswith (drop (Z.to_nat k) (t ++ sub)) sub) eqn:E; [|done].
    apply (startswith_app_r _ post) in E.
    rewrite <- drop_app_le, <- app_assoc in E by (rewrite length_app; unfold len in *; lia).
    congruence.
Qed.

(** A string in which [sub] is found is the text before the match, which
    marks [sub], then [sub], then the rest. *)
Lemma find_split s sub :
  find s sub 0 <> -1 ->
  exists t post, s = t ++ sub ++ post /\ find s sub 0 = len t /\ marks t sub.
Proof.
  intros Hf. destruct (find_occurs s sub 0 Hf) as (t & post & -> & Hl).
  assert (find (t ++ sub ++ post) sub 0 = len t) as E.
  { pose proof (find_ge_neg1 (t ++ sub ++ post) sub 0). unfold len. lia. }
  exists t, post. split_and!; [done..|]. by apply marks_first in E.
Qed.

(** [find] from a position inside the string is [find] in the rest. *)
Lemma find_drop s sub start :
  0 <= start <= len s ->
  find s sub start =
    if find (drop (Z.to_nat start) s) sub 0 =? -1 then -1
    else start + find (drop (Z.to_nat start) s) sub 0.
Proof.
  intros Hs.
  pose proof (find_app_skip (take (Z.to_nat start) s) (drop (Z.to_nat start) s)
                sub 0 ltac:(lia)) as E.
  rewrite take_drop in E.
  replace (len (take (Z.to_nat start) s)) with start in E
    by (unfold len in *; rewrite length_take; lia).
  by rewrite Z.add_0_r in E.
Qed.

(** ** Slices *)

Lemma clamp_index_range n i : 0 <= n -> 0 <= clamp_index n i <= n.
Proof. unfold clamp_index. case_cmp; lia. Qed.

Lemma clamp_index_id n i : 0 <= i <= n -> clamp_index n i = i.
Proof. unfold clamp_index. case_cmp; lia. Qed.

Lemma clamp_index_neg n i : i < 0 -> clamp_index n i = Z.max 0 (i + n).
Proof. unfold clamp_index. case_cmp; lia. Qed.

Lemma slice_inside s a b :
  0 <= a <= len s -> 0 <= b <= len s ->
  slice s a b = take (Z.to_nat (b - a)) (drop (Z.to_nat a) s).
Proof. intros Ha Hb. unfold slice. by rewrite !clamp_index_id. Qed.

Lemma slice_app_mid a b c :
  slice (a ++ b ++ c) (len a) (len a + len b) = b.
Proof.
  rewrite slice_inside by len_lia.
  replace (len a + len b - len a) with (len b) by lia.
  by rewrite !len_to_nat, drop_app_length, take_app_length.
Qed.

Lemma slice_app_start b c : slice (b ++ c) 0 (len b) = b.
Proof. apply (slice_app_mid [] b c). Qed.

Lemma slice_empty s a b :
  clamp_index (len s) b <= clamp_index (len s) a -> slice s a b = [].
Proof. intros H. unfold slice. replace (Z.to_nat _) with 0%nat by lia. apply take_0. Qed.

Lemma slice_same s a : slice s a a = [].
Proof. apply slice_empty. lia. Qed.

Lemma length_slice s a b :
  len (slice s a b) = Z.max 0 (clamp_index (len s) b - clamp_index (len s) a).
Proof.
  pose proof (clamp_index_range (len s) a (len_nonneg s)).
  pose proof (clamp_index_range (len s) b (len_nonneg s)).
  unfold slice, len in *. rewrite length_take, length_drop. lia.
Qed.

(** [s[a:-1]] for an [a] inside [s]: everything from [a] but the last
    character. *)
Lemma slice_to_neg1 s a :
  0 <= a < len s ->
  slice s a (-1) = take (Z.to_nat (len s - 1 - a)) (drop (Z.to_nat a) s).
Proof.
  intros Ha. unfold slice. rewrite (clamp_index_id _ a), (clamp_index_neg _ (-1)) by lia.
  by replace (Z.max 0 (-1 + len s)) with (len s - 1) by lia.
Qed.

(** ** join and repeat *)

Lemma join_nil sep : join sep [] = [].
Proof. reflexivity. Qed.

Lemma join_singleton sep x : join sep [x] = x.
Proof. reflexivity. Qed.

Lemma join_cons sep x y l : join sep (x :: y :: l) = x ++ sep ++ join sep (y :: l).
Proof. reflexivity. Qed.

Lemma join_snoc sep l x : l <> [] -> join sep (l ++ [x]) = join sep l ++ sep ++ x.
Proof.
  induction l as [|y l IH]; [done|intros _].
  destruct l as [|z l]; [done|].
  change (join sep ((y :: z :: l) ++ [x])) with (y ++ sep ++ join sep ((z :: l) ++ [x])).
  rewrite IH by done. rewrite join_cons. by rewrite <- !app_assoc.
Qed.

Lemma elem_of_join c sep l :
  c ∈ join sep l -> c ∈ sep \/ exists x, x ∈ l /\ c ∈ x.
Proof.
  induction l as [|x l IH]; simpl; [by intros ?%elem_of_nil|].
  destruct l as [|y l].
  - intros H. right. exists x. split; [apply list_elem_of_here | done].
  - rewrite !elem_of_app. intros [H|[H|H]].
    + right. exists x. split; [apply list_elem_of_here | done].
    + by left.
    + destruct (IH H) as [?|(z & Hz & Hc)]; [by left|].
      right. exists z. split; [by apply list_elem_of_further | done].
Qed.

Lemma elem_of_join_intro c sep x l : x ∈ l -> c ∈ x -> c ∈ join sep l.
Proof.
  induction l as [|y l IH]; [by intros ?%elem_of_nil|].
  intros Hx Hc. destruct l as [|z l].
  - apply list_elem_of_singleton in Hx as ->. done.
  - rewrite join_cons, !elem_of_app. apply elem_of_cons in Hx as [->|Hx]; auto.
Qed.

Lemma Forall_join (P : ascii -> Prop) sep l :
  Forall P sep -> Forall (Forall P) l -> Forall P (join sep l).
Proof.
  intros Hsep. induction 1 as [|x l Hx Hl IH]; [constructor|].
  destruct l as [|y l]; [done|]. rewrite join_cons. by rewrite !Forall_app.
Qed.

Lemma filter_join (P : ascii -> Prop) `{!forall c, Decision (P c)} sep l :
  filter P (join sep l) = join (filter P sep) (filter P <$> l).
Proof.
  induction l as [|x l IH]; [done|]. destruct l as [|y l]; [done|].
  by rewrite join_cons, !filter_app, IH.
Qed.

Lemma Forall_repeat (P : ascii -> Prop) s n : Forall P s -> Forall P (repeat s n).
Proof.
  intros Hs. unfold repeat. induction (Z.to_nat n); simpl; [constructor|].
  by apply Forall_app.
Qed.

Lemma filter_repeat_nil (P : ascii -> Prop) `{!forall c, Decision (P c)} s n :
  filter P s = [] -> filter P (repeat s n) = [].
Proof.
  intros Hs. unfold repeat. induction (Z.to_nat n) as [|k IH]; simpl; [done|].
  by rewrite filter_app, Hs, IH.
Qed.

Lemma repeat_nonpos s n : n <= 0 -> repeat s n = [].
Proof. intros H. unfold repeat. by replace (Z.to_nat n) with 0%nat by lia. Qed.

Lemma repeat_0 s : repeat s 0 = [].
Proof. reflexivity. Qed.

Lemma repeat_succ s n : 0 <= n -> repeat s (n + 1) = s ++ repeat s n.
Proof.
  intros H. unfold repeat. by replace (Z.to_nat (n + 1)) with (S (Z.to_nat n)) by lia.
Qed.

Lemma repeat_nil n : repeat [] n = [].
Proof. unfold repeat. induction (Z.to_nat n); simpl; auto. Qed.

Lemma elem_of_repeat c s n : c ∈ repeat s n -> c ∈ s.
Proof.
  unfold repeat. induction (Z.to_nat n) as [|k IH]; simpl; [by intros ?%elem_of_nil|].
  rewrite elem_of_app. intros [?|?]; auto.
Qed.

Lemma len_repeat s n : len (repeat s n) = Z.max 0 n * len s.
Proof.
  unfold repeat, len.
  assert (H : forall k, length (mjoin (replicate k s)) = (k * length s)%nat).
  { induction k as [|k IH]; simpl; [done|]. by rewrite length_app, IH. }
  rewrite H, Nat2Z.inj_mul. f_equal. lia.
Qed.

(** ** Decimal text *)

#[export] Instance str_of_int_inj : Inj (=) (=) str_of_int.
Proof. intros m n H. unfold str_of_int in H. by apply lit_inj, (inj pretty) in H. Qed.

Lemma str_in_spec x l : str_in x l = true <-> x ∈ l.
Proof. unfold str_in. apply bool_decide_eq_true. Qed.
