(* ===== verification/PyText.v ===== *)
(** * PyText: text operations of the installer

    The Python string operations the installer steps call besides those of
    [PyStr]: [str.strip], [str.split] with a one-character separator,
    [str.lower], and [repr] of a string and of a list of strings (what
    [str.format] writes for a list).  A character is read as the code point
    of its number, below 256; the classes of characters (white space,
    printable, cased) are Python's on that range. *)

From S2P Require Import Prelude PyStr.

(** ** Character classes *)

Definition code (c : ascii) : Z := Z.of_N (N_of_ascii c).

(** [c.isspace()]. *)
Definition is_space (c : ascii) : bool :=
  let n := code c in
  ((9 <=? n) && (n <=? 13)) || ((28 <=? n) && (n <=? 32)) ||
  (n =? 133) || (n =? 160).

(** [c.isprintable()]. *)
Definition is_printable (c : ascii) : bool :=
  let n := code c in
  ((32 <=? n) && (n <=? 126)) || ((161 <=? n) && negb (n =? 173)).

(** ** [strip] *)

Fixpoint lstrip (s : str) : str :=
  match s with
  | c :: s' => if is_space c then lstrip s' else s
  | [] => []
  end.

Definition rstrip (s : str) : str := reverse (lstrip (reverse s)).

Definition strip (s : str) : str := rstrip (lstrip s).

(** ** [split] on one character *)

(** [s.split(sep)] for a separator of one character: the pieces between the
    separators, at least one. *)
Fixpoint split (sep : ascii) (s : str) : list str :=
  match s with
  | [] => [[]]
  | c :: s' =>
      if bool_decide (c = sep) then [] :: split sep s'
      else match split sep s' with
           | piece :: pieces => (c :: piece) :: pieces
           | [] => [[c]]
           end
  end.

(** [l[-1]] of a list of strings, the empty string standing for the
    [IndexError] that a non-empty list never raises. *)
Definition last_piece (l : list str) : str := default [] (last l).

(** ** [lower] *)

Definition lower_char (c : ascii) : ascii :=
  let n := code c in
  if ((65 <=? n) && (n <=? 90)) ||
     ((192 <=? n) && (n <=? 222) && negb (n =? 215))
  then ascii_of_N (Z.to_N (n + 32)) else c.

Definition lower (s : str) : str := lower_char <$> s.

(** ** [repr] *)

Definition hex_digit (n : Z) : ascii :=
  if n <? 10 then ascii_of_N (Z.to_N (48 + n)) else ascii_of_N (Z.to_N (87 + n)).

Definition backslash : ascii := "\"%char.
Definition squote : ascii := "'"%char.

(** One character inside the quotes [quote]. *)
Definition repr_char (quote c : ascii) : str :=
  if bool_decide (c = quote) || bool_decide (c = backslash) then [backslash; c]
  else if bool_decide (c = "009"%char) then [backslash; "t"%char]
  else if bool_decide (c = "010"%char) then [backslash; "n"%char]
  else if bool_decide (c = "013"%char) then [backslash; "r"%char]
  else if is_printable c then [c]
  else [backslash; "x"%char; hex_digit (code c / 16); hex_digit (code c mod 16)].

(** [repr(s)]: single quotes, unless the string holds a single quote and no
    double quote. *)
Definition repr_str (s : str) : str :=
  let quote :=
    if bool_decide (squote ∈ s) && negb (bool_decide (dquote ∈ s))
    then dquote else squote in
  [quote] ++ mjoin (repr_char quote <$> s) ++ [quote].

(** [str(l)] for a list of strings. *)
Definition repr_list (l : list str) : str :=
  "[" ++ join ", " (repr_str <$> l) ++ "]".

(** ** Lemmas *)

Lemma lstrip_idemp s : lstrip (lstrip s) = lstrip s.
Proof.
  induction s as [|c s IH]; [done|]. simpl.
  destruct (is_space c) eqn:E; [done|]. simpl. by rewrite E.
Qed.

Lemma lstrip_suffix s : lstrip s `suffix_of` s.
Proof.
  induction s as [|c s IH]; [done|]. simpl.
  destruct (is_space c); [by apply suffix_cons_r | done].
Qed.

Lemma lstrip_head s c s' : lstrip s = c :: s' -> is_space c = false.
Proof.
  induction s as [|d s IH]; [done|]. simpl.
  destruct (is_space d) eqn:E; [done|]. by intros [= <- _].
Qed.

Lemma length_strip s : (length (strip s) <= length s)%nat.
Proof.
  unfold strip, rstrip. rewrite length_reverse.
  etrans; [apply suffix_length, lstrip_suffix|]. rewrite length_reverse.
  apply suffix_length, lstrip_suffix.
Qed.

Lemma split_nonempty sep s : split sep s <> [].
Proof.
  destruct s as [|c s]; [done|]. simpl.
  case_bool_decide; [done|]. by destruct (split sep s).
Qed.

(** Joining the pieces with the separator gives the string back. *)
Lemma join_split sep s : join [sep] (split sep s) = s.
Proof.
  induction s as [|c s IH]; [done|]. simpl.
  pose proof (split_nonempty sep s) as Hne.
  case_bool_decide as Hc.
  - subst c. destruct (split sep s) as [|p ps]; [done|].
    by rewrite join_cons, IH.
  - destruct (split sep s) as [|p [|q ps]]; [done|..]; by rewrite <- IH.
Qed.

(** No piece holds the separator. *)
Lemma split_pieces sep s : Forall (fun piece => sep ∉ piece) (split sep s).
Proof.
  induction s as [|c s IH]; simpl.
  - repeat constructor. by intros ?%elem_of_nil.
  - case_bool_decide as Hc.
    + constructor; [by intros ?%elem_of_nil | done].
    + pose proof (split_nonempty sep s).
      destruct (split sep s) as [|p ps]; [done|].
      apply Forall_cons in IH as [? ?].
      constructor; [|done]. rewrite elem_of_cons. by intros [->|?].
Qed.

Lemma lower_length s : length (lower s) = length s.
Proof. apply length_fmap. Qed.

Lemma lower_idemp s : lower (lower s) = lower s.
Proof.
  unfold lower. rewrite <- list_fmap_compose. apply list_fmap_ext. intros _ c _.
  by destruct c as [[] [] [] [] [] [] [] []].
Qed.

Lemma repr_char_plain quote c :
  is_printable c = true -> c <> quote -> c <> backslash -> repr_char quote c = [c].
Proof.
  intros Hp Hq Hb. unfold repr_char.
  rewrite !bool_decide_eq_false_2 by done. cbn [orb].
  repeat case_bool_decide; subst; try done. by rewrite Hp.
Qed.

(** A string of printable characters without quote or backslash is written
    as it is, between single quotes. *)
Lemma repr_str_plain s :
  Forall (fun c => is_printable c = true /\ c <> squote /\ c <> backslash) s ->
  repr_str s = [squote] ++ s ++ [squote].
Proof.
  intros H. unfold repr_str.
  assert (squote ∉ s) as Hq
    by (intros Hin; rewrite Forall_forall in H; by destruct (H _ Hin) as (_ & ? & _)).
  rewrite (bool_decide_eq_false_2 _ Hq). cbn [andb]. do 2 f_equal. clear Hq.
  induction H as [|c s (Hp & Hs & Hb) _ IH]; [done|].
  change (repr_char squote c ++ mjoin (repr_char squote <$> s) = c :: s).
  by rewrite IH, repr_char_plain.
Qed.
