(* ===== verification/PyValue.v ===== *)
(** * PyValue: the Python values the graph utilities handle

    A chart parameter, a tab record field or a column header is an [Any] in
    the sources.  The values that reach the modelled code are scalars
    ([None], booleans, integers, strings) and dictionaries of them, nested to
    any depth: [scalar] and [pyval].  [py_str] is Python's [str()] on a
    scalar.  Floats, timestamps and tuples, which a column header may also
    be, are not modelled: no modelled function looks inside a header.

    The converter [column_header_to_transpiled_code] of
    [mitosheet.transpiler.transpile_utils] is not part of the sources under
    study; the serialiser takes it as the parameter of the class
    [Transpiler], and [sample_transpiler] is one instance, for running the
    model on concrete inputs. *)

From S2P Require Import Prelude PyStr.

(** ** Values *)

Inductive scalar : Type :=
  | SNone
  | SBool (b : bool)
  | SInt (n : Z)
  | SStr (s : str).

(** A value: a scalar, or a dictionary, whose items are kept in insertion
    order as Python keeps them. *)
#[warnings="-register-all"]
Inductive pyval : Type :=
  | Scalar (x : scalar)
  | Dict (items : list (str * pyval)).

(** A column header ([mitosheet.types.ColumnHeader]). *)
Definition ColumnHeader : Type := scalar.

#[export] Instance scalar_eq_dec : EqDecision scalar.
Proof. solve_decision. Defined.

(** Equality of values is decidable: the recursion goes through the list of
    items of a dictionary. *)
#[export] Instance pyval_eq_dec : EqDecision pyval.
Proof.
  refine (fix go (v1 v2 : pyval) {struct v1} : Decision (v1 = v2) :=
    match v1, v2 with
    | Scalar x, Scalar y => cast_if (decide (x = y))
    | Dict l1, Dict l2 => cast_if (@list_eq_dec _ (@prod_eq_dec str _ pyval go) l1 l2)
    | _, _ => right _
    end); congruence.
Defined.

(** [str(x)]. *)
Definition py_str (x : scalar) : str :=
  match x with
  | SNone => "None"
  | SBool true => "True"
  | SBool false => "False"
  | SInt n => str_of_int n
  | SStr s => s
  end.

(** The number of dictionaries nested inside one another in a value, the
    value itself included. *)
Fixpoint dict_depth (v : pyval) : nat :=
  match v with
  | Scalar _ => 0
  | Dict items => S (foldr (fun kv d => Nat.max (dict_depth kv.2) d) 0%nat items)
  end.

(** ** The value-to-literal converter *)

Class Transpiler := column_header_to_transpiled_code : scalar -> str.

(** Backslashes and single quotes of a string literal, escaped. *)
Fixpoint escape (s : str) : str :=
  match s with
  | [] => []
  | c :: s' =>
      (if bool_decide (c = "'"%char) || bool_decide (c = "\"%char)
       then ["\"%char; c] else [c]) ++ escape s'
  end.

Definition sample_transpiler : Transpiler := fun x =>
  match x with
  | SStr s => "'" ++ escape s ++ "'"
  | _ => py_str x
  end.

(** ** Induction on values *)

(** The induction principle of [pyval] that gives the hypothesis for every
    value stored in a dictionary. *)
Lemma pyval_ind' (P : pyval -> Prop) :
  (forall x, P (Scalar x)) ->
  (forall items, Forall (fun kv => P kv.2) items -> P (Dict items)) ->
  forall v, P v.
Proof.
  intros Hs Hd. fix IH 1. intros [x|items]; [apply Hs|].
  apply Hd. induction items as [|[k v] items IHitems]; constructor; [apply IH | done].
Qed.

Lemma dict_depth_Dict_nil : dict_depth (Dict []) = 1%nat.
Proof. reflexivity. Qed.

Lemma dict_depth_Dict_cons k v items :
  dict_depth (Dict ((k, v) :: items)) =
    Nat.max (S (dict_depth v)) (dict_depth (Dict items)).
Proof. simpl. lia. Qed.

Lemma py_str_SStr s : py_str (SStr s) = s.
Proof. reflexivity. Qed.
