(* ===== verification/Parens.v ===== *)
(** * Parens: parenthesis structure of generated code

    The serialiser writes nested [dict(...)] calls.  This file has the scan
    that follows the nesting depth of a text, [paren_scan], the predicate
    [balanced], and their behaviour under the operations the serialiser
    builds its text with: concatenation, [join] and [repeat].  The scan looks
    at the characters only: a parenthesis inside a quoted literal counts like
    any other. *)

From S2P Require Import Prelude PyStr.

(** ** The scan *)

(** [paren_scan s depth]: the nesting depth after [s], starting at [depth];
    [None] when a [)] closes a parenthesis that was never opened. *)
Fixpoint paren_scan (s : str) (depth : nat) : option nat :=
  match s with
  | [] => Some depth
  | c :: s' =>
      if bool_decide (c = "("%char) then paren_scan s' (S depth)
      else if bool_decide (c = ")"%char) then
        match depth with
        | O => None
        | S depth' => paren_scan s' depth'
        end
      else paren_scan s' depth
  end.

(** [paren_max s depth]: the greatest depth reached while scanning [s] from
    [depth], [depth] itself included. *)
Fixpoint paren_max (s : str) (depth : nat) : nat :=
  match s with
  | [] => depth
  | c :: s' =>
      if bool_decide (c = "("%char) then
        Nat.max depth (paren_max s' (S depth))
      else if bool_decide (c = ")"%char) then
        Nat.max depth (paren_max s' (Nat.pred depth))
      else paren_max s' depth
  end.

Definition balanced (s : str) : Prop := paren_scan s 0 = Some 0%nat.

Definition paren_free (s : str) : Prop :=
  Forall (fun c => c <> "("%char /\ c <> ")"%char) s.

#[export] Instance balanced_dec s : Decision (balanced s).
Proof. unfold balanced. apply _. Defined.

#[export] Instance paren_free_dec s : Decision (paren_free s).
Proof. unfold paren_free. apply _. Defined.

(** ** Concatenation *)

Lemma paren_scan_app s t d :
  paren_scan (s ++ t) d = paren_scan s d ≫= paren_scan t.
Proof.
  revert d. induction s as [|c s IH]; intros d; simpl; [done|].
  destruct (bool_decide (c = "("%char)); [done|].
  destruct (bool_decide (c = ")"%char)); [|done]. by destruct d.
Qed.

Lemma paren_scan_shift s d d' k :
  paren_scan s d = Some d' -> paren_scan s (d + k) = Some (d' + k)%nat.
Proof.
  revert d. induction s as [|c s IH]; intros d; simpl.
  - by intros [= ->].
  - destruct (bool_decide (c = "("%char)); [apply (IH (S d))|].
    destruct (bool_decide (c = ")"%char)); [|apply IH].
    destruct d as [|d]; [done|]. apply IH.
Qed.

Lemma balanced_scan s d : balanced s -> paren_scan s d = Some d.
Proof. intros H. apply (paren_scan_shift s 0 0 d) in H. by rewrite Nat.add_0_l in H. Qed.

Lemma paren_free_scan s d : paren_free s -> paren_scan s d = Some d.
Proof.
  intros H. revert d. induction H as [|c s [? ?] _ IH]; intros d; simpl; [done|].
  by rewrite !bool_decide_eq_false_2.
Qed.

Lemma paren_free_balanced s : paren_free s -> balanced s.
Proof. apply paren_free_scan. Qed.

Lemma balanced_nil : balanced [].
Proof. reflexivity. Qed.

Lemma balanced_app s t : balanced s -> balanced t -> balanced (s ++ t).
Proof. unfold balanced. intros Hs Ht. by rewrite paren_scan_app, Hs. Qed.

(** A balanced text in parentheses, after a name without parentheses. *)
Lemma balanced_call f s t :
  paren_free f -> balanced s -> balanced t -> balanced (f ++ "(" ++ s ++ ")" ++ t).
Proof.
  intros Hf Hs Ht. unfold balanced.
  rewrite paren_scan_app, (paren_free_scan f) by done. simpl.
  rewrite paren_scan_app, (balanced_scan s) by done. simpl.
  apply Ht.
Qed.

Lemma balanced_join sep l :
  balanced sep -> Forall balanced l -> balanced (join sep l).
Proof.
  intros Hsep. induction 1 as [|x l Hx Hl IH]; [done|].
  destruct l as [|y l]; [done|]. rewrite join_cons. by repeat apply balanced_app.
Qed.

Lemma paren_free_app s t : paren_free (s ++ t) <-> paren_free s /\ paren_free t.
Proof. apply Forall_app. Qed.

Lemma paren_free_repeat s n : paren_free s -> paren_free (repeat s n).
Proof.
  intros Hs. unfold repeat. induction (Z.to_nat n); simpl; [constructor|].
  by apply paren_free_app.
Qed.

(** ** Depth *)

Lemma paren_max_ge s d : (d <= paren_max s d)%nat.
Proof.
  revert d. induction s as [|c s IH]; intros d; simpl; [done|].
  destruct (bool_decide (c = "("%char)); [lia|].
  destruct (bool_decide (c = ")"%char)); [lia | apply IH].
Qed.

Lemma paren_max_app s t d d' :
  paren_scan s d = Some d' ->
  paren_max (s ++ t) d = Nat.max (paren_max s d) (paren_max t d').
Proof.
  revert d. induction s as [|c s IH]; intros d; simpl.
  - intros [= <-]. pose proof (paren_max_ge t d). lia.
  - destruct (bool_decide (c = "("%char)).
    { intros H. rewrite (IH _ H). lia. }
    destruct (bool_decide (c = ")"%char)); [|apply IH].
    destruct d as [|d]; [done|]. intros H. simpl. rewrite (IH _ H). lia.
Qed.

Lemma paren_max_shift s d d' k :
  paren_scan s d = Some d' -> paren_max s (d + k) = (paren_max s d + k)%nat.
Proof.
  revert d. induction s as [|c s IH]; intros d; simpl; [done|].
  destruct (bool_decide (c = "("%char)).
  { intros H. pose proof (IH (S d) H) as E. simpl in E. rewrite E. lia. }
  destruct (bool_decide (c = ")"%char)); [|apply IH].
  destruct d as [|d]; [done|]. intros H. simpl. rewrite (IH d H). lia.
Qed.

Lemma paren_free_max s d : paren_free s -> paren_max s d = d.
Proof.
  intros H. revert d. induction H as [|c s [? ?] _ IH]; intros d; simpl; [done|].
  by rewrite !bool_decide_eq_false_2.
Qed.

Lemma paren_max_balanced_app s t d :
  balanced s -> paren_max (s ++ t) d = Nat.max (paren_max s d) (paren_max t d).
Proof. intros Hs. apply paren_max_app, balanced_scan, Hs. Qed.

Lemma paren_max_free_app s t d :
  paren_free s -> paren_max (s ++ t) d = paren_max t d.
Proof.
  intros Hs. rewrite paren_max_balanced_app by by apply paren_free_balanced.
  rewrite paren_free_max by done. pose proof (paren_max_ge t d). lia.
Qed.

Lemma paren_max_app_free s t d :
  balanced s -> paren_free t -> paren_max (s ++ t) d = paren_max s d.
Proof.
  intros Hs Ht. rewrite paren_max_balanced_app by done.
  rewrite (paren_free_max t) by done. pose proof (paren_max_ge s d). lia.
Qed.

Lemma paren_max_balanced_shift s d :
  balanced s -> paren_max s d = (paren_max s 0 + d)%nat.
Proof. intros Hs. apply (paren_max_shift s 0 0 d Hs). Qed.

Lemma paren_max_call f s t d :
  paren_free f -> balanced s -> paren_free t ->
  paren_max (f ++ "(" ++ s ++ ")" ++ t) d = (S (paren_max s 0) + d)%nat.
Proof.
  intros Hf Hs Ht. rewrite paren_max_free_app by done. simpl.
  rewrite paren_max_balanced_app by done. simpl.
  rewrite (paren_free_max t) by done.
  rewrite (paren_max_balanced_shift s (S d)) by done.
  pose proof (paren_max_ge s 0). lia.
Qed.

Lemma paren_max_join sep l d :
  paren_free sep -> Forall balanced l ->
  paren_max (join sep l) d = foldr (fun x m => Nat.max (paren_max x d) m) d l.
Proof.
  intros Hsep. induction 1 as [|x l Hx Hl IH]; [done|].
  destruct l as [|y l].
  - simpl. pose proof (paren_max_ge x d). lia.
  - rewrite join_cons, paren_max_balanced_app by done.
    rewrite paren_max_free_app by done. rewrite IH. done.
Qed.
