(* ===== verification/GraphTitle.v ===== *)
(** * GraphTitle: the chart title

    Models the graph-type constants, the table [GRAPH_TITLE_LABELS] and
    [get_graph_title] of [graph_utils.py] (lines 16-40 and 98-125).  The table
    is a finite map from the graph type to its label; the lookup
    [GRAPH_TITLE_LABELS[graph_type]] raises [KeyError] for a string that is
    not one of the ten graph types, which is the only way the function
    fails. *)

From stdpp Require Import gmap.
From S2P Require Import Prelude PyStr PyValue.

Section GraphTitle.

(** ** Graph types and their labels *)

Definition SCATTER : str := "scatter".
Definition LINE : str := "line".
Definition BAR : str := "bar".
Definition HISTOGRAM : str := "histogram".
Definition BOX : str := "box".
Definition STRIP : str := "strip".
Definition VIOLIN : str := "violin".
Definition ECDF : str := "ecdf".
Definition DENSITY_HEATMAP : str := "density heatmap".
Definition DENSITY_CONTOUR : str := "density contour".

(** The items of the table, in the order of the source. *)
Definition graph_title_items : list (str * str) :=
  [ (SCATTER, "scatter plot" : str);
    (LINE, "line" : str);
    (BAR, "bar chart" : str);
    (BOX, "box plot" : str);
    (HISTOGRAM, "histogram" : str);
    (STRIP, "strip" : str);
    (VIOLIN, "violin" : str);
    (ECDF, "ecdf" : str);
    (DENSITY_HEATMAP, "density heatmap" : str);
    (DENSITY_CONTOUR, "density contour" : str) ].

Definition GRAPH_TITLE_LABELS : gmap str str := list_to_map graph_title_items.

(** ** The title *)

Definition get_graph_title
    (x_axis_column_headers y_axis_column_headers : list ColumnHeader)
    (filtered : bool) (graph_type : str) : result str :=
  let graph_filter_label : option str :=
    if filtered then Some ("(first 1000 rows)" : str) else None in
  let all_column_headers :=
    join ", " (py_str <$> (x_axis_column_headers ++ y_axis_column_headers)) in
  graph_title_label ←
    of_option (KeyError graph_type) (GRAPH_TITLE_LABELS !! graph_type);
  let graph_title_components :=
    match graph_filter_label with
    | Some label => [all_column_headers; label; graph_title_label]
    | None => [all_column_headers; graph_title_label]
    end in
  Ok (join " " graph_title_components).

(** What the title is when the graph type has the label [label]: the
    headers, the filter marker if any, and the label, one space apart. *)
Definition title_of (headers : list ColumnHeader) (filtered : bool)
    (label : str) : str :=
  join ", " (py_str <$> headers) ++ " " ++
  (if filtered then "(first 1000 rows) " else "") ++ label.

(** ** The table *)

Lemma graph_title_items_NoDup : NoDup graph_title_items.*1.
Proof. by_compute. Qed.

Lemma GRAPH_TITLE_LABELS_lookup graph_type label :
  GRAPH_TITLE_LABELS !! graph_type = Some label <->
  (graph_type, label) ∈ graph_title_items.
Proof.
  unfold GRAPH_TITLE_LABELS. symmetry.
  apply elem_of_list_to_map, graph_title_items_NoDup.
Qed.

Lemma GRAPH_TITLE_LABELS_None graph_type :
  GRAPH_TITLE_LABELS !! graph_type = None <-> graph_type ∉ graph_title_items.*1.
Proof. unfold GRAPH_TITLE_LABELS. symmetry. apply not_elem_of_list_to_map. Qed.

(** ** Properties of [get_graph_title] *)

(** C8. For a graph type of the table, [get_graph_title] returns the
    comma-separated headers of the x axis then of the y axis, the marker
    "(first 1000 rows)" when the data was filtered, and the label of the graph
    type, separated by single spaces. *)
Theorem get_graph_title_known xs ys filtered graph_type label :
  GRAPH_TITLE_LABELS !! graph_type = Some label ->
  get_graph_title xs ys filtered graph_type =
    Ok (title_of (xs ++ ys) filtered label).
Proof.
  intros Hl. unfold get_graph_title, title_of. rewrite Hl. simpl.
  destruct filtered; simpl; by rewrite <- ?app_assoc.
Qed.

(** The two titles of the specification: headers [Age] and [Income] on a
    bar chart, unfiltered and filtered. *)
Lemma get_graph_title_known_witness :
  get_graph_title [SStr "Age"] [SStr "Income"] false "bar" =
    Ok (lit "Age, Income bar chart") /\
  get_graph_title [SStr "Age"] [SStr "Income"] true "bar" =
    Ok (lit "Age, Income (first 1000 rows) bar chart").
Proof.
  split.
  - apply (get_graph_title_known [SStr "Age"] [SStr "Income"] false "bar" "bar chart").
    by vm_compute.
  - apply (get_graph_title_known [SStr "Age"] [SStr "Income"] true "bar" "bar chart").
    by vm_compute.
Defined.

(** C30. [get_graph_title] raises [KeyError] with the graph type as its key
    exactly when the graph type is not one of the ten keys of the table, and
    returns a title otherwise. *)
Theorem get_graph_title_error xs ys filtered graph_type :
  (graph_type ∉ graph_title_items.*1 <->
     get_graph_title xs ys filtered graph_type = Raise (KeyError graph_type)) /\
  (graph_type ∈ graph_title_items.*1 <->
     is_Ok (get_graph_title xs ys filtered graph_type)).
Proof.
  unfold get_graph_title.
  destruct (GRAPH_TITLE_LABELS !! graph_type) as [label|] eqn:E; simpl.
  - apply GRAPH_TITLE_LABELS_lookup in E.
    assert (graph_type ∈ graph_title_items.*1) by (apply list_elem_of_fmap; by exists (graph_type, label)).
    split; split; try done; by eexists.
  - apply GRAPH_TITLE_LABELS_None in E.
    split; split; try done. by intros [? ?].
Qed.

(** The function as one lookup: the label of the graph type, then the
    title around it. *)
Lemma get_graph_title_lookup xs ys filtered graph_type :
  get_graph_title xs ys filtered graph_type =
  label ← of_option (KeyError graph_type) (GRAPH_TITLE_LABELS !! graph_type);
  Ok (title_of (xs ++ ys) filtered label).
Proof.
  unfold get_graph_title, title_of.
  destruct (GRAPH_TITLE_LABELS !! graph_type) as [label|]; [|done]. simpl.
  destruct filtered; simpl; by rewrite <- ?app_assoc.
Qed.

(** The two titles the specification gives as examples: headers "Age"
    and "Income" with a bar chart, unfiltered and filtered. *)
Theorem get_graph_title_examples :
  get_graph_title [SStr "Age"] [SStr "Income"] false "bar" =
    Ok ("Age, Income bar chart" : str) /\
  get_graph_title [SStr "Age"] [SStr "Income"] true "bar" =
    Ok ("Age, Income (first 1000 rows) bar chart" : str).
Proof. split; by vm_compute. Qed.

(** With no header on either axis the title still has the separating
    space before the label: it starts with a space. *)
Theorem get_graph_title_no_headers filtered graph_type label :
  GRAPH_TITLE_LABELS !! graph_type = Some label ->
  get_graph_title [] [] filtered graph_type =
    Ok (" " ++ (if filtered then "(first 1000 rows) " else "") ++ label).
Proof. intros Hl. unfold get_graph_title. rewrite Hl. by destruct filtered. Qed.

Lemma get_graph_title_no_headers_witness :
  get_graph_title [] [] false LINE = Ok (" " ++ "" ++ "line").
Proof.
  apply (get_graph_title_no_headers false LINE "line"). by vm_compute.
Defined.

End GraphTitle.
