(* ===== verification/GraphTabName.v ===== *)
(** * GraphTabName: the next free graph tab name

    Models [get_new_graph_tab_name] of [graph_utils.py] (lines 128-144).
    [graph_data_dict] maps a graph id to the record of that graph; the
    function reads the field ["graphTabName"] of every record, then tries
    [graph0], [graph1], ... until a name is not among them.

    The outer dictionary is the list of its items (the function iterates over
    its values), a record is a finite map (the function only looks a key up).
    The [while] loop is [probe], with fuel; [get_new_graph_tab_name] gives it
    one more unit than there are records, which is always enough: among
    [length + 1] distinct names one is free.  The result type
    [result (option str)] keeps the two ways of not returning a name apart:
    [Raise (KeyError ...)] when a record has no ["graphTabName"], and [Ok None]
    for fuel exhaustion, which the first theorem excludes. *)

From stdpp Require Import gmap.
From S2P Require Import Prelude PyStr PyValue.

Section GraphTabName.

(** ** The model *)

(** [f'graph{graph_number_indicator}']. *)
Definition graph_name (graph_number_indicator : Z) : str :=
  "graph" ++ str_of_int graph_number_indicator.

(** [value == s] for a value and a string: only a string compares equal to a
    string. *)
Definition val_eq_str (value : pyval) (s : str) : bool :=
  match value with
  | Scalar (SStr t) => bool_decide (t = s)
  | _ => false
  end.

(** [new_graph_name in all_graph_names]. *)
Definition in_names (new_graph_name : str) (all_graph_names : list pyval)
    : bool :=
  existsb (fun value => val_eq_str value new_graph_name) all_graph_names.

(** The first loop: the ["graphTabName"] of every record, in order; a record
    without that key raises [KeyError]. *)
Definition collect_graph_names (graph_data_dict : list (str * gmap str pyval))
    : result (list pyval) :=
  mapR (fun graph_data : gmap str pyval =>
          of_option (KeyError "graphTabName")
                    (graph_data !! ("graphTabName" : str)))
       graph_data_dict.*2.

(** The [while new_graph_name in all_graph_names] loop, with its two
    variables. *)
Fixpoint probe (fuel : nat) (all_graph_names : list pyval)
    (graph_number_indicator : Z) (new_graph_name : str) : option str :=
  match fuel with
  | O => None
  | S fuel' =>
      if in_names new_graph_name all_graph_names then
        let graph_number_indicator := graph_number_indicator + 1 in
        let new_graph_name := graph_name graph_number_indicator in
        probe fuel' all_graph_names graph_number_indicator new_graph_name
      else Some new_graph_name
  end.

Definition get_new_graph_tab_name
    (graph_data_dict : list (str * gmap str pyval)) : result (option str) :=
  all_graph_names ← collect_graph_names graph_data_dict;
  let graph_number_indicator := 0 in
  let new_graph_name := graph_name graph_number_indicator in
  Ok (probe (S (length all_graph_names)) all_graph_names
        graph_number_indicator new_graph_name).

(** The strings among the collected values: the tab names in use. *)
Definition tab_names (all_graph_names : list pyval) : list str :=
  omap (fun value =>
          match value with
          | Scalar (SStr s) => Some s
          | _ => None
          end) all_graph_names.

(** [n] is the first free number at or after [start]. *)
Definition first_free (all_graph_names : list pyval) (start n : Z) : Prop :=
  start <= n /\
  in_names (graph_name n) all_graph_names = false /\
  forall k, start <= k < n -> in_names (graph_name k) all_graph_names = true.

(** A record of the dictionary has the tab name [name]. *)
Definition has_tab_name (graph_data_dict : list (str * gmap str pyval)) (name : str) : Prop :=
  exists key (graph_data : gmap str pyval),
    (key, graph_data) ∈ graph_data_dict /\
    graph_data !! ("graphTabName" : str) = Some (Scalar (SStr name)).

(** ** Names *)

#[export] Instance graph_name_inj : Inj (=) (=) graph_name.
Proof. intros m n H. unfold graph_name in H. by apply app_inv_head, (inj str_of_int) in H. Qed.

Lemma in_names_spec s all_graph_names :
  in_names s all_graph_names = true <-> s ∈ tab_names all_graph_names.
Proof.
  unfold in_names, tab_names. rewrite existsb_exists, list_elem_of_omap.
  split.
  - intros (v & Hin%list_elem_of_In & Hv). exists v. split; [done|].
    destruct v as [[| | |t]|]; try done. simpl in Hv.
    by apply bool_decide_eq_true in Hv as ->.
  - intros (v & Hin%list_elem_of_In & Hv). exists v. split; [done|].
    destruct v as [[| | |t]|]; try done. injection Hv as ->.
    by apply bool_decide_eq_true.
Qed.

Lemma length_tab_names all_graph_names :
  (length (tab_names all_graph_names) <= length all_graph_names)%nat.
Proof. apply length_omap_le. Qed.

Lemma in_names_Permutation s : Proper (Permutation ==> eq) (in_names s).
Proof.
  intros l l' Hp. apply eq_true_iff_eq. rewrite !in_names_spec.
  unfold tab_names. by rewrite Hp.
Qed.

(** Among [length + 1] consecutive numbers one is free. *)
Lemma free_name_from all_graph_names start :
  exists m, start <= m <= start + Z.of_nat (length all_graph_names) /\
    in_names (graph_name m) all_graph_names = false.
Proof.
  set (n := Z.of_nat (length all_graph_names)).
  destruct (decide (Forall (fun m => in_names (graph_name m) all_graph_names = true)
                           (seqZ start (n + 1)))) as [Hall|Hex].
  - exfalso.
    assert (Hsub : graph_name <$> seqZ start (n + 1) ⊆+ tab_names all_graph_names).
    { apply NoDup_submseteq; [apply (NoDup_fmap_2 _), NoDup_seqZ|].
      intros s (m & -> & Hm)%list_elem_of_fmap. apply in_names_spec.
      by eapply Forall_forall in Hall. }
    apply submseteq_length in Hsub. rewrite length_fmap, length_seqZ in Hsub.
    pose proof (length_tab_names all_graph_names). lia.
  - apply not_Forall_Exists, Exists_exists in Hex as (m & Hm & Hfree); [|apply _].
    apply elem_of_seqZ in Hm. exists m. split; [lia|].
    by apply not_true_is_false.
Qed.

Lemma free_name_exists all_graph_names :
  exists m, 0 <= m <= Z.of_nat (length all_graph_names) /\
    in_names (graph_name m) all_graph_names = false.
Proof. apply (free_name_from all_graph_names 0). Qed.

(** ** The loop *)

(** With a free number within the fuel, the loop returns the name of the
    first free number. *)
Lemma probe_complete fuel all_graph_names start m :
  start <= m < start + Z.of_nat fuel ->
  in_names (graph_name m) all_graph_names = false ->
  exists n, first_free all_graph_names start n /\
    probe fuel all_graph_names start (graph_name start) = Some (graph_name n).
Proof.
  revert start. induction fuel as [|fuel IH]; intros start Hm Hfree; [lia|].
  simpl. destruct (in_names (graph_name start) all_graph_names) eqn:E.
  - assert (m <> start) by congruence.
    destruct (IH (start + 1)) as (n & (Hn & Hnf & Hmin) & Hp); [lia | done |].
    exists n. split; [|done]. split_and!; [lia | done |].
    intros k Hk. destruct (decide (k = start)) as [->|]; [done|]. apply Hmin. lia.
  - exists start. split; [|done]. split_and!; [lia | done | lia].
Qed.

(** Whatever the loop returns is the name of the first free number. *)
Lemma probe_sound fuel all_graph_names start name :
  probe fuel all_graph_names start (graph_name start) = Some name ->
  exists n, first_free all_graph_names start n /\ name = graph_name n.
Proof.
  revert start. induction fuel as [|fuel IH]; intros start; [done|].
  simpl. destruct (in_names (graph_name start) all_graph_names) eqn:E.
  - intros (n & (Hn & Hnf & Hmin) & ->)%IH. exists n. split; [|done].
    split_and!; [lia | done |].
    intros k Hk. destruct (decide (k = start)) as [->|]; [done|]. apply Hmin. lia.
  - intros [= <-]. exists start. split; [|done]. split_and!; [lia | done | lia].
Qed.

Lemma first_free_unique all_graph_names start n n' :
  first_free all_graph_names start n -> first_free all_graph_names start n' ->
  n = n'.
Proof.
  intros (Hn & Hf & Hmin) (Hn' & Hf' & Hmin').
  destruct (Z.lt_trichotomy n n') as [Hlt|[->|Hlt]]; [|done|].
  - rewrite Hmin' in Hf by lia. done.
  - rewrite Hmin in Hf' by lia. done.
Qed.

Lemma collect_graph_names_length graph_data_dict all_graph_names :
  collect_graph_names graph_data_dict = Ok all_graph_names ->
  length all_graph_names = length graph_data_dict.
Proof. intros H%mapR_Ok_length. by rewrite length_fmap in H. Qed.

Lemma collect_graph_names_in graph_data_dict all_graph_names name :
  collect_graph_names graph_data_dict = Ok all_graph_names ->
  in_names name all_graph_names = true <-> has_tab_name graph_data_dict name.
Proof.
  intros Hc. rewrite in_names_spec. unfold tab_names, has_tab_name.
  rewrite list_elem_of_omap. split.
  - intros (v & Hv & Hs). destruct v as [[| | |t]|]; try done. injection Hs as ->.
    apply (mapR_Ok_elem_of _ _ _ _ Hc) in Hv as (gd & Hgd & Hl).
    apply list_elem_of_fmap in Hgd as ([key gd'] & -> & Hin).
    exists key, gd'. split; [done|]. by apply of_option_Ok in Hl.
  - intros (key & gd & Hin & Hl). exists (Scalar (SStr name)). split; [|done].
    apply (mapR_Ok_elem_of _ _ _ _ Hc). exists gd. split.
    + apply list_elem_of_fmap. by exists (key, gd).
    + by apply of_option_Ok.
Qed.

Lemma collect_graph_names_Raise graph_data_dict e :
  collect_graph_names graph_data_dict = Raise e ->
  e = KeyError "graphTabName" /\
  exists key (graph_data : gmap str pyval), (key, graph_data) ∈ graph_data_dict /\
    graph_data !! ("graphTabName" : str) = None.
Proof.
  intros (gd & Hgd & Hl)%mapR_Raise. apply of_option_Raise in Hl as [Hl ->].
  split; [done|]. apply list_elem_of_fmap in Hgd as ([key gd'] & -> & Hin). eauto.
Qed.

Lemma probe_enough fuel all_graph_names :
  (length all_graph_names < fuel)%nat ->
  exists n, first_free all_graph_names 0 n /\
    n <= Z.of_nat (length all_graph_names) /\
    probe fuel all_graph_names 0 (graph_name 0) = Some (graph_name n).
Proof.
  intros Hfuel. destruct (free_name_exists all_graph_names) as (m & Hm & Hfree).
  destruct (probe_complete fuel all_graph_names 0 m) as (n & Hn & Hp); [lia | done |].
  exists n. split_and!; [done | | done].
  destruct Hn as (_ & _ & Hmin). destruct (Z.le_gt_cases n m) as [?|Hlt]; [lia|].
  rewrite Hmin in Hfree by lia. done.
Qed.

(** The function, when every record has a tab name: the first free name. *)
Lemma get_new_graph_tab_name_Ok graph_data_dict all_graph_names :
  collect_graph_names graph_data_dict = Ok all_graph_names ->
  exists n, first_free all_graph_names 0 n /\
    n <= Z.of_nat (length graph_data_dict) /\
    get_new_graph_tab_name graph_data_dict = Ok (Some (graph_name n)).
Proof.
  intros Hc. unfold get_new_graph_tab_name. rewrite Hc, bind_Ok. cbv zeta.
  destruct (probe_enough (S (length all_graph_names)) all_graph_names)
    as (n & Hn & Hle & ->); [lia|].
  rewrite <- (collect_graph_names_length _ _ Hc). eauto.
Qed.

(** C3. The function always comes back with a name or with the [KeyError]:
    the fuel the model gives the loop, one more than the number of records,
    is never used up, and any greater fuel gives the same result. *)
Theorem get_new_graph_tab_name_terminates graph_data_dict :
  get_new_graph_tab_name graph_data_dict <> Ok None /\
  forall all_graph_names fuel,
    (length all_graph_names < fuel)%nat ->
    probe fuel all_graph_names 0 (graph_name 0) =
    probe (S (length all_graph_names)) all_graph_names 0 (graph_name 0).
Proof.
  split.
  - destruct (collect_graph_names graph_data_dict) as [names|e] eqn:Hc.
    + destruct (get_new_graph_tab_name_Ok _ _ Hc) as (n & _ & _ & ->). done.
    + unfold get_new_graph_tab_name. by rewrite Hc.
  - intros names fuel Hfuel.
    destruct (probe_enough fuel names Hfuel) as (n & Hn & _ & ->).
    destruct (probe_enough (S (length names)) names) as (n' & Hn' & _ & ->); [lia|].
    by rewrite (first_free_unique _ _ _ _ Hn Hn').
Qed.

(** The result is not among the tab names. *)
Lemma result_not_has_tab_name graph_data_dict name :
  get_new_graph_tab_name graph_data_dict = Ok (Some name) ->
  ~ has_tab_name graph_data_dict name.
Proof.
  intros Hg. destruct (collect_graph_names graph_data_dict) as [names|e] eqn:Hc.
  - destruct (get_new_graph_tab_name_Ok _ _ Hc) as (n & (_ & Hfree & _) & _ & Hg').
    rewrite Hg' in Hg. injection Hg as <-.
    rewrite <- (collect_graph_names_in _ _ _ Hc). by rewrite Hfree.
  - unfold get_new_graph_tab_name in Hg. by rewrite Hc in Hg.
Qed.

(** C5. The name [get_new_graph_tab_name] returns is the tab name of no
    record of [graph_data_dict]. *)
Theorem get_new_graph_tab_name_fresh graph_data_dict name :
  get_new_graph_tab_name graph_data_dict = Ok (Some name) ->
  ~ has_tab_name graph_data_dict name.
Proof. apply result_not_has_tab_name. Qed.

(** C22. The name returned is [graph<n>] for an [n >= 0] below which no
    number is free: every [graph<k>] with [k < n] is the tab name of a
    record, and [n] is at most the number of records.  The name itself is
    free, by the theorem above, so [n] is the least free number. *)
Theorem get_new_graph_tab_name_least graph_data_dict name :
  get_new_graph_tab_name graph_data_dict = Ok (Some name) ->
  exists n, name = graph_name n /\
    0 <= n <= Z.of_nat (length graph_data_dict) /\
    forall k, 0 <= k < n -> has_tab_name graph_data_dict (graph_name k).
Proof.
  intros Hg. destruct (collect_graph_names graph_data_dict) as [names|e] eqn:Hc.
  - destruct (get_new_graph_tab_name_Ok _ _ Hc) as (n & (Hn & _ & Hmin) & Hle & Hg').
    rewrite Hg' in Hg. injection Hg as <-. exists n. split_and!; [done | lia | lia |].
    intros k Hk. apply (collect_graph_names_in _ _ _ Hc). by apply Hmin.
  - unfold get_new_graph_tab_name in Hg. by rewrite Hc in Hg.
Qed.

(** C31. [get_new_graph_tab_name] raises [KeyError('graphTabName')] exactly
    when some record of [graph_data_dict] has no key ["graphTabName"]. *)
Theorem get_new_graph_tab_name_KeyError graph_data_dict :
  (exists key (graph_data : gmap str pyval), (key, graph_data) ∈ graph_data_dict /\
     graph_data !! ("graphTabName" : str) = None) <->
  get_new_graph_tab_name graph_data_dict = Raise (KeyError "graphTabName").
Proof.
  unfold get_new_graph_tab_name.
  destruct (collect_graph_names graph_data_dict) as [names|e] eqn:Hc;
    rewrite ?bind_Ok, ?bind_Raise.
  - split; [|done]. intros (key & gd & Hin & Hl). exfalso.
    apply mapR_Ok_Forall2 in Hc.
    assert (Hgd : gd ∈ graph_data_dict.*2) by (apply list_elem_of_fmap; by exists (key, gd)).
    apply list_elem_of_lookup in Hgd as [i Hi].
    destruct (Forall2_lookup_l _ _ _ _ _ Hc Hi) as (v & _ & Hv).
    cbv beta in Hv. by rewrite Hl in Hv.
  - apply collect_graph_names_Raise in Hc as [-> Hex]. done.
Qed.

(** The result does not depend on the order of the records. *)
#[export] Instance get_new_graph_tab_name_Permutation :
  Proper (Permutation ==> eq) get_new_graph_tab_name.
Proof.
  intros d d' Hp. unfold get_new_graph_tab_name, collect_graph_names.
  assert (Hp2 : d.*2 ≡ₚ d'.*2) by by rewrite Hp.
  pose proof (mapR_Permutation
    (fun graph_data : gmap str pyval =>
       of_option (KeyError "graphTabName") (graph_data !! ("graphTabName" : str)))
    (KeyError "graphTabName") _ _
    (fun x e H => proj2 (proj1 (of_option_Raise _ _ _) H)) Hp2) as HR.
  destruct (mapR _ d.*2) as [names|e], (mapR _ d'.*2) as [names'|e']; try done;
    rewrite ?bind_Ok, ?bind_Raise; cbv zeta.
  - f_equal. rewrite (Permutation_length HR).
    destruct (probe_enough (S (length names')) names) as (n & Hn & _ & ->);
      [rewrite (Permutation_length HR); lia|].
    destruct (probe_enough (S (length names')) names') as (n' & Hn' & _ & ->); [lia|].
    f_equal. f_equal. eapply first_free_unique; [exact Hn|].
    destruct Hn' as (? & Hf & Hmin). split_and!; [done | |].
    + by rewrite (in_names_Permutation _ _ _ HR).
    + intros k Hk. rewrite (in_names_Permutation _ _ _ HR). by apply Hmin.
  - by subst.
Qed.

(** C38. The result does not depend on the order in which the dictionary
    holds its records: dictionaries with the same items in another order get
    the same name, or the same exception. *)
Theorem get_new_graph_tab_name_order graph_data_dict graph_data_dict' :
  graph_data_dict ≡ₚ graph_data_dict' ->
  get_new_graph_tab_name graph_data_dict =
  get_new_graph_tab_name graph_data_dict'.
Proof. intros Hp. by rewrite Hp. Qed.

(** Once the caller has stored a record under the returned name, the
    next call returns another name. *)
Theorem get_new_graph_tab_name_next graph_data_dict name key graph_data name' :
  get_new_graph_tab_name graph_data_dict = Ok (Some name) ->
  graph_data !! ("graphTabName" : str) = Some (Scalar (SStr name)) ->
  get_new_graph_tab_name (graph_data_dict ++ [(key, graph_data)]) =
    Ok (Some name') ->
  name' <> name.
Proof.
  intros _ Hgd Hnext%result_not_has_tab_name ->. apply Hnext.
  exists key, graph_data. split; [|done].
  apply elem_of_app. right. apply list_elem_of_here.
Qed.

End GraphTabName.

(** ** Concrete runs *)

(** A record whose tab name is [name]. *)
Definition tab_record (name : str) : gmap str pyval :=
  {[ ("graphTabName" : str) := Scalar (SStr name) ]}.

Definition example_tabs : list (str * gmap str pyval) :=
  [ ("id0" : str, tab_record "graph0"); ("id1" : str, tab_record "graph2") ].

(** With no record the name is [graph0]; with tabs [graph0] and [graph2]
    it is [graph1]; with a record that has no tab name the call raises. *)
Theorem get_new_graph_tab_name_examples :
  get_new_graph_tab_name [] = Ok (Some ("graph0" : str)) /\
  get_new_graph_tab_name example_tabs = Ok (Some ("graph1" : str)) /\
  get_new_graph_tab_name [("id0" : str, tab_record "graph0"); ("id1" : str, ∅)] =
    Raise (KeyError "graphTabName").
Proof. split_and!; by vm_compute. Qed.

Lemma get_new_graph_tab_name_fresh_witness :
  ~ has_tab_name example_tabs "graph1".
Proof.
  apply (get_new_graph_tab_name_fresh example_tabs "graph1"). by vm_compute.
Defined.

Lemma get_new_graph_tab_name_least_witness :
  exists n, ("graph1" : str) = graph_name n /\
    0 <= n <= Z.of_nat (length example_tabs) /\
    forall k, 0 <= k < n -> has_tab_name example_tabs (graph_name k).
Proof.
  apply (get_new_graph_tab_name_least example_tabs "graph1"). by vm_compute.
Defined.

Lemma get_new_graph_tab_name_order_witness :
  get_new_graph_tab_name example_tabs =
  get_new_graph_tab_name (reverse example_tabs).
Proof.
  apply (get_new_graph_tab_name_order example_tabs (reverse example_tabs)).
  apply Permutation_sym, reverse_Permutation.
Defined.

Lemma get_new_graph_tab_name_next_witness : ("graph3" : str) <> "graph1".
Proof.
  apply (get_new_graph_tab_name_next example_tabs "graph1" "id2"
           (tab_record "graph1") "graph3").
  - by vm_compute.
  - by vm_compute.
  - by vm_compute.
Defined.
