(* ===== verification/TabNameLoop.v ===== *)
(** * TabNameLoop: the probing loop of [get_new_graph_tab_name] as a
    transition system

    The [while] loop of [graph_utils.py] (lines 137-144) has two variables,
    [graph_number_indicator] and [new_graph_name]; [probe_state] is their
    record and [probe_body] one evaluation of the test and of the body.
    [probe] of [GraphTabName] is the run of this system on fuel
    ([probe_iterate]).

    The invariant of the run is [probe_inv]: the name is the one of the
    counter, and every number from the start up to the counter is taken.
    With the pigeonhole lemma it bounds the counter by the number of
    records, which gives the measure.  Theorems: every state reachable from
    the initial one satisfies the invariant; the loop is strongly
    normalising from every state, the initial one or not; from the initial
    state the run reaches, after as many steps as the number it returns, the
    exit with the result of [get_new_graph_tab_name].

    Since the loop ends from every state, the function can be written
    without fuel: [probe_loop] is the loop as a total function and
    [get_new_graph_tab_name_wf] the function with the result type of the
    source, a name or the [KeyError].  The function on fuel returns its
    value ([get_new_graph_tab_name_wf_eq]). *)

From stdpp Require Import relations gmap.
From S2P Require Import Prelude Loop PyStr PyValue GraphTabName.

(** ** The loop *)

Record probe_state : Type := ProbeState {
  graph_number_indicator : Z;
  new_graph_name : str
}.

(** Lines 137-138: the variables before the loop. *)
Definition probe_init : probe_state :=
  let graph_number_indicator := 0 in
  {| graph_number_indicator := graph_number_indicator;
     new_graph_name := graph_name graph_number_indicator |}.

Section Probe.
Context (all_graph_names : list pyval).
Implicit Types (s : probe_state) (start : Z).

(** Lines 140-144: the test of the [while], its body, and the exit to the
    [return]. *)
Definition probe_body s : probe_state + str :=
  if in_names (new_graph_name s) all_graph_names then
    let graph_number_indicator := graph_number_indicator s + 1 in
    inl {| graph_number_indicator := graph_number_indicator;
           new_graph_name := graph_name graph_number_indicator |}
  else inr (new_graph_name s).

(** The invariant of a run whose counter started at [start]. *)
Definition probe_inv start s : Prop :=
  start <= graph_number_indicator s /\
  new_graph_name s = graph_name (graph_number_indicator s) /\
  forall k, start <= k < graph_number_indicator s ->
    in_names (graph_name k) all_graph_names = true.

(** What is left of the candidates [start .. start + length]. *)
Definition probe_measure start s : nat :=
  Z.to_nat (start + Z.of_nat (length all_graph_names) - graph_number_indicator s).

(** ** The loop and its run on fuel *)

Lemma probe_iterate fuel graph_number_indicator new_graph_name :
  probe fuel all_graph_names graph_number_indicator new_graph_name =
  iterate probe_body fuel (ProbeState graph_number_indicator new_graph_name).
Proof.
  revert graph_number_indicator new_graph_name.
  induction fuel as [|fuel IH]; intros g name; [done|].
  simpl. unfold probe_body. simpl. destruct (in_names name all_graph_names); [|done].
  apply IH.
Qed.

Lemma probe_step_inv s s' :
  step probe_body s s' <->
  in_names (new_graph_name s) all_graph_names = true /\
  s' = ProbeState (graph_number_indicator s + 1)
         (graph_name (graph_number_indicator s + 1)).
Proof.
  rewrite step_iff. unfold probe_body.
  destruct (in_names _ _); split; try done; [by intros [= <-] | by intros [_ ->] |].
  by intros [? _].
Qed.

Lemma probe_exits_inv s name :
  exits probe_body s name <->
  in_names (new_graph_name s) all_graph_names = false /\ name = new_graph_name s.
Proof.
  unfold exits, probe_body.
  destruct (in_names _ _); split; try done; [by intros [? _] | by intros [= <-] |].
  by intros [_ ->].
Qed.

(** ** The invariant *)

(** Under the invariant the counter has not passed the candidates. *)
Lemma probe_inv_bound start s :
  probe_inv start s ->
  graph_number_indicator s <= start + Z.of_nat (length all_graph_names).
Proof.
  intros (Hs & _ & Htaken).
  destruct (free_name_from all_graph_names start) as (m & Hm & Hfree).
  destruct (Z.le_gt_cases (graph_number_indicator s) m) as [?|Hlt]; [lia|].
  rewrite Htaken in Hfree by lia. done.
Qed.

(** A step keeps the invariant and uses up a candidate. *)
Lemma probe_step_decreases start s s' :
  probe_inv start s -> step probe_body s s' ->
  probe_inv start s' /\ (probe_measure start s' < probe_measure start s)%nat.
Proof.
  intros (Hs & Hname & Htaken) [Hin ->]%probe_step_inv.
  assert (Hinv : probe_inv start
            (ProbeState (graph_number_indicator s + 1)
               (graph_name (graph_number_indicator s + 1)))).
  { split_and!; simpl; [lia | done |]. intros k Hk.
    destruct (decide (k = graph_number_indicator s)) as [->|]; [by rewrite <- Hname|].
    apply Htaken. lia. }
  split; [done|]. apply probe_inv_bound in Hinv. unfold probe_measure. simpl in *. lia.
Qed.

Lemma probe_init_inv : probe_inv 0 probe_init.
Proof. split_and!; simpl; [lia | done | lia]. Qed.

(** The counter counts the steps. *)
Lemma probe_nsteps_counter k s s' :
  nsteps (step probe_body) k s s' ->
  graph_number_indicator s' = graph_number_indicator s + Z.of_nat k.
Proof.
  induction 1 as [|k s s1 s' [_ ->]%probe_step_inv _ IH]; [lia|].
  simpl in IH. lia.
Qed.

(** The run from the initial state, in full. *)
Lemma probe_run :
  exists k s,
    (k <= length all_graph_names)%nat /\
    nsteps (step probe_body) k probe_init s /\
    graph_number_indicator s = Z.of_nat k /\
    first_free all_graph_names 0 (Z.of_nat k) /\
    exits probe_body s (graph_name (Z.of_nat k)) /\
    probe (S (length all_graph_names)) all_graph_names 0 (graph_name 0) =
      Some (graph_name (Z.of_nat k)).
Proof.
  destruct (measure_iterate probe_body (probe_inv 0) (probe_measure 0)
              (probe_step_decreases 0) probe_init probe_init_inv)
    as (k & s & name & Hk & Hsteps & Hinv & Hex & Hit).
  pose proof (probe_nsteps_counter _ _ _ Hsteps) as Hg.
  change (graph_number_indicator probe_init) with 0 in Hg. rewrite Z.add_0_l in Hg.
  apply probe_exits_inv in Hex as Hex'. destruct Hex' as [Hfree ->].
  destruct Hinv as (_ & Hname & Htaken). rewrite Hname, Hg in *.
  assert (probe_measure 0 probe_init = length all_graph_names) as Hm
    by (unfold probe_measure; simpl; lia).
  rewrite Hm in *. exists k, s. split_and!; [done.. | | done |].
  - split_and!; [lia | done | done].
  - rewrite probe_iterate. exact Hit.
Qed.

(** ** Theorems *)

(** Reachable states satisfy the invariant. *)
Lemma probe_reachable s :
  rtc (step probe_body) probe_init s ->
  probe_inv 0 s /\
  0 <= graph_number_indicator s <= Z.of_nat (length all_graph_names).
Proof.
  intros Hr.
  assert (probe_inv 0 s) as Hinv.
  { eapply (rtc_invariant probe_body (probe_inv 0)); [|apply probe_init_inv|done].
    intros s1 s2 H1 H12. by destruct (probe_step_decreases 0 s1 s2). }
  split; [done|]. pose proof (probe_inv_bound 0 s Hinv). destruct Hinv. lia.
Qed.

(** Every state the loop reaches from its initial state satisfies the
    invariant: the name is [graph<counter>], every smaller number names a
    tab, and the counter is at most the number of names collected. *)
Theorem probe_reachable_inv s :
  rtc (step probe_body) probe_init s ->
  probe_inv 0 s /\
  0 <= graph_number_indicator s <= Z.of_nat (length all_graph_names).
Proof. apply probe_reachable. Qed.

Lemma probe_sn s : sn (step probe_body) s.
Proof.
  constructor. intros s' [_ ->]%probe_step_inv.
  apply (measure_sn probe_body (probe_inv (graph_number_indicator s + 1))
           (probe_measure (graph_number_indicator s + 1))
           (probe_step_decreases _)).
  split_and!; simpl; [lia | done | lia].
Qed.

(** The loop ends from every state of its variables, not only from the
    initial one: the step relation is strongly normalising, because the
    names it tries are distinct and the collected names are finitely
    many. *)
Theorem probe_terminates_everywhere s : sn (step probe_body) s.
Proof. apply probe_sn. Qed.

End Probe.

(** ** The function without fuel *)

(** Lines 137-144 as a total function: the loop from its initial state, by
    recursion on the proof that it ends. *)
Definition probe_loop (all_graph_names : list pyval) : str :=
  loop (probe_body all_graph_names) (probe_sn all_graph_names) probe_init.

(** [get_new_graph_tab_name] with the type the source gives it: a name, or
    the [KeyError] of a record without a tab name. *)
Definition get_new_graph_tab_name_wf
    (graph_data_dict : list (str * gmap str pyval)) : result str :=
  all_graph_names ← collect_graph_names graph_data_dict;
  Ok (probe_loop all_graph_names).

Lemma probe_probe_loop all_graph_names :
  probe (S (length all_graph_names)) all_graph_names 0 (graph_name 0) =
  Some (probe_loop all_graph_names).
Proof.
  rewrite probe_iterate. unfold probe_loop.
  rewrite <- (measure_iterate_loop _ _ _ (probe_step_decreases all_graph_names 0)
                (probe_sn all_graph_names) probe_init (probe_init_inv all_graph_names)).
  do 2 f_equal. unfold probe_measure. simpl. lia.
Qed.

Lemma get_new_graph_tab_name_fuel graph_data_dict :
  get_new_graph_tab_name graph_data_dict =
  Some <$> get_new_graph_tab_name_wf graph_data_dict.
Proof.
  unfold get_new_graph_tab_name, get_new_graph_tab_name_wf.
  destruct (collect_graph_names graph_data_dict) as [all_graph_names|e]; [|done].
  rewrite !bind_Ok. cbv zeta. by rewrite probe_probe_loop.
Qed.

(** The function on fuel is the total function: the fuel it is given never
    runs out, on any dictionary. *)
Theorem get_new_graph_tab_name_wf_eq graph_data_dict :
  get_new_graph_tab_name graph_data_dict =
  Some <$> get_new_graph_tab_name_wf graph_data_dict.
Proof. apply get_new_graph_tab_name_fuel. Qed.

(** The total function returns the name of the first free number. *)
Lemma probe_loop_first_free all_graph_names :
  exists n, probe_loop all_graph_names = graph_name n /\
    first_free all_graph_names 0 n.
Proof.
  destruct (probe_run all_graph_names) as (k & _ & _ & _ & _ & Hfree & _ & Hp).
  rewrite probe_probe_loop in Hp. injection Hp as ->. by exists (Z.of_nat k).
Qed.

(** C11. When every record has a tab name, the loop started on the collected
    names eventually leaves through the [return]: it reaches a state in
    which the test fails, whose counter is at most the number of records,
    and whose name is the result of [get_new_graph_tab_name]. *)
Theorem get_new_graph_tab_name_eventually
    (graph_data_dict : list (str * gmap str pyval)) all_graph_names :
  collect_graph_names graph_data_dict = Ok all_graph_names ->
  eventually (probe_body all_graph_names)
    (fun s =>
       exits (probe_body all_graph_names) s (new_graph_name s) /\
       0 <= graph_number_indicator s <= Z.of_nat (length graph_data_dict) /\
       get_new_graph_tab_name graph_data_dict = Ok (Some (new_graph_name s)))
    probe_init.
Proof.
  intros Hc. destruct (probe_run all_graph_names)
    as (k & s & Hk & Hsteps & Hg & _ & Hex & Hp).
  apply eventually_rtc. exists s. split; [by eapply rtc_nsteps_2|].
  apply probe_exits_inv in Hex as Hex'. destruct Hex' as [_ Hname].
  rewrite <- Hname. split_and!; [done | lia | | ].
  - rewrite <- (collect_graph_names_length _ _ Hc). lia.
  - unfold get_new_graph_tab_name. rewrite Hc, bind_Ok. cbv zeta. by rewrite Hp.
Qed.

(** The number of iterations is the number in the name returned: the
    loop takes exactly [n] steps to return [graph<n>], and [n] is the first
    free number. *)
Theorem probe_iterations all_graph_names k s name :
  nsteps (step (probe_body all_graph_names)) k probe_init s ->
  exits (probe_body all_graph_names) s name ->
  name = graph_name (Z.of_nat k) /\
  first_free all_graph_names 0 (Z.of_nat k) /\
  (k <= length all_graph_names)%nat.
Proof.
  intros Hsteps [Hfree ->]%probe_exits_inv.
  destruct (probe_reachable all_graph_names s) as [(_ & Hname & Htaken) Hb];
    [by eapply rtc_nsteps_2|].
  pose proof (probe_nsteps_counter _ _ _ _ Hsteps) as Hg.
  change (graph_number_indicator probe_init) with 0 in Hg. rewrite Z.add_0_l in Hg.
  rewrite Hname, Hg in *. split_and!; [done | | lia].
  split_and!; [lia | done | done].
Qed.

(** ** Concrete runs *)

Lemma probe_reachable_inv_witness :
  probe_inv [Scalar (SStr "graph0")] 0 (ProbeState 1 "graph1") /\
  0 <= 1 <= 1.
Proof.
  apply (probe_reachable_inv [Scalar (SStr "graph0")] (ProbeState 1 "graph1")).
  apply rtc_once. by constructor.
Defined.

Lemma get_new_graph_tab_name_eventually_witness :
  eventually (probe_body [Scalar (SStr "graph0"); Scalar (SStr "graph2")])
    (fun s =>
       exits (probe_body [Scalar (SStr "graph0"); Scalar (SStr "graph2")]) s
         (new_graph_name s) /\
       0 <= graph_number_indicator s <= Z.of_nat (length example_tabs) /\
       get_new_graph_tab_name example_tabs = Ok (Some (new_graph_name s)))
    probe_init.
Proof.
  apply (get_new_graph_tab_name_eventually example_tabs). by vm_compute.
Defined.

Lemma probe_iterations_witness :
  ("graph1" : str) = graph_name (Z.of_nat 1) /\
  first_free [Scalar (SStr "graph0"); Scalar (SStr "graph2")] 0 (Z.of_nat 1) /\
  (1 <= 2)%nat.
Proof.
  apply (probe_iterations [Scalar (SStr "graph0"); Scalar (SStr "graph2")] 1
           (ProbeState 1 "graph1") "graph1").
  - apply nsteps_once. by constructor.
  - reflexivity.
Defined.
