(* ===== verification/GraphRegistry.v ===== *)
(** * GraphRegistry: the tab names of a registry over a sequence of requests

    [get_new_graph_tab_name] never changes [graph_data_dict]: it reads a
    snapshot and returns a name.  The specification leaves the rest to the
    caller, which "is responsible for inserting the chosen name before the
    next call".  This file models that caller, which is outside the
    sources: [add_graph_tab] asks for a name and stores a record with that
    name under the graph id ([graph_data_dict[graph_id] = {...}], Python's
    dictionary assignment, [dict_set]); [add_graph_tabs] serves a sequence
    of requests one after the other.

    Well-formedness of a registry, [registry_wf], is what the
    specification's data model states: the graph ids are the keys of a
    dictionary, every record has a tab name, and the tab names are pairwise
    distinct.  Theorems: [add_graph_tab] returns on a well-formed registry
    and keeps it well formed, so does every sequence of requests; from the
    empty registry [n] requests get the names [graph0] ... [graph(n-1)] in
    order. *)

From stdpp Require Import gmap.
From S2P Require Import Prelude PyStr PyValue GraphTabName TabNameLoop.

(** ** The caller *)

(** [d[key] = value] on a dictionary kept as the list of its items: the
    value of a key that is present is replaced in place, a new key goes to
    the end. *)
Fixpoint dict_set {V} (d : list (str * V)) (key : str) (value : V) : list (str * V) :=
  match d with
  | [] => [(key, value)]
  | (k, v) :: d' =>
      if decide (k = key) then (key, value) :: d'
      else (k, v) :: dict_set d' key value
  end.

(** The record the caller stores: the fields of the graph and its tab name. *)
Definition graph_record (fields : gmap str pyval) (graph_tab_name : str)
    : gmap str pyval :=
  <[("graphTabName" : str) := Scalar (SStr graph_tab_name)]> fields.

(** One request: the name is chosen, then the record is stored. *)
Definition add_graph_tab (graph_id : str) (fields : gmap str pyval)
    (graph_data_dict : list (str * gmap str pyval))
    : result (list (str * gmap str pyval)) :=
  graph_tab_name ← get_new_graph_tab_name_wf graph_data_dict;
  Ok (dict_set graph_data_dict graph_id (graph_record fields graph_tab_name)).

(** Requests served one after the other. *)
Fixpoint add_graph_tabs (requests : list (str * gmap str pyval))
    (graph_data_dict : list (str * gmap str pyval))
    : result (list (str * gmap str pyval)) :=
  match requests with
  | [] => Ok graph_data_dict
  | (graph_id, fields) :: requests' =>
      graph_data_dict ← add_graph_tab graph_id fields graph_data_dict;
      add_graph_tabs requests' graph_data_dict
  end.

(** ** Well-formed registries *)

(** The tab name of a record, when it has one and it is a string. *)
Definition tab_name_of (graph_data : gmap str pyval) : option str :=
  match graph_data !! ("graphTabName" : str) with
  | Some (Scalar (SStr s)) => Some s
  | _ => None
  end.

(** The tab names of a registry, in the order of its records. *)
Definition registry_names (graph_data_dict : list (str * gmap str pyval)) : list str :=
  omap tab_name_of graph_data_dict.*2.

Definition registry_wf (graph_data_dict : list (str * gmap str pyval)) : Prop :=
  NoDup graph_data_dict.*1 /\
  Forall (fun graph_data => is_Some (tab_name_of graph_data)) graph_data_dict.*2 /\
  NoDup (registry_names graph_data_dict).

#[export] Instance registry_wf_dec d : Decision (registry_wf d).
Proof. unfold registry_wf. apply _. Defined.

(** ** Dictionary assignment *)

Section DictSet.
Context {V : Type}.
Implicit Types (d : list (str * V)) (key : str) (value : V).

Lemma dict_set_keys d key value :
  (dict_set d key value).*1 = if decide (key ∈ d.*1) then d.*1 else d.*1 ++ [key].
Proof.
  induction d as [|[k v] d IH]; [done|]. cbn [dict_set].
  destruct (decide (k = key)) as [->|Hk]; csimpl.
  - by rewrite decide_True by apply list_elem_of_here.
  - rewrite IH. destruct (decide (key ∈ d.*1)) as [Hin|Hin].
    + by rewrite decide_True by by apply list_elem_of_further.
    + rewrite decide_False; [done|]. by intros [?|?]%elem_of_cons.
Qed.

Lemma dict_set_NoDup d key value : NoDup d.*1 -> NoDup (dict_set d key value).*1.
Proof.
  intros Hd. rewrite dict_set_keys. destruct (decide _); [done|].
  apply NoDup_app. split_and!; [done | | apply NoDup_singleton].
  by intros k Hk ->%list_elem_of_singleton.
Qed.

(** A new key goes to the end. *)
Lemma dict_set_new d key value :
  key ∉ d.*1 -> dict_set d key value = d ++ [(key, value)].
Proof.
  induction d as [|[k v] d IH]; [done|]. csimpl. intros Hk.
  rewrite decide_False by (intros ->; apply Hk, list_elem_of_here).
  by rewrite IH by (intros ?; by apply Hk, list_elem_of_further).
Qed.

(** The assignment replaces at most one item: the others are kept. *)
Lemma dict_set_Permutation d key value :
  exists rest, dict_set d key value ≡ₚ (key, value) :: rest /\ rest ⊆+ d /\
    forall kv, kv ∈ d -> kv.1 <> key -> kv ∈ rest.
Proof.
  induction d as [|[k v] d (rest & Hp & Hsub & Hin)]; cbn [dict_set].
  - exists []. split_and!; [done | done | by intros ? ?%elem_of_nil].
  - destruct (decide (k = key)) as [->|Hk].
    + exists d. split_and!; [done | by apply submseteq_cons |].
      by intros kv [->|?]%elem_of_cons ?.
    + exists ((k, v) :: rest). split_and!.
      * by rewrite Hp, Permutation_swap.
      * by apply submseteq_skip.
      * intros kv [->|?]%elem_of_cons ?; [apply list_elem_of_here|].
        by apply list_elem_of_further, Hin.
Qed.

End DictSet.

(** ** Names *)

Lemma tab_name_of_graph_record fields name :
  tab_name_of (graph_record fields name) = Some name.
Proof. unfold tab_name_of, graph_record. by rewrite lookup_insert_eq. Qed.

Lemma registry_names_cons k graph_data d :
  registry_names ((k, graph_data) :: d) =
  from_option (fun s => [s]) [] (tab_name_of graph_data) ++ registry_names d.
Proof. unfold registry_names. csimpl. by destruct (tab_name_of graph_data). Qed.

Lemma registry_names_app d d' :
  registry_names (d ++ d') = registry_names d ++ registry_names d'.
Proof. unfold registry_names. by rewrite fmap_app, omap_app. Qed.

#[export] Instance registry_names_Permutation :
  Proper (Permutation ==> Permutation) registry_names.
Proof. intros d d' Hp. unfold registry_names. by rewrite Hp. Qed.

Lemma registry_names_submseteq d d' : d ⊆+ d' -> registry_names d ⊆+ registry_names d'.
Proof.
  intros [k Hp]%submseteq_Permutation. rewrite Hp, registry_names_app.
  by apply submseteq_inserts_r.
Qed.

(** The names the function collects are those of [registry_names]. *)
Lemma has_tab_name_registry_names d name :
  has_tab_name d name <-> name ∈ registry_names d.
Proof.
  unfold has_tab_name, registry_names, tab_name_of.
  rewrite list_elem_of_omap. setoid_rewrite list_elem_of_fmap. split.
  - intros (key & gd & Hin & Hl). exists gd. rewrite Hl. split; [|done]. by exists (key, gd).
  - intros (gd & ([key gd'] & -> & Hin) & Hl). exists key, gd'. split; [done|].
    simpl in Hl. by destruct (gd' !! _) as [[[]|]|]; simplify_eq.
Qed.

(** When every record has a name, the names are collected. *)
Lemma collect_graph_names_wf d :
  Forall (fun graph_data => is_Some (tab_name_of graph_data)) d.*2 ->
  is_Ok (collect_graph_names d).
Proof.
  intros Hd. destruct (collect_graph_names d) as [names|e] eqn:Hc; [by eexists|].
  apply collect_graph_names_Raise in Hc as (_ & key & gd & Hin & Hl). exfalso.
  rewrite Forall_forall in Hd. destruct (Hd gd) as [s Hs].
  { apply list_elem_of_fmap. by exists (key, gd). }
  unfold tab_name_of in Hs. by rewrite Hl in Hs.
Qed.

(** ** One request *)

(** The name chosen is used by no record. *)
Lemma get_new_graph_tab_name_wf_fresh d name :
  get_new_graph_tab_name_wf d = Ok name -> name ∉ registry_names d.
Proof.
  intros Hg. rewrite <- has_tab_name_registry_names.
  apply result_not_has_tab_name. by rewrite get_new_graph_tab_name_fuel, Hg.
Qed.

Lemma get_new_graph_tab_name_wf_Ok d :
  Forall (fun graph_data => is_Some (tab_name_of graph_data)) d.*2 ->
  is_Ok (get_new_graph_tab_name_wf d).
Proof.
  intros [names Hc]%collect_graph_names_wf. unfold get_new_graph_tab_name_wf.
  rewrite Hc. by eexists.
Qed.

(** Storing a record under a name that is free keeps the registry well
    formed. *)
Lemma dict_set_wf d graph_id fields name :
  registry_wf d -> name ∉ registry_names d ->
  registry_wf (dict_set d graph_id (graph_record fields name)).
Proof.
  intros (Hkeys & Hnamed & Hnames) Hfree.
  destruct (dict_set_Permutation d graph_id (graph_record fields name))
    as (rest & Hp & Hsub & _).
  split_and!.
  - by apply dict_set_NoDup.
  - rewrite Hp. csimpl. constructor; [by rewrite tab_name_of_graph_record|].
    eapply submseteq_Forall; [by apply fmap_submseteq | done].
  - rewrite Hp, registry_names_cons, tab_name_of_graph_record. simpl.
    apply registry_names_submseteq in Hsub. constructor.
    + intros Hin. apply Hfree. by eapply elem_of_submseteq.
    + by eapply submseteq_NoDup.
Qed.

(** The name chosen is that of the first number no record uses. *)
Lemma get_new_graph_tab_name_wf_first d name :
  get_new_graph_tab_name_wf d = Ok name ->
  exists n, name = graph_name n /\ 0 <= n /\
    (graph_name n ∉ registry_names d) /\
    forall k, 0 <= k < n -> graph_name k ∈ registry_names d.
Proof.
  intros Hg. pose proof (get_new_graph_tab_name_fuel d) as Heq. rewrite Hg in Heq.
  destruct (collect_graph_names d) as [names|e] eqn:Hc.
  - destruct (get_new_graph_tab_name_Ok _ _ Hc) as (n & (Hn & Hfree & Hmin) & _ & Hg').
    rewrite Hg' in Heq. injection Heq as <-. exists n. split_and!; [done..| |].
    + rewrite <- has_tab_name_registry_names, <- (collect_graph_names_in _ _ _ Hc).
      by rewrite Hfree.
    + intros k Hk.
      rewrite <- has_tab_name_registry_names, <- (collect_graph_names_in _ _ _ Hc). auto.
  - unfold get_new_graph_tab_name_wf in Hg. by rewrite Hc in Hg.
Qed.

Lemma add_graph_tab_Ok graph_id fields d :
  registry_wf d ->
  exists name, get_new_graph_tab_name_wf d = Ok name /\ (name ∉ registry_names d) /\
    add_graph_tab graph_id fields d = Ok (dict_set d graph_id (graph_record fields name)).
Proof.
  intros (_ & [name Hg]%get_new_graph_tab_name_wf_Ok & _). exists name.
  split_and!; [done | by apply get_new_graph_tab_name_wf_fresh |].
  unfold add_graph_tab. by rewrite Hg.
Qed.

Lemma add_graph_tab_keeps_wf graph_id fields d :
  registry_wf d ->
  exists d', add_graph_tab graph_id fields d = Ok d' /\ registry_wf d'.
Proof.
  intros Hwf. destruct (add_graph_tab_Ok graph_id fields d Hwf) as (name & _ & Hfree & ->).
  eexists. split; [done|]. by apply dict_set_wf.
Qed.

(** ** Sequences of requests *)

(** C25. Requests served one after the other keep a registry well formed:
    every request is answered, every record has a tab name, and no two
    records have the same. *)
Theorem add_graph_tabs_wf requests d :
  registry_wf d ->
  exists d', add_graph_tabs requests d = Ok d' /\ registry_wf d'.
Proof.
  revert d. induction requests as [|[graph_id fields] requests IH]; intros d Hwf.
  - by exists d.
  - destruct (add_graph_tab_keeps_wf graph_id fields d Hwf) as (d1 & Hd1 & Hwf1).
    destruct (IH d1 Hwf1) as (d' & Hd' & Hwf').
    exists d'. split; [|done]. cbn [add_graph_tabs]. by rewrite Hd1.
Qed.

(** The names [graph0] ... [graph(n-1)]. *)
Definition first_names (n : nat) : list str :=
  (fun i => graph_name (Z.of_nat i)) <$> seq 0 n.

Lemma elem_of_first_names n k :
  graph_name k ∈ first_names n <-> 0 <= k < Z.of_nat n.
Proof.
  unfold first_names. rewrite list_elem_of_fmap. setoid_rewrite elem_of_seq. split.
  - intros (i & ->%(inj graph_name) & Hi). lia.
  - intros Hk. exists (Z.to_nat k). split; [f_equal|]; lia.
Qed.

(** On a registry that holds the first [n] names the next name is
    [graph<n>]. *)
Lemma get_new_graph_tab_name_wf_next d n :
  Forall (fun graph_data => is_Some (tab_name_of graph_data)) d.*2 ->
  registry_names d ≡ₚ first_names n ->
  get_new_graph_tab_name_wf d = Ok (graph_name (Z.of_nat n)).
Proof.
  intros [name Hg]%get_new_graph_tab_name_wf_Ok Hnames. rewrite Hg. f_equal.
  apply get_new_graph_tab_name_wf_first in Hg as (m & -> & Hm & Hfree & Hmin).
  f_equal. rewrite Hnames, elem_of_first_names in Hfree.
  destruct (Z.lt_trichotomy m (Z.of_nat n)) as [?|[->|Hlt]]; [lia | done |].
  specialize (Hmin (Z.of_nat n)). rewrite Hnames, elem_of_first_names in Hmin. lia.
Qed.

Lemma first_names_S n : first_names (S n) = first_names n ++ [graph_name (Z.of_nat n)].
Proof. unfold first_names. by rewrite seq_S, fmap_app. Qed.

Lemma add_graph_tabs_from requests : forall d n,
  Forall (fun graph_data => is_Some (tab_name_of graph_data)) d.*2 ->
  registry_names d = first_names n ->
  NoDup (d.*1 ++ requests.*1) ->
  exists d', add_graph_tabs requests d = Ok d' /\
    d'.*1 = d.*1 ++ requests.*1 /\
    registry_names d' = first_names (n + length requests).
Proof.
  induction requests as [|[graph_id fields] requests IH]; intros d n Hnamed Hnames Hkeys.
  - exists d. by rewrite !app_nil_r, Nat.add_0_r.
  - cbn [add_graph_tabs]. unfold add_graph_tab.
    rewrite (get_new_graph_tab_name_wf_next d n) by (done || by rewrite Hnames).
    rewrite bind_Ok. cbv beta. csimpl in Hkeys.
    assert (graph_id ∉ d.*1) as Hnew.
    { apply NoDup_app in Hkeys as (_ & Hdisj & _). intros Hin.
      apply (Hdisj _ Hin), list_elem_of_here. }
    rewrite dict_set_new, bind_Ok by done.
    destruct (IH (d ++ [(graph_id, graph_record fields (graph_name (Z.of_nat n)))]) (S n))
      as (d' & -> & Hk' & Hn').
    + rewrite fmap_app, Forall_app. split; [done|]. apply Forall_singleton.
      cbn [snd]. by rewrite tab_name_of_graph_record.
    + rewrite registry_names_app, Hnames, first_names_S. f_equal.
      by rewrite registry_names_cons, tab_name_of_graph_record.
    + by rewrite fmap_app, <- app_assoc.
    + exists d'. split_and!; [done | |].
      * by rewrite Hk', fmap_app, <- app_assoc.
      * rewrite Hn'. f_equal. simpl. lia.
Qed.

(** C26. From the empty registry, requests for distinct graphs get the names
    [graph0], [graph1], ... in the order in which they are served, and the
    registry holds the graphs in that order. *)
Theorem add_graph_tabs_names requests :
  NoDup requests.*1 ->
  exists d, add_graph_tabs requests [] = Ok d /\
    d.*1 = requests.*1 /\
    registry_names d = first_names (length requests).
Proof. intros Hids. by apply (add_graph_tabs_from requests [] 0). Qed.

(** ** Concrete runs *)

(** Three graphs added to the empty registry. *)
Definition example_requests : list (str * gmap str pyval) :=
  [ ("id0" : str, ∅); ("id1" : str, ∅); ("id2" : str, ∅) ].

Lemma add_graph_tabs_wf_witness :
  exists d', add_graph_tabs example_requests example_tabs = Ok d' /\ registry_wf d'.
Proof. apply (add_graph_tabs_wf example_requests example_tabs). by_compute. Defined.

Lemma add_graph_tabs_names_witness :
  exists d, add_graph_tabs example_requests [] = Ok d /\
    d.*1 = example_requests.*1 /\
    registry_names d = first_names (length example_requests).
Proof. apply (add_graph_tabs_names example_requests). by_compute. Defined.
