(* ===== verification/ParamCode.v ===== *)
(** * ParamCode: the parameter serialiser

    Models [TAB] and [param_dict_to_code] of [graph_utils.py] (lines 42-95):
    a dictionary of chart parameters, possibly nested, becomes the text of
    keyword arguments, nested dictionaries as [dict(...)] calls.

    A parameter dictionary is the list of its items in insertion order
    ([list (str * pyval)]).  The function recurses into the values that are
    dictionaries; in the model this is [code_chunk], the [if isinstance(value,
    dict)] of the loop body, defined by recursion on the value, and
    [for_items], the [for] loop with its accumulator [code] and its counter
    [value_num].  [param_dict_to_code] is the function itself.  The recursion
    terminates because a [pyval] is a finite tree, which is the
    specification's "no cycles by construction".

    [code_spec] is a reference definition of the same text with [join]; the
    first theorem shows that the loop computes it.  The other theorems are
    about the text: its parentheses are balanced and nest as deep as the
    dictionaries do, the single-line layout has no line break exactly when
    no value is a dictionary, and the two layouts differ in white space
    only.  They hold for any converter ([Transpiler]) whose literals satisfy
    the stated condition; the witnesses run [sample_transpiler]. *)

From S2P Require Import Prelude PyStr PyValue Parens.

(** ** The model *)

(** Four spaces, used in place of a tab character. *)
Definition TAB : str := "    ".

(** The newline character (the source's ['\n']). *)
Definition NEWLINE : str := [newline].

Section Loop.
Variable chunk : str -> pyval -> str.
Variables TAB_CONSTANT NEWLINE_CONSTANT : str.
Variable level : Z.

(** The [for key, value in param_dict.items()] loop: [items] is what is left
    to visit, [code] and [value_num] the variables of those names. *)
Fixpoint for_items (items : list (str * pyval)) (code : str) (value_num : Z)
    : str :=
  match items with
  | [] => code
  | (key, value) :: items' =>
      let code_chunk := chunk key value in
      let code :=
        if negb (value_num =? 0) then code ++ ", " ++ NEWLINE_CONSTANT
        else code in
      let value_num := value_num + 1 in
      let code := code ++ repeat TAB_CONSTANT (level + 1) in
      let code := code ++ code_chunk in
      for_items items' code value_num
  end.

End Loop.

(** The body of [param_dict_to_code], given how the loop turns a key and its
    value into a code chunk at each level. *)
Definition dict_to_code (chunk : Z -> str -> pyval -> str)
    (param_dict : list (str * pyval)) (level : Z) (as_single_line : bool)
    : str :=
  let TAB_CONSTANT := if as_single_line then [] else TAB in
  let NEWLINE_CONSTANT := if as_single_line then [] else NEWLINE in
  let code :=
    if level =? 0 then NEWLINE_CONSTANT else "dict(" ++ NEWLINE_CONSTANT in
  let code :=
    for_items (chunk level) TAB_CONSTANT NEWLINE_CONSTANT level param_dict code 0 in
  if level =? 0 then code ++ NEWLINE_CONSTANT
  else code ++ NEWLINE_CONSTANT ++ repeat TAB_CONSTANT level ++ ")".

Section ParamCode.
Context `{!Transpiler}.

(** The code chunk of one item: a nested dictionary is serialised one level
    deeper, and always on several lines, since the recursive call does not
    pass [as_single_line] on; any other value goes through the converter. *)
Fixpoint code_chunk (level : Z) (key : str) (value : pyval) {struct value}
    : str :=
  match value with
  | Dict param_dict =>
      key ++ " = " ++ dict_to_code code_chunk param_dict (level + 1) false
  | Scalar x => key ++ "=" ++ column_header_to_transpiled_code x
  end.

Definition param_dict_to_code (param_dict : list (str * pyval)) (level : Z)
    (as_single_line : bool) : str :=
  dict_to_code code_chunk param_dict level as_single_line.

(** ** Reference definition *)

(** The text of each item: its indentation and its chunk. *)
Definition entries (TAB_CONSTANT : str) (level : Z)
    (param_dict : list (str * pyval)) : list str :=
  (fun kv => repeat TAB_CONSTANT (level + 1) ++ code_chunk level kv.1 kv.2)
    <$> param_dict.

(** The serialised text as an opening, the items joined by the separator,
    and a closing. *)
Definition code_spec (param_dict : list (str * pyval)) (level : Z)
    (as_single_line : bool) : str :=
  let TAB_CONSTANT := if as_single_line then [] else TAB in
  let NEWLINE_CONSTANT := if as_single_line then [] else NEWLINE in
  (if level =? 0 then NEWLINE_CONSTANT else "dict(" ++ NEWLINE_CONSTANT) ++
  join (", " ++ NEWLINE_CONSTANT) (entries TAB_CONSTANT level param_dict) ++
  (if level =? 0 then NEWLINE_CONSTANT
   else NEWLINE_CONSTANT ++ repeat TAB_CONSTANT level ++ ")").

(** ** Predicates on texts and on parameter trees *)


Definition no_newline (s : str) : Prop := Forall (fun c => c <> newline) s.

#[export] Instance no_newline_dec s : Decision (no_newline s).
Proof. unfold no_newline. apply _. Defined.

(** [s] without its spaces and line breaks. *)
Definition strip_ws (s : str) : str :=
  filter (fun c => c <> " "%char /\ c <> newline) s.

(** [all_texts P value]: every key and every converted literal of [value]
    satisfies [P]. *)
Fixpoint all_texts (P : str -> Prop) (value : pyval) : Prop :=
  match value with
  | Scalar x => P (column_header_to_transpiled_code x)
  | Dict items => foldr (fun kv acc => P kv.1 /\ all_texts P kv.2 /\ acc) True items
  end.

#[export] Instance all_texts_dec (P : str -> Prop) `{!forall s, Decision (P s)} value :
  Decision (all_texts P value).
Proof.
  revert value. refine (fix go value : Decision (all_texts P value) :=
    match value with
    | Scalar x => decide (P (column_header_to_transpiled_code x))
    | Dict items =>
        (fix go_items items : Decision (all_texts P (Dict items)) :=
           match items with
           | [] => left I
           | kv :: items' => and_dec (decide (P kv.1)) (and_dec (go kv.2) (go_items items'))
           end) items
    end).
Defined.

(** The greatest [dict_depth] among the values of a dictionary. *)
Definition items_depth (param_dict : list (str * pyval)) : nat :=
  foldr (fun kv d => Nat.max (dict_depth kv.2) d) 0%nat param_dict.

(** A value of the dictionary is itself a dictionary. *)
Definition has_nested (param_dict : list (str * pyval)) : Prop :=
  exists key items, (key, Dict items) ∈ param_dict.

(** ** The loop computes the reference text *)

Lemma code_chunk_Dict level key param_dict :
  code_chunk level key (Dict param_dict) =
    key ++ " = " ++ param_dict_to_code param_dict (level + 1) false.
Proof. reflexivity. Qed.

Lemma code_chunk_Scalar level key x :
  code_chunk level key (Scalar x) =
    key ++ "=" ++ column_header_to_transpiled_code x.
Proof. reflexivity. Qed.

(** The loop invariant: after some items, the loop appends the remaining
    entries, each preceded by the separator unless it is the very first. *)
Lemma for_items_join T N level items code value_num :
  0 <= value_num ->
  for_items (code_chunk level) T N level items code value_num =
    code ++
    (if (negb (value_num =? 0)) && negb (bool_decide (items = []))
     then ", " ++ N else []) ++
    join (", " ++ N) (entries T level items).
Proof.
  revert code value_num.
  induction items as [|[key value] items IH]; intros code value_num Hn.
  - simpl. by rewrite andb_false_r, app_nil_r.
  - cbn [for_items]. rewrite IH by lia. clear IH.
    rewrite andb_true_r.
    replace (value_num + 1 =? 0) with false by lia. simpl negb.
    destruct items as [|kv items]; simpl; destruct (value_num =? 0);
      by str_norm.
Qed.

(** The loop with its counter computes the reference text. *)
Lemma param_dict_to_code_spec param_dict level as_single_line :
  param_dict_to_code param_dict level as_single_line =
    code_spec param_dict level as_single_line.
Proof.
  unfold param_dict_to_code, dict_to_code, code_spec.
  rewrite for_items_join by lia.
  destruct (level =? 0); by str_norm.
Qed.

(** The two shapes of the text: bare at the top level, a [dict(...)] call
    below it. *)
Lemma code_spec_top param_dict as_single_line :
  code_spec param_dict 0 as_single_line =
    (if as_single_line then [] else NEWLINE) ++
    join (", " ++ (if as_single_line then [] else NEWLINE))
      (entries (if as_single_line then [] else TAB) 0 param_dict) ++
    (if as_single_line then [] else NEWLINE).
Proof. reflexivity. Qed.

Lemma code_spec_nested param_dict level as_single_line :
  level <> 0 ->
  code_spec param_dict level as_single_line =
    "dict" ++ "(" ++
    ((if as_single_line then [] else NEWLINE) ++
     join (", " ++ (if as_single_line then [] else NEWLINE))
       (entries (if as_single_line then [] else TAB) level param_dict) ++
     (if as_single_line then [] else NEWLINE) ++
     repeat (if as_single_line then [] else TAB) level) ++ ")" ++ [].
Proof.
  intros Hl. unfold code_spec. destruct (Z.eqb_spec level 0); [done|]. by str_norm.
Qed.

(** C1. [param_dict_to_code] returns the items joined by a comma, a space
    and the line break of the layout, each item indented by [level + 1] tabs
    and written [key=literal] for a scalar and [key = dict(...)] for a
    dictionary; at the top level the text is put between two line breaks,
    below it between [dict(] and the line break, the indentation and [)].
    The loop with its counter puts the separator between the items and
    nowhere else, for every dictionary, level and layout. *)
Theorem param_dict_to_code_join param_dict level (as_single_line : bool) :
  let NEWLINE_CONSTANT : str := if as_single_line then [] else NEWLINE in
  let TAB_CONSTANT : str := if as_single_line then [] else TAB in
  let items :=
    join (", " ++ NEWLINE_CONSTANT)
      ((fun kv => repeat TAB_CONSTANT (level + 1) ++ code_chunk level kv.1 kv.2)
         <$> param_dict) in
  param_dict_to_code param_dict level as_single_line =
    if level =? 0 then NEWLINE_CONSTANT ++ items ++ NEWLINE_CONSTANT
    else "dict(" ++ NEWLINE_CONSTANT ++ items ++ NEWLINE_CONSTANT ++
         repeat TAB_CONSTANT level ++ ")".
Proof.
  cbv zeta. rewrite param_dict_to_code_spec. unfold code_spec, entries.
  destruct (level =? 0); by str_norm.
Qed.

(** ** Line breaks *)

(** Every character of the serialised text satisfies [P] when the fixed
    tokens, the layout characters in use and every chunk do. *)
Lemma Forall_code_spec (P : ascii -> Prop) param_dict level as_single_line :
  Forall P ("dict(" ++ ", " ++ ")") ->
  (as_single_line = false -> Forall P (NEWLINE ++ TAB)) ->
  Forall (fun kv => Forall P (code_chunk level kv.1 kv.2)) param_dict ->
  Forall P (code_spec param_dict level as_single_line).
Proof.
  intros Htok Hws Hchunks. unfold code_spec.
  assert (Hnl : Forall P (if as_single_line then [] else NEWLINE)).
  { destruct as_single_line; [constructor|].
    by destruct (proj1 (Forall_app _ _ _) (Hws eq_refl)). }
  assert (Htab : forall n, Forall P (repeat (if as_single_line then [] else TAB) n)).
  { intros n. apply Forall_repeat. destruct as_single_line; [constructor|].
    by destruct (proj1 (Forall_app _ _ _) (Hws eq_refl)). }
  apply Forall_app in Htok as [Hopen [Hsep Hclose]%Forall_app].
  rewrite !Forall_app. split_and!.
  - destruct (level =? 0); [done|]. by apply Forall_app.
  - apply Forall_join; [by apply Forall_app|].
    unfold entries. apply Forall_fmap. eapply Forall_impl; [exact Hchunks|].
    intros kv Hkv. simpl. by apply Forall_app.
  - destruct (level =? 0); [done|]. by rewrite !Forall_app.
Qed.

(** C28. In the single-line layout the text of a dictionary whose values are
    all scalars has no line break, at any level, provided no key and no
    converted literal has one. *)
Theorem single_line_flat param_dict level :
  Forall (fun kv => no_newline kv.1 /\
            match kv.2 with
            | Scalar x => no_newline (column_header_to_transpiled_code x)
            | Dict _ => False
            end) param_dict ->
  no_newline (param_dict_to_code param_dict level true).
Proof.
  intros Hd. rewrite param_dict_to_code_spec. apply Forall_code_spec.
  - by_compute.
  - done.
  - eapply Forall_impl; [exact Hd|]. intros [key [x|items]] [Hk Hv]; [|done].
    cbn [fst snd] in *. rewrite code_chunk_Scalar, !Forall_app.
    split_and!; [done | by_compute | done].
Qed.

(** C10. In the single-line layout the text has a line break as soon as one
    value is a dictionary: the recursive call does not pass [as_single_line]
    on, so a nested dictionary is always laid out on several lines. *)
Theorem single_line_nested param_dict level :
  has_nested param_dict -> level + 1 <> 0 ->
  newline ∈ param_dict_to_code param_dict level true.
Proof.
  intros (key & items & Hin) Hl. rewrite param_dict_to_code_spec. unfold code_spec.
  rewrite !elem_of_app. right; left.
  eapply elem_of_join_intro.
  - unfold entries. apply list_elem_of_fmap. by eexists.
  - cbn [fst snd]. rewrite code_chunk_Dict, param_dict_to_code_spec.
    unfold code_spec. destruct (Z.eqb_spec (level + 1) 0); [done|].
    assert (newline ∈ NEWLINE) by apply list_elem_of_here.
    rewrite !elem_of_app. tauto.
Qed.

(** ** White space *)

Lemma strip_ws_app s t : strip_ws (s ++ t) = strip_ws s ++ strip_ws t.
Proof. apply filter_app. Qed.

Lemma strip_ws_layout (as_single_line : bool) n :
  strip_ws (if as_single_line then [] else NEWLINE) = [] /\
  strip_ws (repeat (if as_single_line then [] else TAB) n) = [].
Proof. split; [|apply filter_repeat_nil]; by destruct as_single_line. Qed.

Lemma strip_ws_entries (as_single_line : bool) level param_dict :
  strip_ws <$> entries (if as_single_line then [] else TAB) level param_dict =
  (fun kv => strip_ws (code_chunk level kv.1 kv.2)) <$> param_dict.
Proof.
  unfold entries. rewrite <- list_fmap_compose. apply list_fmap_ext.
  intros i kv _. simpl. rewrite strip_ws_app.
  by rewrite (proj2 (strip_ws_layout as_single_line (level + 1))).
Qed.

(** Without white space the text is the same in both layouts. *)
Lemma strip_ws_code_spec param_dict level as_single_line :
  strip_ws (code_spec param_dict level as_single_line) =
  strip_ws (if level =? 0 then [] else "dict(") ++
  join "," ((fun kv => strip_ws (code_chunk level kv.1 kv.2)) <$> param_dict) ++
  strip_ws (if level =? 0 then [] else ")").
Proof.
  unfold code_spec.
  pose proof (strip_ws_layout as_single_line level) as [Hnl Htab].
  rewrite !strip_ws_app. unfold strip_ws at 2. rewrite filter_join.
  fold strip_ws. fold (strip_ws (", " ++ (if as_single_line then [] else NEWLINE))).
  rewrite strip_ws_entries, strip_ws_app, Hnl.
  destruct (level =? 0); rewrite ?strip_ws_app, ?Hnl, ?Htab; by str_norm.
Qed.

(** C29. The single-line and the multi-line text of the same dictionary
    differ in white space only: without spaces and line breaks they are
    equal. *)
Theorem layout_whitespace_only param_dict level :
  strip_ws (param_dict_to_code param_dict level true) =
  strip_ws (param_dict_to_code param_dict level false).
Proof. by rewrite !param_dict_to_code_spec, !strip_ws_code_spec. Qed.

(** ** Parentheses *)

Lemma all_texts_Dict P items :
  all_texts P (Dict items) <->
  Forall (fun kv => P kv.1 /\ all_texts P kv.2) items.
Proof.
  induction items as [|kv items IH]; simpl.
  - split; [constructor | done].
  - rewrite Forall_cons. simpl in IH. rewrite <- IH. tauto.
Qed.

Lemma all_texts_impl (P Q : str -> Prop) value :
  (forall s, P s -> Q s) -> all_texts P value -> all_texts Q value.
Proof.
  intros HPQ. induction value as [x|items IH] using pyval_ind'; [apply HPQ|].
  intros Hitems%all_texts_Dict. apply all_texts_Dict.
  rewrite Forall_forall in IH, Hitems |- *.
  intros kv Hin. destruct (Hitems kv Hin). auto.
Qed.

Lemma layout_paren_free (as_single_line : bool) n :
  paren_free (if as_single_line then [] else NEWLINE) /\
  paren_free (repeat (if as_single_line then [] else TAB) n).
Proof.
  split; [|apply paren_free_repeat]; destruct as_single_line;
    by_compute.
Qed.

Lemma balanced_entries (as_single_line : bool) level param_dict :
  Forall (fun kv => balanced (code_chunk level kv.1 kv.2)) param_dict ->
  Forall balanced (entries (if as_single_line then [] else TAB) level param_dict).
Proof.
  intros Hd. unfold entries. apply Forall_fmap. eapply Forall_impl; [exact Hd|].
  intros kv Hkv. simpl. apply balanced_app; [|done].
  apply paren_free_balanced, layout_paren_free.
Qed.

Lemma separator_paren_free (as_single_line : bool) :
  paren_free (", " ++ (if as_single_line then [] else NEWLINE)).
Proof. destruct as_single_line; by_compute. Qed.

Lemma balanced_code_spec param_dict level as_single_line :
  Forall (fun kv => balanced (code_chunk level kv.1 kv.2)) param_dict ->
  balanced (code_spec param_dict level as_single_line).
Proof.
  intros Hd.
  pose proof (layout_paren_free as_single_line level) as [Hnl Htab].
  pose proof (balanced_join _ _
    (paren_free_balanced _ (separator_paren_free as_single_line))
    (balanced_entries as_single_line level param_dict Hd)) as Hjoin.
  destruct (Z.eq_dec level 0) as [->|Hl].
  - rewrite code_spec_top. auto using balanced_app, paren_free_balanced.
  - rewrite code_spec_nested by done.
    apply balanced_call; [by_compute | | done].
    auto using balanced_app, paren_free_balanced.
Qed.

Lemma balanced_code_chunk value : forall level key,
  balanced key -> all_texts balanced value ->
  balanced (code_chunk level key value).
Proof.
  induction value as [x|items IH] using pyval_ind'; intros level key Hkey Hv.
  - rewrite code_chunk_Scalar.
    apply balanced_app; [done|]. apply balanced_app; [done | exact Hv].
  - rewrite code_chunk_Dict, param_dict_to_code_spec.
    apply balanced_app; [done|]. apply balanced_app; [done|].
    apply balanced_code_spec. apply all_texts_Dict in Hv.
    rewrite Forall_forall in IH, Hv |- *. intros kv Hin.
    destruct (Hv kv Hin). by apply IH.
Qed.

Lemma balanced_chunks level param_dict :
  all_texts balanced (Dict param_dict) ->
  Forall (fun kv => balanced (code_chunk level kv.1 kv.2)) param_dict.
Proof.
  intros Hd%all_texts_Dict. eapply Forall_impl; [exact Hd|].
  intros kv [? ?]. by apply balanced_code_chunk.
Qed.

(** C4. When every key and every converted literal is balanced, the text
    [param_dict_to_code] returns is balanced: every [)] closes an open [(]
    and none is left open, at any level and in both layouts. *)
Theorem param_dict_to_code_balanced param_dict level as_single_line :
  all_texts balanced (Dict param_dict) ->
  balanced (param_dict_to_code param_dict level as_single_line).
Proof.
  intros Hd. rewrite param_dict_to_code_spec.
  by apply balanced_code_spec, balanced_chunks.
Qed.

(** ** Nesting depth *)

Lemma entries_depth T level param_dict :
  paren_free (repeat T (level + 1)) ->
  Forall (fun kv => paren_max (code_chunk level kv.1 kv.2) 0 = dict_depth kv.2)
    param_dict ->
  foldr (fun x m => Nat.max (paren_max x 0) m) 0%nat (entries T level param_dict) =
    items_depth param_dict.
Proof.
  intros HT. unfold entries, items_depth.
  induction 1 as [|kv d Hm _ IH]; [done|].
  rewrite fmap_cons. cbn [foldr]. by rewrite IH, paren_max_free_app, Hm.
Qed.

Lemma depth_code_spec param_dict level as_single_line :
  Forall (fun kv => balanced (code_chunk level kv.1 kv.2) /\
            paren_max (code_chunk level kv.1 kv.2) 0 = dict_depth kv.2) param_dict ->
  paren_max (code_spec param_dict level as_single_line) 0 =
    if level =? 0 then items_depth param_dict else S (items_depth param_dict).
Proof.
  intros Hd.
  pose proof (layout_paren_free as_single_line level) as [Hnl Htab].
  pose proof (separator_paren_free as_single_line) as Hsep.
  pose (J := join (", " ++ (if as_single_line then [] else NEWLINE))
              (entries (if as_single_line then [] else TAB) level param_dict)).
  assert (Hent : Forall balanced (entries (if as_single_line then [] else TAB) level param_dict)).
  { apply balanced_entries. eapply Forall_impl; [exact Hd|]. by intros kv [? _]. }
  assert (HJ : balanced J /\ paren_max J 0 = items_depth param_dict).
  { split; [by apply balanced_join, Hent; apply paren_free_balanced|].
    unfold J. rewrite paren_max_join by done.
    apply entries_depth; [apply layout_paren_free|].
    eapply Forall_impl; [exact Hd|]. by intros kv [_ ?]. }
  destruct HJ as [HJb HJm].
  destruct (Z.eqb_spec level 0) as [->|Hl].
  - rewrite code_spec_top. fold J.
    rewrite paren_max_free_app, paren_max_app_free by done. done.
  - rewrite code_spec_nested by done. fold J.
    rewrite paren_max_call; [ | by_compute | | by constructor].
    + rewrite paren_max_free_app by done.
      rewrite paren_max_app_free; [lia | done | by apply paren_free_app].
    + apply balanced_app; [by apply paren_free_balanced|].
      apply balanced_app; [done|]. by apply paren_free_balanced, paren_free_app.
Qed.

Lemma depth_code_chunk value : forall level key,
  0 <= level -> paren_free key -> all_texts paren_free value ->
  paren_max (code_chunk level key value) 0 = dict_depth value.
Proof.
  induction value as [x|items IH] using pyval_ind'; intros level key Hl Hkey Hv.
  - rewrite code_chunk_Scalar. apply paren_free_max.
    rewrite !paren_free_app. split_and!; [done | by_compute | exact Hv].
  - rewrite code_chunk_Dict, param_dict_to_code_spec.
    rewrite !paren_max_free_app by (done || by_compute).
    rewrite depth_code_spec.
    + by destruct (Z.eqb_spec (level + 1) 0); [lia|].
    + apply all_texts_Dict in Hv. rewrite Forall_forall in IH, Hv |- *.
      intros kv Hin. destruct (Hv kv Hin) as [Hk Hkv]. split.
      * apply balanced_code_chunk; [by apply paren_free_balanced|].
        revert Hkv. apply all_texts_impl, paren_free_balanced.
      * apply IH; [done | lia | done | done].
Qed.

(** C27. When no key and no converted literal has a parenthesis, the
    parentheses of the text nest exactly as deep as the dictionaries do: at
    the top level (level 0, no enclosing call) the greatest depth is the
    number of dictionary levels below the top one, and at a level above 0 it
    counts the enclosing [dict(] too; the depth is back to 0 at the end. *)
Theorem param_dict_to_code_depth param_dict level as_single_line :
  0 <= level -> all_texts paren_free (Dict param_dict) ->
  paren_scan (param_dict_to_code param_dict level as_single_line) 0 = Some 0%nat /\
  paren_max (param_dict_to_code param_dict level as_single_line) 0 =
    if level =? 0 then Nat.pred (dict_depth (Dict param_dict))
    else dict_depth (Dict param_dict).
Proof.
  intros Hl Hd.
  assert (Hb : all_texts balanced (Dict param_dict))
    by (revert Hd; apply all_texts_impl, paren_free_balanced).
  split; [rewrite param_dict_to_code_spec; by apply balanced_code_spec, balanced_chunks|].
  rewrite param_dict_to_code_spec, depth_code_spec; [done|].
  pose proof (balanced_chunks level param_dict Hb) as Hc.
  apply all_texts_Dict in Hd. rewrite Forall_forall in Hc, Hd |- *.
  intros kv Hin. destruct (Hd kv Hin). split; [by apply Hc | by apply depth_code_chunk].
Qed.

End ParamCode.

(** ** Concrete runs, with the sample converter *)

(** [{'x': 'a', 'layout': {'title': 't', 'font': {'size': 3}}}]. *)
Definition example_params : list (str * pyval) :=
  [ ("x" : str, Scalar (SStr "a"));
    ("layout" : str,
      Dict [ ("title" : str, Scalar (SStr "t"));
             ("font" : str, Dict [("size" : str, Scalar (SInt 3))]) ]) ].

(** [{'a': 1, 'b': True}]. *)
Definition example_flat : list (str * pyval) :=
  [ ("a" : str, Scalar (SInt 1)); ("b" : str, Scalar (SBool true)) ].

(** The text of concrete dictionaries, character for character: nested
    dictionaries on several lines with the items separated by a comma, a
    space and a line break; a flat dictionary on one line; the nested
    dictionary still on several lines in the single-line layout; and the
    empty dictionary at the top level and below it. *)
Theorem param_dict_to_code_examples :
  @param_dict_to_code sample_transpiler example_params 0 false =
    NEWLINE ++
    "    x='a', " ++ NEWLINE ++
    "    layout = dict(" ++ NEWLINE ++
    "        title='t', " ++ NEWLINE ++
    "        font = dict(" ++ NEWLINE ++
    "            size=3" ++ NEWLINE ++
    "        )" ++ NEWLINE ++
    "    )" ++ NEWLINE /\
  @param_dict_to_code sample_transpiler example_flat 0 true = "a=1, b=True" /\
  @param_dict_to_code sample_transpiler example_params 0 true =
    "x='a', layout = dict(" ++ NEWLINE ++
    "        title='t', " ++ NEWLINE ++
    "        font = dict(" ++ NEWLINE ++
    "            size=3" ++ NEWLINE ++
    "        )" ++ NEWLINE ++
    "    )" /\
  @param_dict_to_code sample_transpiler [] 0 false = NEWLINE ++ NEWLINE /\
  @param_dict_to_code sample_transpiler [] 1 false =
    "dict(" ++ NEWLINE ++ NEWLINE ++ TAB ++ ")".
Proof. split_and!; by vm_compute. Qed.

Lemma single_line_flat_witness :
  no_newline (@param_dict_to_code sample_transpiler example_flat 0 true).
Proof.
  apply (@single_line_flat sample_transpiler example_flat 0).
  unfold example_flat.
  repeat (apply Forall_cons; split; [split; cbn [fst snd]; by_compute|]).
  constructor.
Defined.

Lemma single_line_nested_witness :
  has_nested example_params /\
  newline ∈ @param_dict_to_code sample_transpiler example_params 0 true.
Proof.
  assert (H : has_nested example_params).
  { eexists _, _. apply list_elem_of_further, list_elem_of_here. }
  split; [exact H|].
  apply (@single_line_nested sample_transpiler example_params 0 H). lia.
Defined.

Lemma param_dict_to_code_balanced_witness :
  balanced (@param_dict_to_code sample_transpiler example_params 0 false).
Proof.
  apply (@param_dict_to_code_balanced sample_transpiler example_params 0 false).
  by_compute.
Defined.

Lemma param_dict_to_code_depth_witness :
  paren_scan (@param_dict_to_code sample_transpiler example_params 0 false) 0 =
    Some 0%nat /\
  paren_max (@param_dict_to_code sample_transpiler example_params 0 false) 0 = 2%nat.
Proof.
  apply (@param_dict_to_code_depth sample_transpiler example_params 0 false); [lia|].
  by_compute.
Defined.
