(* ===== verification/ParamParse.v ===== *)
(** * ParamParse: reading the serialised parameters back

    The text [param_dict_to_code] writes is meant to be pasted into
    generated code as keyword arguments.  This file shows that the text is
    unambiguous: [parse] reads it back, and on the text of a dictionary it
    returns that dictionary, in both layouts ([parse_param_dict_to_code]).
    Two dictionaries with the same text are therefore equal
    ([param_dict_to_code_inj]).

    The parser is not part of the sources: it is the specification of what
    the generated text means.  It skips spaces and line breaks, reads a key
    up to the [=], then either a nested [dict(...)] or a literal, which it
    leaves to the converter's own reader: the class [LiteralCodec] says what
    the serialiser needs of [column_header_to_transpiled_code], that a
    literal can be read back when it is followed by a delimiter, and does
    not start like a nested dictionary.  [parse_items] runs on fuel, one
    unit per item and per dictionary; [parse] gives it the length of the
    text, which is enough ([val_size_le]). *)

From stdpp Require Import pretty.
From S2P Require Import Prelude PyStr PyValue Parens ParamCode.

(** ** Lexical classes *)

Definition is_ws (c : ascii) : bool :=
  bool_decide (c = " "%char) || bool_decide (c = newline).

Definition is_key_char (c : ascii) : bool :=
  negb (is_ws c || bool_decide (c = "="%char) || bool_decide (c = ","%char) ||
        bool_decide (c = "("%char) || bool_decide (c = ")"%char)).

Fixpoint skip_ws (s : str) : str :=
  match s with
  | c :: s' => if is_ws c then skip_ws s' else s
  | [] => []
  end.

(** The longest prefix of characters that satisfy [p], and the rest. *)
Fixpoint span (p : ascii -> bool) (s : str) : str * str :=
  match s with
  | c :: s' => if p c then let '(a, b) := span p s' in (c :: a, b) else ([], s)
  | [] => ([], [])
  end.

Definition parse_key (s : str) : option (str * str) :=
  let '(key, rest) := span is_key_char s in
  match key with
  | [] => None
  | _ => Some (key, rest)
  end.

(** What may follow a literal: nothing, white space, a comma or a closing
    parenthesis. *)
Definition delimited (tail : str) : bool :=
  match tail with
  | [] => true
  | c :: _ => is_ws c || bool_decide (c = ","%char) || bool_decide (c = ")"%char)
  end.

(** What may follow the items of a dictionary: after white space, nothing or
    a closing parenthesis. *)
Definition closing (rest : str) : bool :=
  match skip_ws rest with
  | [] => true
  | c :: _ => bool_decide (c = ")"%char)
  end.

Definition ws_only (s : str) : Prop := Forall (fun c => is_ws c = true) s.

Definition valid_key (key : str) : Prop :=
  key <> [] /\ Forall (fun c => is_key_char c = true) key.

#[export] Instance ws_only_dec s : Decision (ws_only s).
Proof. unfold ws_only. apply _. Defined.

#[export] Instance valid_key_dec key : Decision (valid_key key).
Proof. unfold valid_key. apply _. Defined.

(** ** The converter's reader *)

Class LiteralCodec `{!Transpiler} := {
  parse_literal : str -> option (scalar * str);
  supported : scalar -> Prop;
  parse_literal_spec x tail :
    supported x -> delimited tail = true ->
    parse_literal (column_header_to_transpiled_code x ++ tail) = Some (x, tail);
  literal_head x tail :
    supported x ->
    skip_ws (column_header_to_transpiled_code x ++ tail) =
      column_header_to_transpiled_code x ++ tail /\
    startswith (column_header_to_transpiled_code x ++ tail) "dict(" = false
}.

Section Parse.
Context `{LiteralCodec}.

(** ** The parser *)

(** A value: a nested dictionary, read by [rec], or a literal. *)
Definition parse_value (rec : str -> option (list (str * pyval) * str))
    (s : str) : option (pyval * str) :=
  if startswith s "dict(" then
    '(items, s1) ← rec (drop 5 s);
    match s1 with
    | close :: s2 =>
        if bool_decide (close = ")"%char) then Some (Dict items, s2) else None
    | [] => None
    end
  else
    '(x, s1) ← parse_literal s; Some (Scalar x, s1).

(** An item: a key, [=], a value, with optional white space around [=]. *)
Definition parse_item (rec : str -> option (list (str * pyval) * str))
    (s : str) : option ((str * pyval) * str) :=
  '(key, s1) ← parse_key s;
  match skip_ws s1 with
  | eq :: s2 =>
      if bool_decide (eq = "="%char) then
        '(value, s3) ← parse_value rec (skip_ws s2); Some ((key, value), s3)
      else None
  | [] => None
  end.

(** The items up to the end of the text or to a closing parenthesis, which
    is left in the rest. *)
Fixpoint parse_items (fuel : nat) (s : str) : option (list (str * pyval) * str) :=
  match fuel with
  | O => None
  | S fuel' =>
      match skip_ws s with
      | [] => Some ([], [])
      | c :: s0 =>
          if bool_decide (c = ")"%char) then Some ([], c :: s0)
          else
            '(item, s1) ← parse_item (parse_items fuel') (c :: s0);
            match skip_ws s1 with
            | sep :: s2 =>
                if bool_decide (sep = ","%char) then
                  '(items, s3) ← parse_items fuel' s2;
                  Some (item :: items, s3)
                else Some ([item], sep :: s2)
            | [] => Some ([item], [])
            end
      end
  end.

(** The keyword arguments a text holds, when it holds nothing else. *)
Definition parse (s : str) : option (list (str * pyval)) :=
  match parse_items (S (length s)) s with
  | Some (items, []) => Some items
  | _ => None
  end.

(** ** Well-formed dictionaries *)

(** Every key is a valid key and every scalar is one the reader supports. *)
Fixpoint wf_value (value : pyval) : Prop :=
  match value with
  | Scalar x => supported x
  | Dict items => foldr (fun kv acc => valid_key kv.1 /\ wf_value kv.2 /\ acc) True items
  end.

#[export] Instance wf_value_dec `{!forall x, Decision (supported x)} value :
  Decision (wf_value value).
Proof.
  revert value. refine (fix go value : Decision (wf_value value) :=
    match value with
    | Scalar x => decide (supported x)
    | Dict items =>
        (fix go_items items : Decision (wf_value (Dict items)) :=
           match items with
           | [] => left I
           | kv :: items' => and_dec (decide (valid_key kv.1)) (and_dec (go kv.2) (go_items items'))
           end) items
    end).
Defined.

(** The fuel a value takes: one unit per dictionary and per item. *)
Fixpoint val_size (value : pyval) : nat :=
  match value with
  | Scalar _ => 0
  | Dict items => S (foldr (fun kv acc => S (val_size kv.2) + acc) 0 items)%nat
  end.

(** ** Lexical lemmas *)

Lemma skip_ws_app w s : ws_only w -> skip_ws (w ++ s) = skip_ws s.
Proof. induction 1 as [|c w Hc _ IH]; [done|]. simpl. by rewrite Hc. Qed.

Lemma skip_ws_cons c s : is_ws c = false -> skip_ws (c :: s) = c :: s.
Proof. intros Hc. simpl. by rewrite Hc. Qed.

Lemma skip_ws_idemp s : skip_ws (skip_ws s) = skip_ws s.
Proof.
  induction s as [|c s IH]; [done|]. simpl.
  destruct (is_ws c) eqn:E; [done|]. simpl. by rewrite E.
Qed.

Lemma skip_ws_close w tail :
  ws_only w -> skip_ws (w ++ ")" ++ tail) = ")"%char :: tail.
Proof. intros Hw. by rewrite skip_ws_app. Qed.

Lemma closing_skip_ws rest : closing (skip_ws rest) = closing rest.
Proof. unfold closing. by rewrite skip_ws_idemp. Qed.

Lemma closing_delimited rest : closing rest = true -> delimited rest = true.
Proof.
  unfold closing, delimited. destruct rest as [|c rest]; [done|]. simpl.
  destruct (is_ws c); [done|]. simpl. intros ->. apply orb_true_r.
Qed.

Lemma ws_only_app w w' : ws_only w -> ws_only w' -> ws_only (w ++ w').
Proof. apply Forall_app_2. Qed.

Lemma ws_only_repeat w n : ws_only w -> ws_only (repeat w n).
Proof. apply Forall_repeat. Qed.

Lemma ws_only_layout (as_single_line : bool) :
  ws_only (if as_single_line then [] else TAB) /\
  ws_only (if as_single_line then [] else NEWLINE).
Proof. destruct as_single_line; split; by repeat constructor. Qed.

Lemma is_key_char_not_ws c : is_key_char c = true -> is_ws c = false.
Proof. unfold is_key_char. by destruct (is_ws c). Qed.

Lemma span_key key tail :
  Forall (fun c => is_key_char c = true) key ->
  match tail with [] => True | c :: _ => is_key_char c = false end ->
  span is_key_char (key ++ tail) = (key, tail).
Proof.
  intros Hk Ht. induction Hk as [|c key Hc _ IH]; cbn [app span].
  - destruct tail as [|c tail]; [done|]. cbn [span]. by rewrite Ht.
  - by rewrite Hc, IH.
Qed.

Lemma parse_key_app key tail :
  valid_key key ->
  match tail with [] => True | c :: _ => is_key_char c = false end ->
  parse_key (key ++ tail) = Some (key, tail).
Proof.
  intros [Hne Hk] Ht. unfold parse_key. rewrite span_key by done.
  by destruct key.
Qed.

(** ** Reading one value and one item *)

Section Items.
Context (rec : str -> option (list (str * pyval) * str)).

Lemma parse_value_Scalar x tail :
  supported x -> delimited tail = true ->
  parse_value rec (column_header_to_transpiled_code x ++ tail) = Some (Scalar x, tail).
Proof.
  intros Hx Ht. unfold parse_value.
  destruct (literal_head x tail Hx) as [_ ->]. by rewrite parse_literal_spec.
Qed.

Lemma parse_value_Dict items text tail :
  rec text = Some (items, ")"%char :: tail) ->
  parse_value rec ("dict(" ++ text) = Some (Dict items, tail).
Proof.
  intros Hrec. unfold parse_value. rewrite startswith_app.
  change (drop 5 (lit "dict(" ++ text)) with text. by rewrite Hrec.
Qed.

Lemma parse_item_Scalar level key x tail :
  valid_key key -> supported x -> delimited tail = true ->
  parse_item rec (code_chunk level key (Scalar x) ++ tail) =
    Some ((key, Scalar x), tail).
Proof.
  intros Hk Hx Ht. rewrite code_chunk_Scalar, <- !app_assoc.
  unfold parse_item. rewrite parse_key_app by done. cbn [mbind option_bind].
  change (skip_ws (lit "=" ++ ?s)) with ("="%char :: s). cbv beta iota.
  destruct (literal_head x tail Hx) as [E _]. rewrite E.
  rewrite bool_decide_eq_true_2 by done. by rewrite parse_value_Scalar.
Qed.

Lemma parse_item_Dict level key items tail :
  valid_key key -> level + 1 <> 0 ->
  rec (NEWLINE ++ join (", " ++ NEWLINE) (entries TAB (level + 1) items) ++
       NEWLINE ++ repeat TAB (level + 1) ++ ")" ++ tail) =
    Some (items, ")"%char :: tail) ->
  parse_item rec (code_chunk level key (Dict items) ++ tail) =
    Some ((key, Dict items), tail).
Proof.
  intros Hk Hl Hrec. rewrite code_chunk_Dict, param_dict_to_code_spec.
  unfold code_spec. destruct (Z.eqb_spec (level + 1) 0); [done|].
  rewrite <- !app_assoc. unfold parse_item. rewrite parse_key_app by done.
  cbn [mbind option_bind].
  change (skip_ws (lit " = " ++ ?s)) with ("="%char :: " "%char :: s).
  cbv beta iota. rewrite bool_decide_eq_true_2 by done.
  change (skip_ws (" "%char :: lit "dict(" ++ ?s)) with (lit "dict(" ++ s).
  by rewrite (parse_value_Dict items _ tail).
Qed.

End Items.

Lemma parse_items_skip fuel w s :
  ws_only w -> parse_items fuel (w ++ s) = parse_items fuel s.
Proof. intros Hw. destruct fuel; [done|]. cbn [parse_items]. by rewrite skip_ws_app. Qed.

(** One step of [parse_items] on a text that starts with an item. *)
Lemma parse_items_step fuel key text item tail :
  valid_key key -> key `prefix_of` text ->
  parse_item (parse_items fuel) text = Some (item, tail) ->
  parse_items (S fuel) text =
    match skip_ws tail with
    | sep :: s2 =>
        if bool_decide (sep = ","%char) then
          '(items, s3) ← parse_items fuel s2; Some (item :: items, s3)
        else Some ([item], sep :: s2)
    | [] => Some ([item], [])
    end.
Proof.
  intros [Hne Hk] [rest ->] Hitem. destruct key as [|c key]; [done|].
  apply Forall_cons in Hk as [Hc _]. cbn [parse_items app].
  rewrite skip_ws_cons by by apply is_key_char_not_ws.
  rewrite bool_decide_eq_false_2 by (intros ->; done).
  cbn [app] in Hitem. by rewrite Hitem.
Qed.

(** ** Reading the items of a dictionary *)

Lemma wf_value_Dict items :
  wf_value (Dict items) <->
  Forall (fun kv => valid_key kv.1 /\ wf_value kv.2) items.
Proof.
  induction items as [|kv items IH]; simpl.
  - split; [constructor | done].
  - rewrite Forall_cons. simpl in IH. rewrite <- IH. tauto.
Qed.

Lemma val_size_cons key value items :
  val_size (Dict ((key, value) :: items)) =
    (S (val_size value) + val_size (Dict items))%nat.
Proof. simpl. lia. Qed.

Lemma val_size_pos items : (0 < val_size (Dict items))%nat.
Proof. simpl. lia. Qed.

Lemma code_chunk_prefix level key value :
  key `prefix_of` code_chunk level key value.
Proof. destruct value; by eexists. Qed.

(** The text of the items: the first one, then the separator and the others
    if there are any. *)
Definition after_item T N level (items : list (str * pyval)) : str :=
  match items with
  | [] => []
  | _ :: _ => ", " ++ N ++ join (", " ++ N) (entries T level items)
  end.

Lemma join_entries_cons T N level key value items :
  join (", " ++ N) (entries T level ((key, value) :: items)) =
    repeat T (level + 1) ++ code_chunk level key value ++
    after_item T N level items.
Proof.
  unfold after_item, entries. destruct items as [|kv items]; rewrite !fmap_cons.
  - by rewrite fmap_nil, join_singleton, app_nil_r.
  - by rewrite join_cons, <- !app_assoc.
Qed.

Lemma parse_items_closing fuel rest :
  closing rest = true -> parse_items (S fuel) rest = Some ([], skip_ws rest).
Proof.
  unfold closing. cbn [parse_items]. destruct (skip_ws rest) as [|c s]; [done|].
  by intros ->.
Qed.

(** What [parse_items] reads on the text of a dictionary's items. *)
Definition reads_back (value : pyval) : Prop :=
  match value with
  | Scalar _ => True
  | Dict items =>
      forall T N level rest fuel,
        ws_only T -> ws_only N -> 0 <= level -> closing rest = true ->
        (val_size (Dict items) <= fuel)%nat ->
        parse_items fuel (join (", " ++ N) (entries T level items) ++ rest) =
          Some (items, skip_ws rest)
  end.

(** After an item: the end of the items, or a comma and the other items. *)
Lemma parse_items_after T N level items rest fuel item :
  ws_only N -> closing rest = true ->
  (forall fuel', (val_size (Dict items) <= fuel')%nat ->
     parse_items fuel' (join (", " ++ N) (entries T level items) ++ rest) =
       Some (items, skip_ws rest)) ->
  (val_size (Dict items) <= fuel)%nat ->
  match skip_ws (after_item T N level items ++ rest) with
  | sep :: s2 =>
      if bool_decide (sep = ","%char) then
        '(items', s3) ← parse_items fuel s2; Some (item :: items', s3)
      else Some ([item], sep :: s2)
  | [] => Some ([item], [])
  end = Some (item :: items, skip_ws rest).
Proof.
  intros HN Hrest IH Hf. destruct items as [|kv items]; cbn [after_item app].
  - unfold closing in Hrest. destruct (skip_ws rest) as [|c s]; [done|].
    rewrite bool_decide_eq_false_2; [done|]. intros ->.
    by apply bool_decide_eq_true in Hrest.
  - rewrite <- !app_assoc.
    change (skip_ws (lit ", " ++ ?s)) with (","%char :: " "%char :: s). cbv beta iota.
    rewrite bool_decide_eq_true_2 by done.
    change (" "%char :: N ++ ?x) with ((" "%char :: N) ++ x).
    rewrite (parse_items_skip fuel (" "%char :: N)) by (by constructor).
    by rewrite IH.
Qed.

Lemma reads_back_all value : wf_value value -> reads_back value.
Proof.
  induction value as [x|items IH] using pyval_ind'; [done|].
  intros Hwf%wf_value_Dict. cbn [reads_back]. intros T N level rest fuel HT HN Hl Hrest.
  revert fuel. induction items as [|[key value] items IHitems]; intros fuel Hf.
  - destruct fuel; [simpl in Hf; lia|]. by apply parse_items_closing.
  - apply Forall_cons in IH as [IHv IH]. apply Forall_cons in Hwf as [[Hk Hv] Hwf].
    cbn [fst snd] in *. rewrite val_size_cons in Hf.
    destruct fuel as [|fuel]; [lia|].
    rewrite join_entries_cons, <- !app_assoc.
    rewrite parse_items_skip by by apply ws_only_repeat.
    set (tail := after_item T N level items ++ rest).
    assert (delimited tail = true) as Htail.
    { subst tail. destruct items; [by apply closing_delimited | done]. }
    rewrite (parse_items_step fuel key _ (key, value) tail);
      [| done | by apply prefix_app_r, code_chunk_prefix |].
    + apply (parse_items_after T N level items rest fuel); [done..| |lia].
      intros fuel' Hf'. by apply IHitems.
    + destruct value as [x|items'];
        [apply parse_item_Scalar; [done | exact Hv | done]|].
      apply parse_item_Dict; [done | lia |].
      rewrite parse_items_skip by (by repeat constructor).
      specialize (IHv Hv TAB NEWLINE (level + 1)
                    (NEWLINE ++ repeat TAB (level + 1) ++ ")" ++ tail) fuel).
      assert (skip_ws (NEWLINE ++ repeat TAB (level + 1) ++ ")" ++ tail) =
              ")"%char :: tail) as Hclose.
      { rewrite app_assoc. apply skip_ws_close, ws_only_app; [by repeat constructor|].
        apply ws_only_repeat. by repeat constructor. }
      rewrite IHv, Hclose; [done | by repeat constructor.. | lia | | lia].
      unfold closing. by rewrite Hclose.
Qed.

(** ** Enough fuel *)

Lemma length_join_cons sep x l :
  (length x + length (join sep l) <= length (join sep (x :: l)))%nat.
Proof.
  destruct l as [|y l]; [simpl; lia|]. rewrite join_cons, !length_app. lia.
Qed.

Lemma length_code_spec items level (as_single_line : bool) :
  (2 * (if as_single_line then 0 else 1) +
   length (join (", " ++ (if as_single_line then [] else NEWLINE))
             (entries (if as_single_line then [] else TAB) level items))
   <= length (code_spec items level as_single_line))%nat.
Proof.
  unfold code_spec. destruct (level =? 0), as_single_line;
    rewrite !length_app; simpl length; lia.
Qed.

(** The text of a dictionary has at least one character per unit of fuel
    its reading takes. *)
Lemma val_size_le value :
  wf_value value ->
  match value with
  | Scalar _ => True
  | Dict items =>
      forall sep T level,
        (val_size (Dict items) <= S (length (join sep (entries T level items))))%nat
  end.
Proof.
  induction value as [x|items IH] using pyval_ind'; [done|].
  intros Hwf%wf_value_Dict sep T level.
  induction items as [|[key value] items IHitems]; [simpl; lia|].
  apply Forall_cons in IH as [IHv IH]. apply Forall_cons in Hwf as [[[Hne _] Hv] Hwf].
  cbn [fst snd] in *. rewrite val_size_cons. specialize (IHitems IH Hwf).
  unfold entries in *. rewrite fmap_cons. cbn [fst snd].
  etrans; [|apply le_n_S, length_join_cons]. rewrite length_app.
  enough (S (val_size value) <= length (code_chunk level key value))%nat by lia.
  assert (0 < length key)%nat by (destruct key; [done | simpl; lia]).
  destruct value as [x|items'].
  - rewrite code_chunk_Scalar, !length_app. simpl. lia.
  - rewrite code_chunk_Dict, param_dict_to_code_spec, !length_app.
    pose proof (length_code_spec items' (level + 1) false) as Hc.
    specialize (IHv Hv (", " ++ NEWLINE) TAB (level + 1)). unfold entries in *.
    simpl length in *. lia.
Qed.

Lemma skip_ws_ws_only w : ws_only w -> skip_ws w = [].
Proof. intros Hw. by rewrite <- (app_nil_r w), skip_ws_app. Qed.

(** ** Round trip *)

(** [parse_items] on the text of a dictionary at the top level. *)
Lemma parse_items_param_dict_to_code param_dict as_single_line fuel :
  wf_value (Dict param_dict) ->
  (val_size (Dict param_dict) <= fuel)%nat ->
  parse_items fuel (param_dict_to_code param_dict 0 as_single_line) =
    Some (param_dict, []).
Proof.
  intros Hwf Hf. rewrite param_dict_to_code_spec, code_spec_top.
  destruct (ws_only_layout as_single_line) as [HT HN].
  rewrite parse_items_skip by done.
  rewrite (reads_back_all (Dict param_dict) Hwf); [|done..| |done].
  - by rewrite skip_ws_ws_only.
  - unfold closing. by rewrite skip_ws_ws_only.
Qed.

(** Below the top level the text is a [dict(...)] call, which [parse_value]
    reads back, whatever follows the closing parenthesis. *)
Theorem parse_value_param_dict_to_code param_dict level as_single_line fuel tail :
  wf_value (Dict param_dict) -> 0 < level ->
  (val_size (Dict param_dict) <= fuel)%nat ->
  parse_value (parse_items fuel)
    (param_dict_to_code param_dict level as_single_line ++ tail) =
  Some (Dict param_dict, tail).
Proof.
  intros Hwf Hl Hf. rewrite param_dict_to_code_spec. unfold code_spec.
  destruct (Z.eqb_spec level 0); [lia|].
  destruct (ws_only_layout as_single_line) as [HT HN].
  rewrite <- !app_assoc. apply parse_value_Dict.
  rewrite parse_items_skip by done.
  rewrite (reads_back_all (Dict param_dict) Hwf); [|done | done | lia | | done].
  - by rewrite skip_ws_app, skip_ws_app by (done || by apply ws_only_repeat).
  - unfold closing. by rewrite skip_ws_app, skip_ws_app by (done || by apply ws_only_repeat).
Qed.

(** [parse] reads the text of a dictionary back, in either layout. *)
Lemma parse_text param_dict as_single_line :
  wf_value (Dict param_dict) ->
  parse (param_dict_to_code param_dict 0 as_single_line) = Some param_dict.
Proof.
  intros Hwf. unfold parse. rewrite parse_items_param_dict_to_code; [done..|].
  rewrite param_dict_to_code_spec.
  pose proof (length_code_spec param_dict 0 as_single_line).
  pose proof (val_size_le (Dict param_dict) Hwf
                (", " ++ (if as_single_line then [] else NEWLINE))
                (if as_single_line then [] else TAB) 0).
  lia.
Qed.

(** C19. Round trip: the text [param_dict_to_code] writes for a dictionary
    whose keys are valid keys and whose scalars the converter can read back
    is read back by [parse] as that dictionary, nested dictionaries
    included, from the multi-line and from the single-line layout. *)
Theorem parse_param_dict_to_code param_dict :
  wf_value (Dict param_dict) ->
  parse (param_dict_to_code param_dict 0 false) = Some param_dict /\
  parse (param_dict_to_code param_dict 0 true) = Some param_dict.
Proof. intros Hwf. by rewrite !parse_text. Qed.

(** The generated text is unambiguous: two well-formed dictionaries with
    the same text, in whatever layouts, are the same dictionary: distinct
    dictionaries never get the same text. *)
Theorem param_dict_to_code_inj d1 d2 s1 s2 :
  wf_value (Dict d1) -> wf_value (Dict d2) -> d1 <> d2 ->
  param_dict_to_code d1 0 s1 <> param_dict_to_code d2 0 s2.
Proof.
  intros H1 H2 Hne E. apply Hne, (inj Some).
  by rewrite <- (parse_text d1 s1), <- (parse_text d2 s2), E.
Qed.

End Parse.

(** ** The reader of the sample converter *)

Definition digit_val (c : ascii) : option N :=
  let n := N_of_ascii c in
  if (48 <=? n)%N && (n <=? 57)%N then Some (n - 48)%N else None.

(** The number written by the leading digits of [s], after [acc]. *)
Fixpoint read_digits (s : str) (acc : N) : N * str :=
  match s with
  | c :: s' =>
      match digit_val c with
      | Some d => read_digits s' (acc * 10 + d)%N
      | None => (acc, s)
      end
  | [] => (acc, [])
  end.

(** The text of a string literal up to its closing quote, unescaped. *)
Fixpoint unescape (s : str) : option (str * str) :=
  match s with
  | [] => None
  | c :: s' =>
      if bool_decide (c = "'"%char) then Some ([], s')
      else if bool_decide (c = "\"%char) then
        match s' with
        | c' :: s'' => '(t, rest) ← unescape s''; Some (c' :: t, rest)
        | [] => None
        end
      else '(t, rest) ← unescape s'; Some (c :: t, rest)
  end.

Definition sample_parse_literal (s : str) : option (scalar * str) :=
  match s with
  | [] => None
  | c :: s' =>
      if bool_decide (c = "'"%char) then
        '(t, rest) ← unescape s'; Some (SStr t, rest)
      else if bool_decide (c = "-"%char) then
        let '(n, rest) := read_digits s' 0 in Some (SInt (- Z.of_N n), rest)
      else if digit_val c is Some _ then
        let '(n, rest) := read_digits s 0 in Some (SInt (Z.of_N n), rest)
      else if startswith s "None" then Some (SNone, drop 4 s)
      else if startswith s "True" then Some (SBool true, drop 4 s)
      else if startswith s "False" then Some (SBool false, drop 5 s)
      else None
  end.

Lemma unescape_backslash c s :
  unescape ("\"%char :: c :: s) = '(t, rest) ← unescape s; Some (c :: t, rest).
Proof. reflexivity. Qed.

Lemma unescape_plain c s :
  c <> "'"%char -> c <> "\"%char ->
  unescape (c :: s) = '(t, rest) ← unescape s; Some (c :: t, rest).
Proof. intros Hq Hb. cbn [unescape]. by rewrite !bool_decide_eq_false_2. Qed.

Lemma unescape_escape s tail :
  unescape (escape s ++ "'" ++ tail) = Some (s, tail).
Proof.
  induction s as [|c s IH]; [done|]. cbn [escape]. rewrite <- app_assoc.
  destruct (decide (c = "'"%char)) as [->|Hq];
    [|destruct (decide (c = "\"%char)) as [->|Hb]].
  - change (unescape ("\"%char :: "'"%char :: escape s ++ "'" ++ tail) =
            Some ("'"%char :: s, tail)).
    by rewrite unescape_backslash, IH.
  - change (unescape ("\"%char :: "\"%char :: escape s ++ "'" ++ tail) =
            Some ("\"%char :: s, tail)).
    by rewrite unescape_backslash, IH.
  - rewrite !bool_decide_eq_false_2 by done. cbn [orb app].
    by rewrite unescape_plain, IH.
Qed.

Lemma digit_val_pretty_N_char x :
  (x < 10)%N -> digit_val (pretty_N_char x) = Some x.
Proof.
  intros Hx.
  assert (x = 0 \/ x = 1 \/ x = 2 \/ x = 3 \/ x = 4 \/ x = 5 \/ x = 6 \/ x = 7 \/
          x = 8 \/ x = 9)%N as Hc by lia.
  by repeat destruct Hc as [->|Hc]; [..|subst].
Qed.

(** Reading the digits [pretty_N_go] writes. *)
Lemma read_digits_pretty_N_go x t tail :
  read_digits (lit (pretty_N_go x t) ++ tail) 0 = read_digits (lit t ++ tail) x.
Proof.
  revert t. induction (N.lt_wf_0 x) as [x _ IH]; intros t.
  destruct (decide (x = 0)%N) as [->|Hx]; [by rewrite pretty_N_go_0|].
  rewrite pretty_N_go_step by lia. rewrite IH by (apply N.div_lt; lia).
  cbn [lit String.list_ascii_of_string app read_digits].
  rewrite digit_val_pretty_N_char by (apply N.mod_lt; lia).
  f_equal. pose proof (N.div_mod x 10 ltac:(lia)). lia.
Qed.

(** What [pretty_N_go] writes for a positive number starts with a digit. *)
Lemma pretty_N_go_head x t :
  (0 < x)%N ->
  exists c s, lit (pretty_N_go x t) = c :: s /\ is_Some (digit_val c).
Proof.
  revert t. induction (N.lt_wf_0 x) as [x _ IH]; intros t Hx.
  rewrite pretty_N_go_step by done.
  destruct (decide (x `div` 10 = 0)%N) as [E|E].
  - rewrite E, pretty_N_go_0. eexists _, _. split; [done|].
    rewrite digit_val_pretty_N_char; [done | apply N.mod_lt; lia].
  - apply IH; [apply N.div_lt; lia | by apply N.neq_0_lt_0].
Qed.

Lemma digit_not_special c :
  is_Some (digit_val c) ->
  c <> "'"%char /\ c <> "-"%char /\ c <> "d"%char /\ is_ws c = false.
Proof. destruct c as [[] [] [] [] [] [] [] []]; by intros [? [=]] || done. Qed.

Lemma read_digits_delimited tail acc :
  delimited tail = true -> read_digits tail acc = (acc, tail).
Proof.
  destruct tail as [|c tail]; [done|]. cbn [delimited read_digits].
  destruct (digit_val c) eqn:E; [|done].
  destruct (digit_not_special c) as (_ & _ & _ & Hws); [by rewrite E|].
  rewrite Hws. cbn [orb]. rewrite orb_true_iff, !bool_decide_eq_true.
  by intros [-> | ->].
Qed.

(** The literal of an integer: an optional sign, and the digits of its
    absolute value, the first of which is a digit. *)
Lemma str_of_int_digits n :
  exists c s,
    is_Some (digit_val c) /\
    str_of_int n = (if n <? 0 then ["-"%char] else []) ++ c :: s /\
    forall tail, read_digits (c :: s ++ tail) 0 = read_digits tail (Z.to_N (Z.abs n)).
Proof.
  unfold str_of_int, pretty, pretty_Z. destruct n as [|p|p].
  - exists "0"%char, []. by split_and!.
  - unfold pretty, pretty_positive, pretty, pretty_N.
    rewrite decide_False by done.
    destruct (pretty_N_go_head (N.pos p) "" ltac:(done)) as (c & s & E & Hc).
    exists c, s. split_and!; [done | by rewrite E |]. intros tail.
    change (c :: s ++ tail) with ((c :: s) ++ tail).
    by rewrite <- E, read_digits_pretty_N_go.
  - unfold pretty, pretty_positive, pretty, pretty_N.
    rewrite decide_False by done.
    destruct (pretty_N_go_head (N.pos p) "" ltac:(done)) as (c & s & E & Hc).
    exists c, s. split_and!; [done | |].
    + change (lit ("-" +:+ pretty_N_go (N.pos p) ""))
        with ("-"%char :: lit (pretty_N_go (N.pos p) "")).
      by rewrite E.
    + intros tail. change (c :: s ++ tail) with ((c :: s) ++ tail).
      by rewrite <- E, read_digits_pretty_N_go.
Qed.

Lemma sample_parse_literal_spec x tail :
  delimited tail = true ->
  sample_parse_literal (sample_transpiler x ++ tail) = Some (x, tail).
Proof.
  intros Ht. destruct x as [|[]|n|s]; try done.
  - destruct (str_of_int_digits n) as (c & t & Hc & E & Hread).
    destruct (digit_not_special c Hc) as (Hq & Hm & _ & _).
    unfold sample_transpiler, py_str. rewrite E.
    destruct (Z.ltb_spec n 0); cbn [app sample_parse_literal].
    + rewrite Hread, read_digits_delimited by done. do 3 f_equal. lia.
    + rewrite !bool_decide_eq_false_2 by done. destruct Hc as [d ->].
      rewrite Hread, read_digits_delimited by done. do 3 f_equal. lia.
  - unfold sample_transpiler. rewrite <- !app_assoc.
    change (sample_parse_literal (lit "'" ++ ?t)) with
      ('(t', rest) ← unescape t; Some (SStr t', rest)).
    by rewrite unescape_escape.
Qed.

Lemma sample_literal_head x tail :
  skip_ws (sample_transpiler x ++ tail) = sample_transpiler x ++ tail /\
  startswith (sample_transpiler x ++ tail) "dict(" = false.
Proof.
  destruct x as [|[]|n|s]; try done.
  destruct (str_of_int_digits n) as (c & t & Hc & E & _).
  destruct (digit_not_special c Hc) as (_ & _ & Hd & Hws).
  unfold sample_transpiler, py_str. rewrite E.
  destruct (n <? 0); cbn [app]; [done|]. split.
  - by apply skip_ws_cons.
  - cbn [startswith lit String.list_ascii_of_string]. by rewrite bool_decide_eq_false_2.
Qed.

#[export] Instance sample_codec : @LiteralCodec sample_transpiler := {|
  parse_literal := sample_parse_literal;
  supported := fun _ => True;
  parse_literal_spec x tail _ := sample_parse_literal_spec x tail;
  literal_head x tail _ := sample_literal_head x tail
|}.

(** ** Examples *)

#[local] Existing Instance sample_transpiler.

#[local] Instance sample_supported_dec x : Decision (@supported sample_transpiler _ x).
Proof. by left. Defined.

Lemma example_params_wf : wf_value (Dict example_params).
Proof. by_compute. Qed.

Lemma parse_param_dict_to_code_witness :
  parse (param_dict_to_code example_params 0 false) = Some example_params /\
  parse (param_dict_to_code example_params 0 true) = Some example_params.
Proof. apply (parse_param_dict_to_code example_params), example_params_wf. Defined.

Lemma example_flat_wf : wf_value (Dict example_flat).
Proof. by_compute. Qed.

Lemma param_dict_to_code_inj_witness :
  param_dict_to_code example_flat 0 true <> param_dict_to_code example_params 0 false.
Proof.
  apply (param_dict_to_code_inj example_flat example_params true false);
    [apply example_flat_wf | apply example_params_wf | discriminate].
Defined.

(** The parser on texts written by hand: white space is free, a trailing
    comma is accepted, a missing value or an unclosed dictionary is not. *)
Lemma parse_examples :
  parse "x=1,y = 'a b'" = Some [(lit "x", Scalar (SInt 1)); (lit "y", Scalar (SStr "a b"))] /\
  parse "size = dict( w=-3, deep = dict() ), flag=True" =
    Some [(lit "size", Dict [(lit "w", Scalar (SInt (-3))); (lit "deep", Dict [])]);
          (lit "flag", Scalar (SBool true))] /\
  parse "x=" = None /\
  parse "x = dict(y=1" = None /\
  parse "" = Some [].
Proof. split_and!; by vm_compute. Qed.

Lemma parse_value_param_dict_to_code_witness :
  parse_value (parse_items 10) (param_dict_to_code example_flat 2 false ++ lit ", x=1") =
  Some (Dict example_flat, lit ", x=1").
Proof.
  apply (parse_value_param_dict_to_code example_flat 2 false 10 ", x=1");
    [apply example_flat_wf | lia | vm_compute; lia].
Defined.
