(* ===== verification/HtmlScript.v ===== *)
(** * HtmlScript: the container and the scripts of a rendered figure

    Models [get_html_and_script_from_figure] of [graph_utils.py] (lines
    147-196).  The function has the rendering engine write the figure as an
    HTML fragment, then cuts two strings out of it: the opening tag of the
    chart container (the slice from the first [<div id=] to the next
    [</div>]), and the bodies of all inline scripts, each followed by [;] and
    a line break.

    The rendering engine is outside the sources: [Renderer] is the class of
    figure types with a [write_html].  Everything after
    [original_html = buffer.getvalue()] is string code and is modelled in
    full: [get_div] is the slice of line 178, [script_loop] the [while] loop
    of lines 182-194 with its variables [script] and [index], on fuel.  Each
    iteration moves [index] forward by at least the length of the closing
    tag, so the loop runs at most once per 9 characters and
    [S (length original_html)] units of fuel are enough ([script_loop_fuel]).

    The abstract view of a document is a list of [segment]s (the text before
    a script element and the body of the script) and the text after the last
    script; [render] writes it out and [scripts_of] is what the extractor
    should return.  [script_loop_document] is the refinement lemma: on the
    rendering of a well-formed document the loop returns [scripts_of]. *)

From S2P Require Import Prelude PyStr.

(** ** Markers *)

Definition DIV_OPEN : str := "<div id=".
Definition DIV_CLOSE : str := "</div>".

(** [<script type="text/javascript">]. *)
Definition SCRIPT_OPEN : str :=
  "<script type=" ++ [dquote] ++ "text/javascript" ++ [dquote] ++ ">".
Definition SCRIPT_CLOSE : str := "</script>".

(** [';\n']. *)
Definition STATEMENT_END : str := [";"%char; newline].

(** ** The model *)

(** The container: [original_html[find('<div id='):find('</div>', find('<div id='))]]. *)
Definition get_div (original_html : str) : str :=
  slice original_html
    (find original_html DIV_OPEN 0)
    (find original_html DIV_CLOSE (find original_html DIV_OPEN 0)).

(** The [while index < len(original_html)] loop. *)
Fixpoint script_loop (fuel : nat) (original_html script : str) (index : Z)
    : option str :=
  match fuel with
  | O => None
  | S fuel' =>
      if index <? len original_html then
        let script_start := find original_html SCRIPT_OPEN index in
        let script_end := find original_html SCRIPT_CLOSE script_start in
        if (script_start =? -1) || (script_end =? -1) then Some script
        else
          let script_start := script_start + len SCRIPT_OPEN in
          let script :=
            script ++ slice original_html script_start script_end ++
            STATEMENT_END in
          let index := script_end + 9 in
          script_loop fuel' original_html script index
      else Some script
  end.

(** One iteration of the same loop on the pair of its variables: the test
    and the body give the next [(script, index)], the [break] and the failed
    test give the [script] the loop is left with. *)
Definition script_body (original_html : str) (s : str * Z) : str * Z + str :=
  let '(script, index) := s in
  if index <? len original_html then
    let script_start := find original_html SCRIPT_OPEN index in
    let script_end := find original_html SCRIPT_CLOSE script_start in
    if (script_start =? -1) || (script_end =? -1) then inr script
    else
      let script_start := script_start + len SCRIPT_OPEN in
      let script :=
        script ++ slice original_html script_start script_end ++
        STATEMENT_END in
      let index := script_end + 9 in
      inl (script, index)
  else inr script.

(** The dictionary the function returns: [{"html": div, "script": script}]. *)
Record html_and_script : Type := HtmlAndScript {
  html : str;
  script : str
}.

(** Lines 172-196: from the text the engine wrote to the result. *)
Definition html_and_script_of (original_html : str) : option html_and_script :=
  let div := get_div original_html in
  script ← script_loop (S (length original_html)) original_html [] 0;
  Some {| html := div; script := script |}.

(** The rendering engine: [fig.write_html(buffer, full_html=False,
    include_plotlyjs=..., default_height=..., default_width=...)] followed by
    [buffer.getvalue()]. *)
Class Renderer (Figure : Type) :=
  write_html : Figure -> bool -> Z -> Z -> str.

Definition get_html_and_script_from_figure `{Renderer Figure}
    (fig : Figure) (height width : Z) (include_plotlyjs : bool)
    : option html_and_script :=
  let original_html := write_html fig include_plotlyjs height width in
  html_and_script_of original_html.

(** ** Documents *)

(** A script element and the text that precedes it. *)
Record segment : Type := Segment {
  before : str;
  body : str
}.

Definition render_segment (sg : segment) : str :=
  before sg ++ SCRIPT_OPEN ++ body sg ++ SCRIPT_CLOSE.

(** The text of a document: its script elements, each after its text, then
    the text after the last one. *)
Definition render (segs : list segment) (rest : str) : str :=
  mjoin (render_segment <$> segs) ++ rest.

(** The scripts of a document, as the extractor returns them. *)
Definition scripts_of (segs : list segment) : str :=
  mjoin ((fun sg => body sg ++ STATEMENT_END) <$> segs).

(** A segment is well formed when the text has no opening tag and the body
    no closing tag, not even one completed by the tag that follows. *)
Definition wf_segment (sg : segment) : Prop :=
  marks (before sg) SCRIPT_OPEN /\ marks (body sg) SCRIPT_CLOSE.

#[export] Instance wf_segment_dec sg : Decision (wf_segment sg).
Proof. unfold wf_segment. apply _. Defined.

(** ** Facts about the markers *)

Lemma len_SCRIPT_OPEN : len SCRIPT_OPEN = 31.
Proof. reflexivity. Qed.

Lemma len_SCRIPT_CLOSE : len SCRIPT_CLOSE = 9.
Proof. reflexivity. Qed.

Lemma len_DIV_OPEN : len DIV_OPEN = 8.
Proof. reflexivity. Qed.

Lemma len_DIV_CLOSE : len DIV_CLOSE = 6.
Proof. reflexivity. Qed.

Lemma len_STATEMENT_END : len STATEMENT_END = 2.
Proof. reflexivity. Qed.

#[export] Hint Rewrite len_SCRIPT_OPEN len_SCRIPT_CLOSE len_DIV_OPEN len_DIV_CLOSE
  len_STATEMENT_END : py.

(** A closing tag cannot start inside an opening tag. *)
Lemma SCRIPT_OPEN_clear : clear_of SCRIPT_OPEN SCRIPT_CLOSE = true.
Proof. by vm_compute. Qed.

Lemma DIV_OPEN_clear : clear_of DIV_OPEN DIV_CLOSE = true.
Proof. by vm_compute. Qed.

(** ** The loop, one iteration at a time *)

Lemma script_loop_unfold fuel original_html script index :
  script_loop (S fuel) original_html script index =
  match script_body original_html (script, index) with
  | inl (script, index) => script_loop fuel original_html script index
  | inr script => Some script
  end.
Proof.
  cbn [script_loop script_body]. cbv zeta.
  destruct (index <? len original_html); [|done]. by destruct (_ || _).
Qed.

(** ** The loop terminates *)

(** One iteration moves [index] forward. *)
Lemma script_end_bounds original_html index :
  0 <= index ->
  let script_start := find original_html SCRIPT_OPEN index in
  let script_end := find original_html SCRIPT_CLOSE script_start in
  script_start <> -1 -> script_end <> -1 ->
  index <= script_start <= script_end /\ script_end + 9 <= len original_html.
Proof.
  intros Hi script_start script_end Hs He.
  destruct (find_range original_html SCRIPT_OPEN index) as [?|Hr]; [done|].
  rewrite find_start_nonneg in Hr by done. fold script_start in Hr.
  destruct (find_range original_html SCRIPT_CLOSE script_start) as [?|Hr']; [done|].
  rewrite find_start_nonneg in Hr' by lia. fold script_end in Hr'.
  rewrite len_SCRIPT_CLOSE in Hr'. lia.
Qed.

Lemma script_loop_fuel fuel original_html script index :
  0 <= index <= len original_html ->
  len original_html - index < Z.of_nat fuel ->
  is_Some (script_loop fuel original_html script index).
Proof.
  revert script index. induction fuel as [|fuel IH]; intros script index Hi Hf; [lia|].
  simpl. destruct (Z.ltb_spec index (len original_html)); [|done].
  set (script_start := find original_html SCRIPT_OPEN index).
  set (script_end := find original_html SCRIPT_CLOSE script_start).
  destruct (Z.eqb_spec script_start (-1)); [done|].
  destruct (Z.eqb_spec script_end (-1)); [done|]. simpl.
  destruct (script_end_bounds original_html index) as [? ?]; [lia | done..|].
  apply IH; subst script_start script_end; lia.
Qed.

(** ** The scripts of a document *)

Lemma render_nil rest : render [] rest = rest.
Proof. reflexivity. Qed.

Lemma render_cons sg segs rest :
  render (sg :: segs) rest =
  before sg ++ SCRIPT_OPEN ++ body sg ++ SCRIPT_CLOSE ++ render segs rest.
Proof. unfold render, render_segment. by str_norm. Qed.

Lemma len_render_segment sg :
  len (render_segment sg) = len (before sg) + 31 + len (body sg) + 9.
Proof. unfold render_segment. len_lia. Qed.

#[export] Hint Rewrite len_render_segment : py.

Lemma scripts_of_cons sg segs :
  scripts_of (sg :: segs) = body sg ++ STATEMENT_END ++ scripts_of segs.
Proof. unfold scripts_of. by str_norm. Qed.

(** Where one iteration finds the next script element. *)
Lemma script_markers pre sg rest :
  wf_segment sg ->
  let doc := pre ++ before sg ++ SCRIPT_OPEN ++ body sg ++ SCRIPT_CLOSE ++ rest in
  let script_start := len pre + len (before sg) in
  find doc SCRIPT_OPEN (len pre) = script_start /\
  find doc SCRIPT_CLOSE script_start = script_start + 31 + len (body sg) /\
  slice doc (script_start + 31) (script_start + 31 + len (body sg)) = body sg.
Proof.
  intros [Hb Hs]. cbv zeta. split_and!.
  - by apply find_app_marks.
  - rewrite <- len_app, <- len_SCRIPT_OPEN, (app_assoc pre).
    by apply find_app_clear_marks; [apply SCRIPT_OPEN_clear|].
  - pose proof (slice_app_mid (pre ++ before sg ++ SCRIPT_OPEN) (body sg)
                  (SCRIPT_CLOSE ++ rest)) as E.
    by rewrite !len_app, len_SCRIPT_OPEN, <- !app_assoc, !Z.add_assoc in E.
Qed.

(** One iteration on a document that starts, after [pre], with a script
    element: its body is appended and the search resumes after the element. *)
Lemma script_body_segment pre sg tail script :
  wf_segment sg ->
  script_body (pre ++ render_segment sg ++ tail) (script, len pre) =
  inl (script ++ body sg ++ STATEMENT_END, len (pre ++ render_segment sg)).
Proof.
  intros Hwf. rewrite (len_app pre (render_segment sg)), len_render_segment.
  unfold render_segment. rewrite <- !app_assoc.
  destruct (script_markers pre sg tail Hwf) as (Ho & Hc & Hs).
  cbn [script_body]. cbv zeta. rewrite Ho, Hc, len_SCRIPT_OPEN, Hs.
  case_cmp; try len_lia. cbn [orb]. do 2 f_equal. lia.
Qed.

Lemma script_loop_segment fuel pre sg tail script :
  wf_segment sg ->
  script_loop (S fuel) (pre ++ render_segment sg ++ tail) script (len pre) =
  script_loop fuel (pre ++ render_segment sg ++ tail)
    (script ++ body sg ++ STATEMENT_END) (len (pre ++ render_segment sg)).
Proof. intros Hwf. by rewrite script_loop_unfold, script_body_segment. Qed.

(** What follows the last script element: text in which the search for an
    opening tag and then a closing tag fails. *)
Definition no_script (rest : str) : Prop :=
  find rest SCRIPT_OPEN 0 = -1 \/
  find rest SCRIPT_CLOSE (find rest SCRIPT_OPEN 0) = -1.

#[export] Instance no_script_dec rest : Decision (no_script rest).
Proof. unfold no_script. apply _. Defined.

(** On the text after the last script element the loop is left. *)
Lemma script_body_rest pre rest script :
  no_script rest -> script_body (pre ++ rest) (script, len pre) = inr script.
Proof.
  intros Hno. cbn [script_body]. cbv zeta.
  destruct (Z.ltb_spec (len pre) (len (pre ++ rest))); [|done].
  rewrite <- (Z.add_0_r (len pre)) at 1 2. rewrite find_app_skip by done.
  destruct (Z.eqb_spec (find rest SCRIPT_OPEN 0) (-1)) as [|Ho]; [done|].
  destruct Hno as [|Hc]; [done|].
  rewrite find_app_skip, Hc.
  - by rewrite orb_true_r.
  - destruct (find_range rest SCRIPT_OPEN 0) as [|[? _]]; [done|].
    by rewrite find_start_nonneg in *.
Qed.

Lemma script_loop_rest fuel pre rest script :
  no_script rest -> script_loop (S fuel) (pre ++ rest) script (len pre) = Some script.
Proof. intros Hno. by rewrite script_loop_unfold, script_body_rest. Qed.

Definition wf_document (segs : list segment) (rest : str) : Prop :=
  Forall wf_segment segs /\ no_script rest.

#[export] Instance wf_document_dec segs rest : Decision (wf_document segs rest).
Proof. unfold wf_document. apply _. Defined.

Lemma script_loop_from fuel pre segs rest script :
  wf_document segs rest -> (length segs < fuel)%nat ->
  script_loop fuel (pre ++ render segs rest) script (len pre) =
  Some (script ++ scripts_of segs).
Proof.
  intros [Hwf Hno]. revert fuel pre script.
  induction Hwf as [|sg segs Hsg _ IH]; intros [|fuel] pre script Hf; simpl in Hf; try lia.
  - rewrite render_nil, script_loop_rest by done. by rewrite app_nil_r.
  - rewrite scripts_of_cons, render_cons.
    pose proof (script_loop_segment fuel pre sg (render segs rest) script Hsg) as E.
    unfold render_segment in E at 1 2. rewrite <- !app_assoc in E. rewrite E.
    pose proof (IH fuel (pre ++ render_segment sg) (script ++ body sg ++ STATEMENT_END)) as E'.
    unfold render_segment in E' at 1. rewrite <- !app_assoc in E'.
    by rewrite E' by lia.
Qed.

Lemma length_render segs rest :
  (40 * length segs + length rest <= length (render segs rest))%nat.
Proof.
  unfold render. rewrite length_app.
  enough (40 * length segs <= length (mjoin (render_segment <$> segs)))%nat by lia.
  induction segs as [|sg segs IH]; [done|].
  pose proof (len_render_segment sg) as E. unfold len in E.
  change (mjoin (render_segment <$> sg :: segs))
    with (render_segment sg ++ mjoin (render_segment <$> segs)).
  rewrite length_app. cbn [length]. lia.
Qed.

(** ** The container *)

(** The container of a document whose first [<div id=] is closed by a
    [</div>]: the opening tag and the text up to the closing tag, which is
    left out. *)
Lemma get_div_found pre attrs post :
  marks pre DIV_OPEN -> marks attrs DIV_CLOSE ->
  get_div (pre ++ DIV_OPEN ++ attrs ++ DIV_CLOSE ++ post) = DIV_OPEN ++ attrs.
Proof.
  intros Hp Ha. unfold get_div.
  rewrite (find_marks pre) by (done || len_lia).
  rewrite (find_app_clear_marks pre) by (done || apply DIV_OPEN_clear).
  rewrite <- Z.add_assoc, <- len_app, (app_assoc DIV_OPEN). apply slice_app_mid.
Qed.

(** Without the marker [<div id=] both searches return [-1] and the
    slice [original_html[-1:-1]] is empty: the ["html"] entry is the empty
    string and nothing is raised. *)
Theorem get_div_absent original_html :
  find original_html DIV_OPEN 0 = -1 -> get_div original_html = [].
Proof.
  intros E. unfold get_div. rewrite E.
  rewrite (find_short original_html DIV_CLOSE (-1)); [apply slice_same|].
  unfold find_start. case_cmp; len_lia.
Qed.

(** With the marker but no [</div>] after it the end index is [-1]: the
    ["html"] entry runs from the marker to the last character but one of
    the document. *)
Theorem get_div_unclosed pre tail :
  marks pre DIV_OPEN ->
  find (DIV_OPEN ++ tail) DIV_CLOSE 0 = -1 ->
  get_div (pre ++ DIV_OPEN ++ tail) = take (7 + length tail) (DIV_OPEN ++ tail).
Proof.
  intros Hp Hc. unfold get_div.
  rewrite (find_marks pre) by (done || len_lia).
  rewrite <- (Z.add_0_r (len pre)) at 2. rewrite find_app_skip, Hc by done.
  cbn [Z.eqb]. rewrite slice_to_neg1 by len_lia.
  rewrite len_to_nat, drop_app_length. f_equal.
  autorewrite with py. unfold len. lia.
Qed.

(** ** The whole function *)

Lemma script_loop_document segs rest script :
  wf_document segs rest ->
  script_loop (S (length (render segs rest))) (render segs rest) script 0 =
  Some (script ++ scripts_of segs).
Proof.
  intros Hwf. apply (script_loop_from _ [] segs rest script Hwf).
  pose proof (length_render segs rest). lia.
Qed.

Lemma html_and_script_of_render segs rest :
  wf_document segs rest ->
  html_and_script_of (render segs rest) =
  Some {| html := get_div (render segs rest); script := scripts_of segs |}.
Proof.
  intros Hwf. unfold html_and_script_of. by rewrite script_loop_document.
Qed.

Section Extractor.
Context `{Renderer Figure}.
Implicit Types (fig : Figure) (height width : Z) (include_plotlyjs : bool).

(** [get_html_and_script_from_figure] always returns: the fuel given to
    the script loop, one more than the length of the document, is never
    used up, whatever the rendering engine wrote. *)
Theorem get_html_and_script_from_figure_total fig height width include_plotlyjs :
  is_Some (get_html_and_script_from_figure fig height width include_plotlyjs).
Proof.
  unfold get_html_and_script_from_figure, html_and_script_of.
  set (original_html := write_html _ _ _ _).
  destruct (script_loop_fuel (S (length original_html)) original_html [] 0)
    as [s ->]; [unfold len; lia..|done].
Qed.

(** C2. Refinement: when the engine writes a well-formed document (script
    elements whose bodies hold no closing tag, separated by text without
    opening tag), the ["script"] entry of the result is the bodies of the
    script elements in document order, each followed by [;] and a line
    break, and the ["html"] entry is the container slice of the document. *)
Theorem get_html_and_script_from_figure_scripts
    fig height width include_plotlyjs segs rest :
  write_html fig include_plotlyjs height width = render segs rest ->
  wf_document segs rest ->
  get_html_and_script_from_figure fig height width include_plotlyjs =
  Some {| html := get_div (render segs rest); script := scripts_of segs |}.
Proof.
  intros E Hwf. unfold get_html_and_script_from_figure.
  rewrite E. by apply html_and_script_of_render.
Qed.

End Extractor.

(** The container slice stops where the closing tag starts: on a document
    whose first [<div id=] is followed by a [</div>], the ["html"] entry is
    the opening tag and the text up to, and without, the closing tag. *)
Theorem get_div_excludes_close pre attrs post :
  marks pre DIV_OPEN -> marks attrs DIV_CLOSE ->
  get_div (pre ++ DIV_OPEN ++ attrs ++ DIV_CLOSE ++ post) = DIV_OPEN ++ attrs /\
  find (get_div (pre ++ DIV_OPEN ++ attrs ++ DIV_CLOSE ++ post)) DIV_CLOSE 0 = -1.
Proof.
  intros Hp Ha. rewrite get_div_found by done. split; [done|].
  apply marks_absent; [done|]. by apply marks_clear_app; [apply DIV_OPEN_clear|].
Qed.

(** C21. The container slice on every text.  There are three cases and no
    other: without the marker [<div id=] the ["html"] entry is empty and
    nothing is raised; with the marker and no [</div>] after it, the entry
    runs from the marker to the last character but one of the text; with
    both, it is the marker and the text up to the closing tag, which is
    left out, so the entry holds no [</div>]. *)
Theorem get_div_cases original_html :
  (find original_html DIV_OPEN 0 = -1 /\ get_div original_html = []) \/
  (exists pre tail,
     original_html = pre ++ DIV_OPEN ++ tail /\ marks pre DIV_OPEN /\
     find tail DIV_CLOSE 0 = -1 /\
     get_div original_html = take (7 + length tail) (DIV_OPEN ++ tail)) \/
  (exists pre attrs post,
     original_html = pre ++ DIV_OPEN ++ attrs ++ DIV_CLOSE ++ post /\
     marks pre DIV_OPEN /\ marks attrs DIV_CLOSE /\
     get_div original_html = DIV_OPEN ++ attrs /\
     find (get_div original_html) DIV_CLOSE 0 = -1).
Proof.
  destruct (Z.eq_dec (find original_html DIV_OPEN 0) (-1)) as [E|E].
  { left. split; [done | by apply get_div_absent]. }
  right. destruct (find_split original_html DIV_OPEN E) as (pre & tail & -> & _ & Hpre).
  destruct (Z.eq_dec (find tail DIV_CLOSE 0) (-1)) as [Ec|Ec].
  - left. exists pre, tail. split_and!; [done..|].
    apply get_div_unclosed; [done|]. by rewrite find_clear, Ec by apply DIV_OPEN_clear.
  - right. destruct (find_split tail DIV_CLOSE Ec) as (attrs & post & -> & _ & Hattrs).
    exists pre, attrs, post. split_and!; [done..| |]; by apply get_div_excludes_close.
Qed.

(** ** The document the docstring describes *)

(** "A div with two children: a div that contains the id for the graph
    itself, a script that actually builds the graph", with one more script
    element per included library: the wrapper, the container with its
    attributes [attrs], the script elements with the bodies [bodies]. *)
Definition plotly_html (attrs : str) (bodies : list str) : str :=
  "<div>" ++ DIV_OPEN ++ attrs ++ DIV_CLOSE ++
  mjoin ((fun b => SCRIPT_OPEN ++ b ++ SCRIPT_CLOSE) <$> bodies) ++ "</div>".

Lemma plotly_html_render attrs b bs :
  plotly_html attrs (b :: bs) =
  render (Segment ("<div>" ++ DIV_OPEN ++ attrs ++ DIV_CLOSE) b :: (Segment [] <$> bs))
         "</div>".
Proof.
  unfold plotly_html, render. rewrite !fmap_cons, <- !list_fmap_compose.
  unfold render_segment at 1. cbn [before body mjoin list_join].
  rewrite (list_fmap_ext (render_segment ∘ Segment [])
             (fun b => SCRIPT_OPEN ++ b ++ SCRIPT_CLOSE) bs) by done.
  by rewrite <- !app_assoc.
Qed.

Lemma scripts_of_plotly pre b bs :
  scripts_of (Segment pre b :: (Segment [] <$> bs)) =
  mjoin ((fun b => b ++ STATEMENT_END) <$> b :: bs).
Proof.
  unfold scripts_of. by rewrite !fmap_cons, <- !list_fmap_compose.
Qed.

(** C18. On the document the docstring describes, a wrapper holding the
    container and then the script elements, the result is the opening tag of
    the container with its attributes, without the closing tag, and the
    bodies of the scripts, each followed by [;] and a line break, provided
    the attributes hold no [</div>], the bodies no [</script>], and the
    container no opening script tag. *)
Theorem html_and_script_of_plotly attrs b bs :
  marks attrs DIV_CLOSE ->
  marks ("<div>" ++ DIV_OPEN ++ attrs ++ DIV_CLOSE) SCRIPT_OPEN ->
  Forall (fun b => marks b SCRIPT_CLOSE) (b :: bs) ->
  html_and_script_of (plotly_html attrs (b :: bs)) =
  Some {| html := DIV_OPEN ++ attrs;
          script := mjoin ((fun b => b ++ STATEMENT_END) <$> b :: bs) |}.
Proof.
  intros Ha Hpre [Hb Hbs]%Forall_cons.
  assert (get_div (plotly_html attrs (b :: bs)) = DIV_OPEN ++ attrs) as Hdiv
    by (apply (get_div_found "<div>"); [by_compute | done]).
  rewrite <- Hdiv, <- (scripts_of_plotly ("<div>" ++ DIV_OPEN ++ attrs ++ DIV_CLOSE)),
    plotly_html_render.
  apply html_and_script_of_render. split; [|by_compute].
  constructor; [done|]. apply Forall_fmap. eapply Forall_impl; [exact Hbs|].
  intros b' Hm. split; [by_compute | done].
Qed.

(** The text after the last closed script element may open one more: an
    element that is never closed leaves the loop. *)
Lemma no_script_unclosed t tail :
  marks t SCRIPT_OPEN ->
  find (SCRIPT_OPEN ++ tail) SCRIPT_CLOSE 0 = -1 ->
  no_script (t ++ SCRIPT_OPEN ++ tail).
Proof.
  intros Ht Hc. right.
  rewrite (find_marks t) by (done || len_lia).
  rewrite <- (Z.add_0_r (len t)). by rewrite find_app_skip, Hc.
Qed.

(** C36. A script element that is opened and never closed is dropped with
    everything after it, without an error: the result holds the scripts of
    the elements closed before it and nothing else. *)
Theorem unclosed_script_dropped segs t tail :
  Forall wf_segment segs ->
  marks t SCRIPT_OPEN ->
  find (SCRIPT_OPEN ++ tail) SCRIPT_CLOSE 0 = -1 ->
  script <$> html_and_script_of (render segs (t ++ SCRIPT_OPEN ++ tail)) =
  Some (scripts_of segs).
Proof.
  intros Hsegs Ht Hc. rewrite html_and_script_of_render; [done|].
  split; [done | by apply no_script_unclosed].
Qed.

(** ** Examples *)

(** The engine of the examples: the figure is the text itself. *)
Definition text_renderer : Renderer str := fun fig _ _ _ => fig.

Definition sample_segments : list segment :=
  [ Segment "<div><div id=chart class=plotly-graph-div></div>" "a=1";
    Segment " " "b=2" ].

Definition sample_document : str := render sample_segments "</div>".

(** On a document with one container and two scripts with bodies [a=1]
    and [b=2] the result is [a=1;\nb=2;\n] and the opening tag of the
    container, whatever [include_plotlyjs] is; a script element that is
    never closed is dropped, and so is everything after it. *)
Theorem get_html_and_script_from_figure_examples :
  (forall include_plotlyjs,
     get_html_and_script_from_figure (H := text_renderer)
       sample_document 425 0 include_plotlyjs =
     Some {| html := "<div id=chart class=plotly-graph-div>";
             script := "a=1" ++ STATEMENT_END ++ "b=2" ++ STATEMENT_END |}) /\
  html_and_script_of (SCRIPT_OPEN ++ "a=1") = Some {| html := []; script := [] |} /\
  html_and_script_of (SCRIPT_OPEN ++ "a=1" ++ SCRIPT_CLOSE ++ SCRIPT_OPEN ++ "b=2") =
    Some {| html := []; script := "a=1" ++ STATEMENT_END |} /\
  html_and_script_of [] = Some {| html := []; script := [] |}.
Proof. split_and!; [intros []|..]; by vm_compute. Qed.

Lemma get_html_and_script_from_figure_scripts_witness :
  get_html_and_script_from_figure (H := text_renderer) sample_document 425 0 true =
  Some {| html := get_div (render sample_segments "</div>");
          script := scripts_of sample_segments |}.
Proof.
  apply (get_html_and_script_from_figure_scripts (H := text_renderer)
           sample_document 425 0 true sample_segments "</div>");
    [reflexivity | by_compute].
Defined.

Lemma get_div_excludes_close_witness :
  get_div ("<p>" ++ DIV_OPEN ++ "chart>" ++ DIV_CLOSE ++ "</p>") = DIV_OPEN ++ "chart>" /\
  find (get_div ("<p>" ++ DIV_OPEN ++ "chart>" ++ DIV_CLOSE ++ "</p>")) DIV_CLOSE 0 = -1.
Proof. apply (get_div_excludes_close "<p>" "chart>" "</p>"); by_compute. Defined.

Lemma get_div_absent_witness : get_div "<p>no chart</p>" = [].
Proof. apply (get_div_absent "<p>no chart</p>"). by_compute. Defined.

Lemma get_div_unclosed_witness :
  get_div ("<p>" ++ DIV_OPEN ++ "chart>") = take (7 + length (lit "chart>")) (DIV_OPEN ++ "chart>").
Proof. apply (get_div_unclosed "<p>" "chart>"); by_compute. Defined.

Lemma unclosed_script_dropped_witness :
  script <$> html_and_script_of
    (render [Segment "<p>" "a=1"] (lit " " ++ SCRIPT_OPEN ++ lit "b=2")) =
  Some (scripts_of [Segment "<p>" "a=1"]).
Proof.
  apply (unclosed_script_dropped [Segment "<p>" "a=1"] " " "b=2"); by_compute.
Defined.

(** One container and two scripts with the bodies [a=1] and [b=2]. *)
Lemma html_and_script_of_plotly_witness :
  html_and_script_of (plotly_html "chart class=plotly-graph-div>" [lit "a=1"; lit "b=2"]) =
  Some {| html := "<div id=chart class=plotly-graph-div>";
          script := "a=1" ++ STATEMENT_END ++ "b=2" ++ STATEMENT_END |}.
Proof.
  apply (html_and_script_of_plotly "chart class=plotly-graph-div>" "a=1" [lit "b=2"]);
    [by_compute | by_compute | repeat constructor; by_compute].
Defined.
