(* ===== verification/HtmlDocument.v ===== *)
(** * HtmlDocument: every text is a document

    [HtmlScript] proves the script loop of [get_html_and_script_from_figure]
    against documents given as a list of [segment]s.  This file shows that
    the abstract view loses nothing: [document_of] cuts any text into the
    segments and the rest that the loop sees, the text is the rendering of
    its document, which is well formed ([document_of_spec]), and the
    document of a rendering is the document rendered
    ([document_of_render]).  The refinement theorem of [HtmlScript]
    therefore describes the function on every text
    ([get_html_and_script_from_figure_document]).

    [first_script] is the first script element the loop finds in a text;
    [decompose] repeats it on what follows, on fuel: a script element takes
    at least 40 characters, so the length of the text is enough fuel. *)

From S2P Require Import Prelude PyStr HtmlScript.

(** ** Cutting a text into its document *)

(** The first script element of a text and what follows it, when the loop
    finds both tags. *)
Definition first_script (doc : str) : option (segment * str) :=
  let script_start := find doc SCRIPT_OPEN 0 in
  let script_end := find doc SCRIPT_CLOSE script_start in
  if (script_start =? -1) || (script_end =? -1) then None
  else Some (Segment (slice doc 0 script_start)
                     (slice doc (script_start + len SCRIPT_OPEN) script_end),
             drop (Z.to_nat (script_end + 9)) doc).

Fixpoint decompose (fuel : nat) (doc : str) : list segment * str :=
  match fuel with
  | O => ([], doc)
  | S fuel' =>
      match first_script doc with
      | None => ([], doc)
      | Some (sg, tail) =>
          let '(segs, rest) := decompose fuel' tail in (sg :: segs, rest)
      end
  end.

Definition document_of (doc : str) : list segment * str :=
  decompose (length doc) doc.

(** ** The first script element *)

Lemma first_script_None doc : first_script doc = None <-> no_script doc.
Proof.
  unfold first_script, no_script. cbv zeta.
  destruct (Z.eqb_spec (find doc SCRIPT_OPEN 0) (-1)),
           (Z.eqb_spec (find doc SCRIPT_CLOSE (find doc SCRIPT_OPEN 0)) (-1));
    simpl; split; try done; auto. by intros [|].
Qed.

Lemma drop_past_segment t b tail :
  drop (Z.to_nat (len t + 31 + len b + 9))
       (t ++ SCRIPT_OPEN ++ b ++ SCRIPT_CLOSE ++ tail) = tail.
Proof.
  replace (Z.to_nat (len t + 31 + len b + 9))
    with (length (t ++ SCRIPT_OPEN ++ b ++ SCRIPT_CLOSE))
    by (rewrite !length_app; unfold len; simpl; lia).
  by rewrite !app_assoc, drop_app_length.
Qed.

(** A text in which the loop finds a script element is that element, well
    formed, and the tail the loop goes on with. *)
Lemma first_script_Some doc sg tail :
  first_script doc = Some (sg, tail) ->
  doc = render_segment sg ++ tail /\ wf_segment sg.
Proof.
  unfold first_script. cbv zeta.
  destruct (Z.eqb_spec (find doc SCRIPT_OPEN 0) (-1)) as [|Ho]; [done|].
  destruct (find_split doc SCRIPT_OPEN Ho) as (t & post & -> & Es & Ht).
  rewrite Es. len_facts.
  pose proof (find_app_skip t (SCRIPT_OPEN ++ post) SCRIPT_CLOSE 0 ltac:(done)) as Ec.
  rewrite Z.add_0_r in Ec. rewrite Ec. clear Ec.
  rewrite find_clear by apply SCRIPT_OPEN_clear.
  destruct (Z.eqb_spec (find post SCRIPT_CLOSE 0) (-1)) as [|Hc]; [done|].
  destruct (find_split post SCRIPT_CLOSE Hc) as (b & tail' & -> & Ee & Hb).
  rewrite Ee, len_SCRIPT_OPEN. len_facts.
  destruct (Z.eqb_spec (31 + len b) (-1)); [lia|].
  destruct (Z.eqb_spec (len t + (31 + len b)) (-1)); [lia|]. cbn [orb].
  rewrite !Z.add_assoc, drop_past_segment, slice_app_start.
  pose proof (slice_app_mid (t ++ SCRIPT_OPEN) b (SCRIPT_CLOSE ++ tail')) as E.
  rewrite len_app, len_SCRIPT_OPEN, <- !app_assoc in E. rewrite E.
  intros [= <- <-]. unfold render_segment, wf_segment. cbn [before body].
  by rewrite <- !app_assoc.
Qed.

(** The first script element of a rendering is its first segment. *)
Lemma first_script_render sg tail :
  wf_segment sg -> first_script (render_segment sg ++ tail) = Some (sg, tail).
Proof.
  intros Hwf. destruct (script_markers [] sg tail Hwf) as (Ho & Hc & Hs).
  destruct sg as [t b]. cbn [app before body] in Ho, Hc, Hs.
  change (len []) with 0 in Ho, Hc, Hs. rewrite !Z.add_0_l in Ho, Hc, Hs.
  unfold first_script, render_segment. cbn [before body]. rewrite <- !app_assoc. cbv zeta.
  rewrite Ho, Hc, len_SCRIPT_OPEN, Hs, drop_past_segment, slice_app_start.
  len_facts.
  destruct (Z.eqb_spec (len t) (-1)); [lia|].
  by destruct (Z.eqb_spec (len t + 31 + len b) (-1)); [lia|].
Qed.

(** ** The document of a text *)

Lemma render_app_segment sg segs rest :
  render (sg :: segs) rest = render_segment sg ++ render segs rest.
Proof. unfold render. rewrite fmap_cons. apply (eq_sym (app_assoc _ _ _)). Qed.

Lemma length_render_segment sg : (40 <= length (render_segment sg))%nat.
Proof. pose proof (len_render_segment sg). unfold len in *. lia. Qed.

Lemma no_script_nil : no_script [].
Proof. by left. Qed.

(** With fuel for every character, [decompose] returns a well-formed
    document whose rendering is the text. *)
Lemma decompose_spec fuel doc :
  (length doc <= fuel)%nat ->
  doc = render (decompose fuel doc).1 (decompose fuel doc).2 /\
  wf_document (decompose fuel doc).1 (decompose fuel doc).2.
Proof.
  revert doc. induction fuel as [|fuel IH]; intros doc Hf.
  - destruct doc; [|simpl in Hf; lia]. split; [done|]. split; [done | apply no_script_nil].
  - cbn [decompose]. destruct (first_script doc) as [[sg tail]|] eqn:E.
    + apply first_script_Some in E as [-> Hsg].
      pose proof (length_render_segment sg). rewrite length_app in Hf.
      destruct (IH tail ltac:(lia)) as [Ht [Hsegs Hrest]].
      destruct (decompose fuel tail) as [segs rest]. cbn [fst snd] in *.
      split; [by rewrite render_app_segment, <- Ht|]. split; [by constructor | done].
    + split; [done|]. split; [done | by apply first_script_None].
Qed.

(** [decompose] gives back the document a text was rendered from. *)
Lemma decompose_render fuel segs rest :
  wf_document segs rest -> (length segs <= fuel)%nat ->
  decompose fuel (render segs rest) = (segs, rest).
Proof.
  intros [Hsegs Hrest]. revert fuel.
  induction Hsegs as [|sg segs Hsg _ IH]; intros fuel Hf.
  - rewrite render_nil. destruct fuel; [done|]. cbn [decompose].
    by rewrite (proj2 (first_script_None rest) Hrest).
  - destruct fuel as [|fuel]; [simpl in Hf; lia|].
    rewrite render_app_segment. cbn [decompose].
    rewrite first_script_render by done. rewrite IH; [done | simpl in Hf; lia].
Qed.

Lemma document_of_spec doc :
  doc = render (document_of doc).1 (document_of doc).2 /\
  wf_document (document_of doc).1 (document_of doc).2.
Proof. by apply decompose_spec. Qed.

Lemma document_of_render segs rest :
  wf_document segs rest -> document_of (render segs rest) = (segs, rest).
Proof.
  intros Hwf. apply decompose_render; [done|].
  pose proof (length_render segs rest). lia.
Qed.

(** The scripts of a document are no longer than its rendering. *)
Lemma length_scripts_of segs rest :
  (length (scripts_of segs) <= length (render segs rest))%nat.
Proof.
  unfold render. rewrite length_app.
  enough (length (scripts_of segs) <= length (mjoin (render_segment <$> segs)))%nat by lia.
  induction segs as [|sg segs IH]; [done|].
  rewrite scripts_of_cons.
  change (mjoin (render_segment <$> sg :: segs))
    with (render_segment sg ++ mjoin (render_segment <$> segs)).
  pose proof (length_render_segment sg) as Hsg. unfold render_segment in *.
  rewrite !length_app in *. simpl length in *. lia.
Qed.

(** ** The extractor on every text *)

(** C17. On every text the engine can write, [get_html_and_script_from_figure]
    returns the container slice and the bodies of the script elements of the
    document the text decomposes into, in order, each followed by [;] and a
    line break: a text is always the rendering of exactly one well-formed
    document, so the refinement holds without any assumption on the
    engine. *)
Theorem get_html_and_script_from_figure_document `{Renderer Figure}
    (fig : Figure) (height width : Z) (include_plotlyjs : bool) :
  let original_html := write_html fig include_plotlyjs height width in
  get_html_and_script_from_figure fig height width include_plotlyjs =
    Some {| html := get_div original_html;
            script := scripts_of (document_of original_html).1 |} /\
  original_html =
    render (document_of original_html).1 (document_of original_html).2 /\
  wf_document (document_of original_html).1 (document_of original_html).2.
Proof.
  cbv zeta. set (original_html := write_html _ _ _ _).
  destruct (document_of_spec original_html) as [Hr Hwf]. split; [|done].
  unfold get_html_and_script_from_figure. fold original_html.
  rewrite Hr at 1 2. by apply html_and_script_of_render.
Qed.

(** The script the extractor returns is never longer than the text it
    was cut from: every script element gives up its two tags, 40
    characters, for the 2 characters of the statement end. *)
Theorem script_length_bound original_html r :
  html_and_script_of original_html = Some r ->
  script r = scripts_of (document_of original_html).1 /\
  (length (script r) <= length original_html)%nat.
Proof.
  destruct (document_of_spec original_html) as [Hr Hwf].
  rewrite Hr at 1. rewrite html_and_script_of_render by done. intros [= <-].
  cbn [script]. split; [done|]. rewrite Hr at 2. apply length_scripts_of.
Qed.

Lemma script_length_bound_witness :
  lit "a=1" ++ STATEMENT_END ++ lit "b=2" ++ STATEMENT_END =
    scripts_of (document_of sample_document).1 /\
  (length (lit "a=1" ++ STATEMENT_END ++ lit "b=2" ++ STATEMENT_END)
   <= length sample_document)%nat.
Proof.
  apply (script_length_bound sample_document
           {| html := "<div id=chart class=plotly-graph-div>";
              script := "a=1" ++ STATEMENT_END ++ "b=2" ++ STATEMENT_END |}).
  by vm_compute.
Defined.
