(* ===== verification/ScriptLoop.v ===== *)
(** * ScriptLoop: the script loop of [get_html_and_script_from_figure] as a
    transition system

    The [while index < len(original_html)] loop of [graph_utils.py] (lines
    182-194) on the pair of its variables [(script, index)]: [script_body]
    of [HtmlScript] is one iteration, [script_init] the values before the
    loop, and [script_loop] the run on fuel ([script_loop_iterate]).

    The abstract state of the loop is a number: how many script elements of
    the document have been consumed.  [script_state_at segs k] is the pair
    the loop holds after [k] of the segments [segs].  Theorems: the states
    the loop reaches on a text are exactly the [script_state_at] of the
    document of the text, one per script element, so the loop neither skips
    nor repeats an element and iterates once per element; every reachable
    state keeps [index] inside the text and [script] no longer than
    [index]; the loop is strongly normalising from every pair; the run of
    the function eventually leaves the loop with its result.

    Since the loop ends from every pair, the function can be written
    without fuel: [script_loop_wf] is the loop as a total function and
    [get_html_and_script_from_figure_wf] returns the dictionary itself.
    The function on fuel returns its value
    ([get_html_and_script_from_figure_wf_eq]). *)

From stdpp Require Import relations.
From S2P Require Import Prelude Loop PyStr HtmlScript HtmlDocument.

(** ** The loop *)

(** Lines 182-183: [script = ''] and [index = 0]. *)
Definition script_init : str * Z :=
  let script : str := [] in
  let index := 0 in
  (script, index).

(** The variables after [k] script elements of a document. *)
Definition script_state_at (segs : list segment) (k : nat) : str * Z :=
  (scripts_of (take k segs), len (render (take k segs) [])).

Section ScriptLoop.
Context (original_html : str).
Implicit Types (s : str * Z) (script : str) (index : Z).

(** The invariant of the loop. *)
Definition script_inv s : Prop :=
  0 <= s.2 <= len original_html /\ len s.1 <= s.2.

Definition script_measure s : nat := Z.to_nat (len original_html - s.2).

(** ** The loop and its run on fuel *)

Lemma script_loop_iterate fuel script index :
  script_loop fuel original_html script index =
  iterate (script_body original_html) fuel (script, index).
Proof.
  revert script index. induction fuel as [|fuel IH]; intros script index; [done|].
  rewrite script_loop_unfold. cbn [iterate].
  by destruct (script_body _ _) as [[]|].
Qed.

(** A step, read off the code. *)
Lemma script_step_inv s s' :
  step (script_body original_html) s s' ->
  let script_start := find original_html SCRIPT_OPEN s.2 in
  let script_end := find original_html SCRIPT_CLOSE script_start in
  s.2 < len original_html /\ script_start <> -1 /\ script_end <> -1 /\
  s' = (s.1 ++ slice original_html (script_start + 31) script_end ++ STATEMENT_END,
        script_end + 9).
Proof.
  destruct s as [script index]. rewrite step_iff. cbn [script_body fst snd]. cbv zeta.
  rewrite len_SCRIPT_OPEN.
  destruct (Z.ltb_spec index (len original_html)); [|done].
  destruct (Z.eqb_spec (find original_html SCRIPT_OPEN index) (-1)); [done|].
  destruct (Z.eqb_spec (find original_html SCRIPT_CLOSE
                          (find original_html SCRIPT_OPEN index)) (-1)); [done|].
  by intros [= <-].
Qed.

Lemma script_exits_inv s script : exits (script_body original_html) s script -> script = s.1.
Proof.
  destruct s as [script' index]. unfold exits. cbn [script_body fst]. cbv zeta.
  destruct (_ <? _); [destruct (_ || _)|]; by intros [= <-].
Qed.

(** ** The invariant and the measure *)

(** Wherever it starts, a step lands inside the text. *)
Lemma script_step_lands s s' :
  step (script_body original_html) s s' -> 9 <= s'.2 <= len original_html.
Proof.
  intros (_ & _ & He & ->)%script_step_inv. cbn [snd].
  destruct (find_range original_html SCRIPT_CLOSE
              (find original_html SCRIPT_OPEN s.2)) as [?|[Hlo Hhi]]; [done|].
  pose proof (find_start_range (len original_html)
                (find original_html SCRIPT_OPEN s.2) (len_nonneg _)).
  rewrite len_SCRIPT_CLOSE in Hhi. lia.
Qed.

(** From a non-negative [index] a step moves [index] forward, by at least
    what it adds to [script]. *)
Lemma script_step_forward s s' :
  0 <= s.2 -> step (script_body original_html) s s' ->
  s.2 < s'.2 /\ len s'.1 - len s.1 <= s'.2 - s.2.
Proof.
  intros Hi (Hlt & Ho & He & ->)%script_step_inv. cbn [fst snd].
  destruct (script_end_bounds original_html s.2 Hi Ho He) as [[? ?] ?].
  autorewrite with py. rewrite length_slice.
  unfold clamp_index. case_cmp; lia.
Qed.

Lemma script_step_decreases s s' :
  script_inv s -> step (script_body original_html) s s' ->
  script_inv s' /\ (script_measure s' < script_measure s)%nat.
Proof.
  intros [[Hi ?] Hs] Hstep.
  pose proof (script_step_lands _ _ Hstep). pose proof (script_step_forward _ _ Hi Hstep).
  unfold script_inv, script_measure. split; [split|]; lia.
Qed.

Lemma script_init_inv : script_inv script_init.
Proof.
  unfold script_inv, script_init. cbn [fst snd]. len_lia.
Qed.

(** The run of the function, from the measure alone: it leaves the loop
    within [len original_html] iterations, with the result of
    [script_loop]. *)
Lemma script_run :
  exists k s,
    (k <= length original_html)%nat /\
    nsteps (step (script_body original_html)) k script_init s /\
    script_inv s /\ exits (script_body original_html) s s.1 /\
    script_loop (S (length original_html)) original_html [] 0 = Some s.1.
Proof.
  destruct (measure_iterate (script_body original_html) script_inv script_measure
              script_step_decreases script_init script_init_inv)
    as (k & s & script & Hk & Hsteps & Hinv & Hex & Hit).
  assert (script_measure script_init = length original_html) as Hm
    by (unfold script_measure, script_init, len; cbn; lia).
  rewrite Hm in *. pose proof (script_exits_inv _ _ Hex) as ->.
  exists k, s. split_and!; [done..|]. by rewrite script_loop_iterate.
Qed.

(** ** The run on a document *)

Lemma script_nsteps_render pre segs rest script :
  Forall wf_segment segs ->
  nsteps (step (script_body (pre ++ render segs rest))) (length segs)
    (script, len pre) (script ++ scripts_of segs, len (pre ++ render segs [])).
Proof.
  intros Hwf. revert pre script.
  induction Hwf as [|sg segs Hsg _ IH]; intros pre script.
  - rewrite render_nil, !app_nil_r. constructor.
  - rewrite !render_app_segment, scripts_of_cons.
    eapply nsteps_l; [apply step_iff, script_body_segment, Hsg|].
    specialize (IH (pre ++ render_segment sg) (script ++ body sg ++ STATEMENT_END)).
    by rewrite <- !app_assoc in IH.
Qed.

End ScriptLoop.

Lemma render_take_drop segs rest k :
  render segs rest = render (take k segs) (render (drop k segs) rest).
Proof.
  unfold render. rewrite <- (take_drop k segs) at 1.
  by rewrite fmap_app, join_app, <- app_assoc.
Qed.

Lemma render_app_rest segs rest : render segs rest = render segs [] ++ rest.
Proof. unfold render. by rewrite app_nil_r. Qed.

Section Document.
Context (segs : list segment) (rest : str).
Hypothesis wf : wf_document segs rest.

(** The loop is at [script_state_at segs k] after [k] iterations. *)
Lemma script_nsteps_at k :
  (k <= length segs)%nat ->
  nsteps (step (script_body (render segs rest))) k script_init (script_state_at segs k).
Proof.
  intros Hk. destruct wf as [Hsegs _].
  pose proof (script_nsteps_render [] (take k segs) (render (drop k segs) rest) []
                (Forall_take _ k _ Hsegs)) as Hn.
  by rewrite <- render_take_drop, length_take_le in Hn by done.
Qed.

(** After the last script element the loop is left. *)
Lemma script_exits_at :
  exits (script_body (render segs rest)) (script_state_at segs (length segs))
    (scripts_of segs).
Proof.
  unfold exits, script_state_at. rewrite firstn_all, (render_app_rest segs rest).
  apply script_body_rest, wf.
Qed.

Lemma script_reachable_at s :
  rtc (step (script_body (render segs rest))) script_init s <->
  exists k, (k <= length segs)%nat /\ s = script_state_at segs k.
Proof.
  split.
  - intros [k Hk]%rtc_nsteps. exists k.
    assert (k <= length segs)%nat as Hle
      by (eapply nsteps_exits_le; [apply script_nsteps_at | apply script_exits_at | done]; done).
    split; [done|]. eapply nsteps_det; [exact Hk | by apply script_nsteps_at].
  - intros (k & Hk & ->). eapply rtc_nsteps_2. by apply script_nsteps_at.
Qed.

End Document.

(** ** Theorems *)

(** C16. The states the loop reaches on a text are those of its document:
    after [k] iterations [script] is the scripts of the first [k] script
    elements and [index] the position after the [k]-th closing tag; no
    element is skipped or read twice. *)
Theorem script_reachable_states original_html s :
  rtc (step (script_body original_html)) script_init s <->
  exists k, (k <= length (document_of original_html).1)%nat /\
    s = script_state_at (document_of original_html).1 k.
Proof.
  destruct (document_of_spec original_html) as [Hr Hwf].
  rewrite Hr at 1. by apply script_reachable_at.
Qed.

(** The loop iterates once per script element of the document and is
    left with their scripts; a text of [n] characters has at most [n / 40]
    script elements. *)
Theorem script_loop_iterations original_html :
  let segs := (document_of original_html).1 in
  nsteps (step (script_body original_html)) (length segs) script_init
    (script_state_at segs (length segs)) /\
  exits (script_body original_html) (script_state_at segs (length segs))
    (scripts_of segs) /\
  (40 * length segs <= length original_html)%nat.
Proof.
  cbv zeta. destruct (document_of_spec original_html) as [Hr Hwf].
  split_and!.
  - rewrite Hr at 1. by apply script_nsteps_at.
  - rewrite Hr at 1. by apply script_exits_at.
  - rewrite Hr at 2. pose proof (length_render (document_of original_html).1
                                   (document_of original_html).2). lia.
Qed.

(** Every state the loop reaches keeps [index] between [0] and the
    length of the text, and [script] no longer than [index]. *)
Theorem script_reachable_inv original_html s :
  rtc (step (script_body original_html)) script_init s ->
  script_inv original_html s.
Proof.
  apply (rtc_invariant _ (script_inv original_html)); [|apply script_init_inv].
  intros s1 s2 H1 H12. by destruct (script_step_decreases original_html s1 s2).
Qed.

Lemma script_sn original_html s : sn (step (script_body original_html)) s.
Proof.
  constructor. intros s1 Hs%script_step_lands. constructor. intros s2 Hs2.
  pose proof (script_step_lands _ _ _ Hs2) as H2.
  assert (0 <= s1.2) as H1 by lia.
  pose proof (script_step_forward _ _ _ H1 Hs2).
  apply (measure_sn _ (fun s => 0 <= s.2 <= len original_html) (script_measure original_html));
    [|lia].
  intros s3 s4 H3 H34. pose proof (script_step_lands _ _ _ H34).
  pose proof (script_step_forward _ _ _ (proj1 H3) H34). unfold script_measure. lia.
Qed.

(** The loop ends from every value of its variables, a negative or an
    oversized [index] included: after one iteration [index] is inside the
    text, and from there every iteration moves it forward. *)
Theorem script_terminates_everywhere original_html s :
  sn (step (script_body original_html)) s.
Proof. apply script_sn. Qed.

(** ** The function without fuel *)

(** Lines 182-194 as a total function: the loop from its initial state, by
    recursion on the proof that it ends. *)
Definition script_loop_wf (original_html : str) : str :=
  loop (script_body original_html) (script_sn original_html) script_init.

(** Lines 172-196 with the type the source gives them: the dictionary. *)
Definition html_and_script_of_wf (original_html : str) : html_and_script :=
  let div := get_div original_html in
  let script := script_loop_wf original_html in
  {| html := div; script := script |}.

Definition get_html_and_script_from_figure_wf `{Renderer Figure}
    (fig : Figure) (height width : Z) (include_plotlyjs : bool) : html_and_script :=
  let original_html := write_html fig include_plotlyjs height width in
  html_and_script_of_wf original_html.

Lemma script_loop_script_loop_wf original_html :
  script_loop (S (length original_html)) original_html [] 0 =
  Some (script_loop_wf original_html).
Proof.
  rewrite script_loop_iterate. unfold script_loop_wf.
  rewrite <- (measure_iterate_loop _ _ _ (script_step_decreases original_html)
                (script_sn original_html) script_init (script_init_inv original_html)).
  do 2 f_equal. unfold script_measure, script_init, len. cbn. lia.
Qed.

Lemma html_and_script_of_wf_eq original_html :
  html_and_script_of original_html = Some (html_and_script_of_wf original_html).
Proof.
  unfold html_and_script_of, html_and_script_of_wf.
  by rewrite script_loop_script_loop_wf.
Qed.

(** C6. The function on fuel is the total function: the fuel it is given never
    runs out, whatever the engine wrote. *)
Theorem get_html_and_script_from_figure_wf_eq `{Renderer Figure}
    (fig : Figure) (height width : Z) (include_plotlyjs : bool) :
  get_html_and_script_from_figure fig height width include_plotlyjs =
  Some (get_html_and_script_from_figure_wf fig height width include_plotlyjs).
Proof. apply html_and_script_of_wf_eq. Qed.

(** The equation of the loop, as the code reads: the test, the two
    searches, the [break], and the next iteration. *)
Lemma script_loop_wf_unfold original_html s :
  loop (script_body original_html) (script_sn original_html) s =
  match script_body original_html s with
  | inl s' => loop (script_body original_html) (script_sn original_html) s'
  | inr script => script
  end.
Proof. apply loop_unfold. Qed.

(** C12. The run of [get_html_and_script_from_figure] eventually leaves the
    loop, whatever the engine wrote: it reaches, within one iteration per
    character, a state in which the loop exits, and the ["script"] entry of
    the result is the [script] of that state. *)
Theorem get_html_and_script_from_figure_eventually `{Renderer Figure}
    (fig : Figure) (height width : Z) (include_plotlyjs : bool) :
  let original_html := write_html fig include_plotlyjs height width in
  eventually (script_body original_html)
    (fun s =>
       exits (script_body original_html) s s.1 /\
       script_inv original_html s /\
       get_html_and_script_from_figure fig height width include_plotlyjs =
         Some {| html := get_div original_html; script := s.1 |})
    script_init.
Proof.
  cbv zeta. set (original_html := write_html _ _ _ _).
  destruct (script_run original_html) as (k & s & _ & Hsteps & Hinv & Hex & Hloop).
  apply eventually_rtc. exists s. split; [by eapply rtc_nsteps_2|].
  split_and!; [done..|].
  unfold get_html_and_script_from_figure, html_and_script_of.
  fold original_html. by rewrite Hloop.
Qed.

(** ** Concrete runs *)

Lemma script_reachable_inv_witness :
  script_inv sample_document (script_state_at sample_segments 1).
Proof.
  apply (script_reachable_inv sample_document (script_state_at sample_segments 1)).
  apply rtc_once, step_iff. by vm_compute.
Defined.
