(* ===== verification/GraphParam.v ===== *)
(** * GraphParam: the header of an optional column parameter

    Models [get_column_header_from_optional_column_id_graph_param] of
    [graph_utils.py] (lines 198-206): the graph parameters may name a column
    by its identifier; the function resolves it to the column's header
    through the identifier tables of the spreadsheet state, and returns
    [None] when the parameter is absent or names no column of the sheet.

    The state manager is outside the sources.  [State] keeps what the
    function reads of it: [column_ids.column_id_to_column_header], one
    dictionary from identifier to header per sheet, and
    [get_column_header_by_id], the lookup in it.  The parameters are a finite
    map from names to values; [list_index], [as_index] and [as_key] are
    Python's list subscript, its conversion of a value to an index and the
    hashing of a dictionary key, with the exceptions they raise.

    [resolvable] says on which parameters the function returns, and
    [resolve_error] is the exception it raises on the others.

    The function returns a header or [None]: [Ok (Some header)] and
    [Ok None].  A header is itself a Python value, and the type would let
    it be [None]; the tables of the state manager hold the labels of the
    columns, which are never [None], so the model keeps the two results
    apart where Python could not. *)

From stdpp Require Import gmap.
From S2P Require Import Prelude PyStr PyValue.

(** ** Python primitives *)

(** [l[i]]: negative indices count from the end, an index out of range
    raises [IndexError]. *)
Definition list_index {A} (l : list A) (i : Z) : result A :=
  let n := Z.of_nat (length l) in
  let j := if i <? 0 then i + n else i in
  if (j <? 0) || (n <=? j) then Raise IndexError
  else of_option IndexError (l !! Z.to_nat j).

(** A value used as a list index: an [int], or a [bool] (which is an
    [int]); anything else raises [TypeError]. *)
Definition as_index (v : pyval) : result Z :=
  match v with
  | Scalar (SInt n) => Ok n
  | Scalar (SBool b) => Ok (if b then 1 else 0)
  | _ => Raise TypeError
  end.

(** A value looked up among string keys: a string is a candidate key, any
    other scalar is hashable but equal to no string, a dictionary is
    unhashable. *)
Definition as_key (v : pyval) : result (option str) :=
  match v with
  | Scalar (SStr s) => Ok (Some s)
  | Scalar _ => Ok None
  | Dict _ => Raise TypeError
  end.

(** ** The state *)

Record ColumnIDMap : Type := {
  column_id_to_column_header : list (gmap str ColumnHeader)
}.

Record State : Type := {
  column_ids : ColumnIDMap
}.

(** [self.column_id_to_column_header[sheet_index][column_id]]. *)
Definition get_column_header_by_id (self : ColumnIDMap) (sheet_index : Z)
    (column_id : str) : result ColumnHeader :=
  sheet ← list_index (column_id_to_column_header self) sheet_index;
  of_option (KeyError column_id) (sheet !! column_id).

(** ** The function *)

Definition get_column_header_from_optional_column_id_graph_param
    (state : State) (graph_creation_params : gmap str pyval) (param_name : str)
    : result (option ColumnHeader) :=
  sheet_index ← of_option (KeyError "sheet_index")
                  (graph_creation_params !! (lit "sheet_index"));
  match graph_creation_params !! param_name with
  | None => Ok None
  | Some column_id =>
      i ← as_index sheet_index;
      sheet ← list_index (column_id_to_column_header (column_ids state)) i;
      key ← as_key column_id;
      match key with
      | Some column_id =>
          if bool_decide (is_Some (sheet !! column_id)) then
            Some <$> get_column_header_by_id (column_ids state) i column_id
          else Ok None
      | None => Ok None
      end
  end.

(** ** Specification *)

(** The sheet a valid index selects. *)
Definition sheet_at (state : State) (i : Z) : option (gmap str ColumnHeader) :=
  let l := column_id_to_column_header (column_ids state) in
  let n := Z.of_nat (length l) in
  if (0 <=? i) && (i <? n) then l !! Z.to_nat i
  else if (-n <=? i) && (i <? 0) then l !! Z.to_nat (i + n)
  else None.

(** The exception a call raises, when it raises: it is determined by the
    state and by [sheet_index], whatever parameter is asked for. *)
Definition resolve_error (state : State) (graph_creation_params : gmap str pyval)
    : exn :=
  match graph_creation_params !! (lit "sheet_index") with
  | None => KeyError "sheet_index"
  | Some sheet_index =>
      match as_index sheet_index with
      | Raise e => e
      | Ok i =>
          match sheet_at state i with
          | Some _ => TypeError
          | None => IndexError
          end
      end
  end.

(** The calls that return: [sheet_index] is there and, when the parameter
    is there too, [sheet_index] selects a sheet and the parameter is
    hashable. *)
Definition resolvable (state : State) (graph_creation_params : gmap str pyval)
    (param_name : str) : Prop :=
  exists sheet_index,
    graph_creation_params !! (lit "sheet_index") = Some sheet_index /\
    forall value, graph_creation_params !! param_name = Some value ->
      exists i, as_index sheet_index = Ok i /\ is_Some (sheet_at state i) /\
                is_Ok (as_key value).

(** ** Lemmas on the primitives *)

Lemma as_key_Raise v e : as_key v = Raise e -> e = TypeError.
Proof. destruct v as [[]|]; cbn; congruence. Qed.

Lemma list_index_sheet_at state i :
  list_index (column_id_to_column_header (column_ids state)) i =
  of_option IndexError (sheet_at state i).
Proof.
  unfold list_index, sheet_at. cbv zeta.
  set (l := column_id_to_column_header _).
  case_cmp; simpl; try lia; done.
Qed.

Lemma list_index_Ok {A} (l : list A) i x :
  list_index l i = Ok x ->
  -Z.of_nat (length l) <= i < Z.of_nat (length l).
Proof. unfold list_index. cbv zeta. case_cmp; simpl; try done; lia. Qed.

Lemma list_index_nonneg {A} (l : list A) (k : nat) :
  list_index l (Z.of_nat k) = of_option IndexError (l !! k).
Proof.
  unfold list_index. cbv zeta. case_cmp; simpl; try lia.
  - by rewrite lookup_ge_None_2 by lia.
  - by rewrite Nat2Z.id.
Qed.

(** The last element is at index [-1]. *)
Lemma list_index_last {A} (l : list A) :
  list_index l (-1) = of_option IndexError (last l).
Proof.
  unfold list_index. cbv zeta. rewrite last_lookup.
  destruct l as [|x l]; [done|]. cbn [length]. case_cmp; simpl; try lia.
  do 2 f_equal. lia.
Qed.

(** ** The function *)

Section Resolver.
Context (state : State) (graph_creation_params : gmap str pyval).
Implicit Types (param_name column_id : str) (h : ColumnHeader).

Local Abbreviation resolve := (get_column_header_from_optional_column_id_graph_param
                       state graph_creation_params).

(** The guarded call: once the identifier is known to be a key of the sheet,
    [get_column_header_by_id] returns its header. *)
Lemma get_column_header_by_id_guarded i sheet column_id :
  sheet_at state i = Some sheet -> is_Some (sheet !! column_id) ->
  get_column_header_by_id (column_ids state) i column_id =
  of_option (KeyError column_id) (sheet !! column_id).
Proof.
  intros Hs _. unfold get_column_header_by_id.
  by rewrite list_index_sheet_at, Hs.
Qed.

(** The function after the two dictionary reads, on a present parameter. *)
Lemma resolve_present param_name v (value : pyval) :
  graph_creation_params !! (lit "sheet_index") = Some v ->
  graph_creation_params !! param_name = Some value ->
  resolve param_name =
    (i ← as_index v;
     sheet ← of_option IndexError (sheet_at state i);
     key ← as_key value;
     Ok (key ≫= fun column_id => sheet !! column_id)).
Proof.
  intros Hv Hp. unfold get_column_header_from_optional_column_id_graph_param.
  rewrite Hv, Hp. cbn [of_option]. rewrite bind_Ok.
  destruct (as_index v) as [i|]; [|done]. rewrite !bind_Ok, list_index_sheet_at.
  destruct (sheet_at state i) as [sheet|] eqn:Hs; [|done]. cbn [of_option]. rewrite !bind_Ok.
  destruct (as_key value) as [[id|]|]; [|done..]. cbn [mbind result_bind option_bind].
  case_bool_decide as Hk.
  - rewrite (get_column_header_by_id_guarded i sheet) by done. by destruct Hk as [h ->].
  - apply eq_None_not_Some in Hk. by rewrite Hk.
Qed.

(** The three cases of a call: no [sheet_index], an absent parameter, a
    present one. *)
Inductive resolve_spec param_name : result (option ColumnHeader) -> Prop :=
  | resolve_no_sheet_index :
      graph_creation_params !! (lit "sheet_index") = None ->
      resolve_spec param_name (Raise (KeyError "sheet_index"))
  | resolve_absent v :
      graph_creation_params !! (lit "sheet_index") = Some v ->
      graph_creation_params !! param_name = None ->
      resolve_spec param_name (Ok None)
  | resolve_value v value :
      graph_creation_params !! (lit "sheet_index") = Some v ->
      graph_creation_params !! param_name = Some value ->
      resolve_spec param_name
        (i ← as_index v;
         sheet ← of_option IndexError (sheet_at state i);
         key ← as_key value;
         Ok (key ≫= fun column_id => sheet !! column_id)).

Lemma resolveP param_name : resolve_spec param_name (resolve param_name).
Proof.
  destruct (graph_creation_params !! (lit "sheet_index")) as [v|] eqn:Hv; last first.
  { unfold get_column_header_from_optional_column_id_graph_param. rewrite Hv.
    by constructor. }
  destruct (graph_creation_params !! param_name) as [c|] eqn:Hp.
  - rewrite (resolve_present _ v c) by done. by constructor.
  - unfold get_column_header_from_optional_column_id_graph_param. rewrite Hv, Hp.
    by econstructor.
Qed.

(** C9. The function returns a header exactly when the parameter is present
    and is a string, [sheet_index] selects a sheet, and the string is an
    identifier of a column of that sheet; the header is that column's. *)
Theorem get_column_header_Some param_name h :
  get_column_header_from_optional_column_id_graph_param
    state graph_creation_params param_name = Ok (Some h) <->
  exists v i sheet column_id,
    graph_creation_params !! (lit "sheet_index") = Some v /\ as_index v = Ok i /\
    graph_creation_params !! param_name = Some (Scalar (SStr column_id)) /\
    sheet_at state i = Some sheet /\ sheet !! column_id = Some h.
Proof.
  split.
  - destruct (resolveP param_name) as [Hv|v Hv Hp|v c Hv Hp]; [done..|].
    destruct (as_index v) as [i|] eqn:Hi; [|done]. rewrite bind_Ok.
    destruct (sheet_at state i) as [sheet|] eqn:Hs; [|done]. cbn [of_option]. rewrite bind_Ok.
    destruct c as [[| | |id]|]; try done. cbn. intros [= E].
    by exists v, i, sheet, id.
  - intros (v & i & sheet & id & Hv & Hi & Hp & Hs & Hh).
    rewrite (resolve_present _ v (Scalar (SStr id))) by done.
    rewrite Hi, bind_Ok, Hs. cbn. by rewrite Hh.
Qed.

(** An absent parameter gives [None], whatever [sheet_index] holds: the
    sheet is looked at only after the parameter is found. *)
Theorem get_column_header_absent param_name v :
  graph_creation_params !! (lit "sheet_index") = Some v ->
  graph_creation_params !! param_name = None ->
  get_column_header_from_optional_column_id_graph_param
    state graph_creation_params param_name = Ok None.
Proof.
  intros Hv Hp. unfold get_column_header_from_optional_column_id_graph_param.
  by rewrite Hv, Hp.
Qed.

(** C32. The only [KeyError] the function raises is the one for a missing
    [sheet_index], and it raises it even when the optional parameter is
    absent; the lookup of the header is guarded and never raises one. *)
Theorem get_column_header_KeyError param_name key :
  get_column_header_from_optional_column_id_graph_param
    state graph_creation_params param_name = Raise (KeyError key) <->
  key = lit "sheet_index" /\ graph_creation_params !! (lit "sheet_index") = None.
Proof.
  destruct (resolveP param_name) as [Hv|v Hv Hp|v c Hv Hp]; rewrite Hv.
  - split; [by intros [= <-] | by intros [-> _]].
  - by split; [|intros [_ ?]].
  - split; [|by intros [_ ?]].
    destruct v as [[]|]; try done; cbn [as_index]; rewrite bind_Ok;
      (destruct (sheet_at state _); [|done]); cbn [of_option]; rewrite bind_Ok;
      by destruct c as [[]|].
Qed.

(** Whatever the parameter, a call that raises raises [resolve_error]. *)
Lemma get_column_header_Raise param_name e :
  resolve param_name = Raise e -> e = resolve_error state graph_creation_params.
Proof.
  unfold resolve_error.
  destruct (resolveP param_name) as [Hv|v Hv Hp|v c Hv Hp]; rewrite Hv;
    [by intros [= <-] | done |].
  destruct (as_index v) as [i|e']; [|by intros [= <-]]. rewrite bind_Ok.
  destruct (sheet_at state i) as [sheet|]; [|by intros [= <-]].
  cbn [of_option]. rewrite bind_Ok.
  destruct (as_key c) as [k|e'] eqn:Hk; [done|]. apply as_key_Raise in Hk as ->.
  by intros [= <-].
Qed.

(** The function returns exactly on the resolvable parameters. *)
Lemma get_column_header_is_Ok param_name :
  is_Ok (resolve param_name) <-> resolvable state graph_creation_params param_name.
Proof.
  unfold resolvable.
  destruct (resolveP param_name) as [Hv|v Hv Hp|v c Hv Hp]; rewrite Hv.
  - split; [by intros [? ?] | by intros (? & ? & _)].
  - split; [intros _; exists v; by rewrite Hp | intros _; apply is_Ok_Ok].
  - rewrite Hp. split.
    + intros [r Hr]. exists v. split; [done|]. intros ? [= <-]. revert Hr.
      destruct (as_index v) as [i|]; [|done]. rewrite bind_Ok.
      destruct (sheet_at state i) as [sheet|] eqn:Hs; [|done].
      cbn [of_option]. rewrite bind_Ok.
      destruct (as_key c) as [k|]; [|done]. intros _. exists i.
      split_and!; [done | by rewrite Hs | apply is_Ok_Ok].
    + intros (? & [= <-] & H). destruct (H c eq_refl) as (i & Hi & [sheet Hs] & [k Hk]).
      rewrite Hi, bind_Ok, Hs. cbn [of_option]. rewrite bind_Ok, Hk. apply is_Ok_Ok.
Qed.

End Resolver.

(** ** The sheet index *)

Lemma sheet_at_wrap state i :
  let n := Z.of_nat (length (column_id_to_column_header (column_ids state))) in
  -n <= i < 0 -> sheet_at state i = sheet_at state (i + n).
Proof.
  cbv zeta. intros Hi. unfold sheet_at. cbv zeta. case_cmp; simpl; try lia; try done.
  all: by replace (i + _ + _) with i by lia.
Qed.

Lemma sheet_at_outside state i :
  let n := Z.of_nat (length (column_id_to_column_header (column_ids state))) in
  i < -n \/ n <= i -> sheet_at state i = None.
Proof. cbv zeta. intros Hi. unfold sheet_at. cbv zeta. case_cmp; simpl; try lia; done. Qed.

(** C37. [sheet_index] is a Python list index.  With [n] sheets and the
    parameter present, an index [i] with [-n <= i < 0] counts from the end:
    the function answers as it does for [i + n]; an index outside
    [-n .. n - 1] raises [IndexError]. *)
Theorem get_column_header_sheet_index state graph_creation_params param_name i value :
  let n := Z.of_nat (length (column_id_to_column_header (column_ids state))) in
  let resolve_at j :=
    get_column_header_from_optional_column_id_graph_param state
      (<[lit "sheet_index" := Scalar (SInt j)]> graph_creation_params) param_name in
  param_name <> lit "sheet_index" ->
  graph_creation_params !! param_name = Some value ->
  (-n <= i < 0 -> resolve_at i = resolve_at (i + n)) /\
  (i < -n \/ n <= i -> resolve_at i = Raise IndexError).
Proof.
  cbv zeta. intros Hne Hp.
  assert (forall j,
    get_column_header_from_optional_column_id_graph_param state
      (<[lit "sheet_index" := Scalar (SInt j)]> graph_creation_params) param_name =
    (sheet ← of_option IndexError (sheet_at state j);
     key ← as_key value;
     Ok (key ≫= fun column_id => sheet !! column_id))) as E.
  { intros j. rewrite (resolve_present _ _ param_name (Scalar (SInt j)) value).
    - done.
    - apply lookup_insert_eq.
    - by rewrite lookup_insert_ne. }
  split; intros Hi; rewrite !E.
  - by rewrite (sheet_at_wrap state i Hi).
  - by rewrite (sheet_at_outside state i Hi).
Qed.

(** ** Examples *)

Definition example_state : State :=
  {| column_ids := {| column_id_to_column_header :=
       [ {[ lit "id_a" := SStr "A"; lit "id_b" := SInt 7 ]};
         {[ lit "id_c" := SStr "C" ]} ] |} |}.

Definition example_graph_params (sheet_index : Z) : gmap str pyval :=
  {[ lit "sheet_index" := Scalar (SInt sheet_index);
     lit "x_axis" := Scalar (SStr "id_c");
     lit "color" := Scalar SNone ]}.

(** Examples: a present identifier resolves to its header; a [None]
    value, an identifier of another sheet and an absent parameter give
    [None]; a sheet index out of range raises [IndexError] only when the
    parameter is present; the index [-1] selects the last sheet. *)
Theorem get_column_header_examples :
  get_column_header_from_optional_column_id_graph_param
    example_state (example_graph_params 1) "x_axis" = Ok (Some (SStr "C")) /\
  get_column_header_from_optional_column_id_graph_param
    example_state (example_graph_params 0) "x_axis" = Ok None /\
  get_column_header_from_optional_column_id_graph_param
    example_state (example_graph_params 1) "color" = Ok None /\
  get_column_header_from_optional_column_id_graph_param
    example_state (example_graph_params 1) "y_axis" = Ok None /\
  get_column_header_from_optional_column_id_graph_param
    example_state (example_graph_params 2) "x_axis" = Raise IndexError /\
  get_column_header_from_optional_column_id_graph_param
    example_state (example_graph_params 2) "y_axis" = Ok None /\
  get_column_header_from_optional_column_id_graph_param
    example_state (example_graph_params (-1)) "x_axis" = Ok (Some (SStr "C")) /\
  get_column_header_from_optional_column_id_graph_param
    example_state ∅ "x_axis" = Raise (KeyError "sheet_index").
Proof. split_and!; by vm_compute. Qed.

Lemma get_column_header_absent_witness :
  get_column_header_from_optional_column_id_graph_param
    example_state (example_graph_params 5) "y_axis" = Ok None.
Proof.
  apply (get_column_header_absent example_state (example_graph_params 5)
           "y_axis" (Scalar (SInt 5))); by vm_compute.
Defined.

Lemma get_column_header_sheet_index_witness :
  get_column_header_from_optional_column_id_graph_param example_state
    (<[lit "sheet_index" := Scalar (SInt (-1))]> (example_graph_params 0)) "x_axis" =
  get_column_header_from_optional_column_id_graph_param example_state
    (<[lit "sheet_index" := Scalar (SInt (-1 + 2))]> (example_graph_params 0)) "x_axis".
Proof.
  apply (get_column_header_sheet_index example_state (example_graph_params 0)
           "x_axis" (-1) (Scalar (SStr "id_c"))); by vm_compute.
Defined.
