(* ===== verification/GraphRequest.v ===== *)
(** * GraphRequest: the outputs of one graph-render request

    The functions of [graph_utils.py] are called by the graph step, which is
    outside the sources.  The specification (sections 2, 6 and 7) describes
    what it does with them: it resolves the optional column parameters of
    the request to headers through the state manager, an unresolvable
    parameter giving no axis rather than an error; it assembles the
    parameter tree from the headers; it asks the title builder for the
    title, the serializer for the code of the tree, and the rendering
    engine then the extractor for the fragments.  [graph_request] is that
    composition, modelled from the specification; the assembly of the tree
    is a parameter, and the rendering engine is the class [Renderer] on
    parameter trees.

    Theorems: which requests return and what a failing request raises (the
    resolution of the parameters fails first, with an exception that does
    not depend on the parameter, then the title on an unknown graph type;
    the serializer and the extractor never fail); the two resolutions can
    be made in either order; an unresolvable parameter is left out of the
    title. *)

From stdpp Require Import gmap.
From S2P Require Import Prelude PyStr PyValue GraphTitle ParamCode.
From S2P Require Import HtmlScript ScriptLoop GraphParam.

(** ** The request *)

(** The three outputs of a request. *)
Record graph_outputs : Type := GraphOutputs {
  graph_title : str;
  graph_code : str;
  graph_fragments : html_and_script
}.

Section Request.
Context `{!Transpiler} `{!Renderer (list (str * pyval))}.
Context (assemble : list ColumnHeader -> list ColumnHeader -> list (str * pyval)).
Context (state : State) (graph_creation_params : gmap str pyval).
Implicit Types (param_name x_axis y_axis graph_type : str) (filtered : bool).
Implicit Types (height width : Z) (include_plotlyjs : bool).

(** The headers of an axis given by an optional column parameter: the
    header of the column, or no header when there is no such column. *)
Definition axis_headers param_name : result (list ColumnHeader) :=
  header ← get_column_header_from_optional_column_id_graph_param
             state graph_creation_params param_name;
  Ok (option_list header).

(** The outputs for the headers of the two axes: the title, the code of
    the parameter tree, and the fragments of its rendering. *)
Definition graph_outputs_of (x_axis_column_headers y_axis_column_headers : list ColumnHeader)
    filtered graph_type height width include_plotlyjs : result graph_outputs :=
  let parameters := assemble x_axis_column_headers y_axis_column_headers in
  title ← get_graph_title x_axis_column_headers y_axis_column_headers
            filtered graph_type;
  let code := param_dict_to_code parameters 0 false in
  let fragments :=
    get_html_and_script_from_figure_wf parameters height width include_plotlyjs in
  Ok {| graph_title := title; graph_code := code; graph_fragments := fragments |}.

Definition graph_request x_axis y_axis filtered graph_type height width
    include_plotlyjs : result graph_outputs :=
  x_axis_column_headers ← axis_headers x_axis;
  y_axis_column_headers ← axis_headers y_axis;
  graph_outputs_of x_axis_column_headers y_axis_column_headers
    filtered graph_type height width include_plotlyjs.

(** ** The resolution of the axes *)

Lemma axis_headers_is_Ok param_name :
  is_Ok (axis_headers param_name) <->
  resolvable state graph_creation_params param_name.
Proof.
  rewrite <- get_column_header_is_Ok. unfold axis_headers.
  destruct (get_column_header_from_optional_column_id_graph_param _ _ _); cbn.
  - split; intros _; apply is_Ok_Ok.
  - split; by intros [? ?].
Qed.

Lemma axis_headers_Raise param_name e :
  axis_headers param_name = Raise e ->
  e = resolve_error state graph_creation_params.
Proof.
  unfold axis_headers.
  destruct (get_column_header_from_optional_column_id_graph_param _ _ _) eqn:E;
    [done|].
  intros [= <-]. by apply get_column_header_Raise in E.
Qed.

Lemma axis_headers_cases param_name :
  (resolvable state graph_creation_params param_name /\
   is_Ok (axis_headers param_name)) \/
  (~ resolvable state graph_creation_params param_name /\
   axis_headers param_name = Raise (resolve_error state graph_creation_params)).
Proof.
  destruct (axis_headers param_name) as [hs|e] eqn:E.
  - left. rewrite <- axis_headers_is_Ok, E. split; apply is_Ok_Ok.
  - right. rewrite <- axis_headers_is_Ok, E. split; [apply is_Ok_Raise|].
    by rewrite (axis_headers_Raise _ _ E).
Qed.

(** The two resolutions are independent: they return, or raise the same
    exception. *)
Lemma axis_headers_commute x_axis y_axis :
  commute (axis_headers x_axis) (axis_headers y_axis).
Proof.
  apply commute_iff.
  destruct (axis_headers_cases x_axis) as [[_ ?]|[_ Ex]]; [by left|].
  destruct (axis_headers_cases y_axis) as [[_ ?]|[_ Ey]]; [by right; left|].
  right. right. by exists (resolve_error state graph_creation_params).
Qed.

(** An unresolvable parameter gives no header. *)
Lemma axis_headers_None param_name :
  get_column_header_from_optional_column_id_graph_param
    state graph_creation_params param_name = Ok None ->
  axis_headers param_name = Ok [].
Proof. unfold axis_headers. by intros ->. Qed.

(** ** The outputs *)

(** The outputs fail only through the title. *)
Lemma graph_outputs_of_lookup xs ys filtered graph_type height width include_plotlyjs :
  graph_outputs_of xs ys filtered graph_type height width include_plotlyjs =
  label ← of_option (KeyError graph_type) (GRAPH_TITLE_LABELS !! graph_type);
  Ok {| graph_title := title_of (xs ++ ys) filtered label;
        graph_code := param_dict_to_code (assemble xs ys) 0 false;
        graph_fragments :=
          get_html_and_script_from_figure_wf (assemble xs ys)
            height width include_plotlyjs |}.
Proof.
  unfold graph_outputs_of. cbv zeta. rewrite get_graph_title_lookup.
  by destruct (GRAPH_TITLE_LABELS !! graph_type).
Qed.

(** ** Theorems *)

(** C20. A request returns exactly when both parameters are resolvable and
    the graph type is in the table.  Otherwise it raises: the exception of
    the resolution when a parameter is not resolvable, whatever the graph
    type is, and [KeyError] with the graph type when only the graph type is
    unknown.  The serializer and the extractor never make it fail. *)
Theorem graph_request_cases x_axis y_axis filtered graph_type height width
    include_plotlyjs :
  let request :=
    graph_request x_axis y_axis filtered graph_type height width include_plotlyjs in
  let resolvable := resolvable state graph_creation_params in
  (resolvable x_axis /\ resolvable y_axis /\ graph_type ∈ graph_title_items.*1 /\
   is_Ok request) \/
  (~ (resolvable x_axis /\ resolvable y_axis) /\
   request = Raise (resolve_error state graph_creation_params)) \/
  (resolvable x_axis /\ resolvable y_axis /\ (graph_type ∉ graph_title_items.*1) /\
   request = Raise (KeyError graph_type)).
Proof.
  cbv zeta. unfold graph_request.
  destruct (axis_headers_cases x_axis) as [[Hx [xs ->]]|[Hx ->]];
    [|right; left; split; [tauto | done]].
  destruct (axis_headers_cases y_axis) as [[Hy [ys ->]]|[Hy ->]];
    [|right; left; split; [tauto | done]].
  rewrite !bind_Ok, graph_outputs_of_lookup.
  destruct (GRAPH_TITLE_LABELS !! graph_type) as [label|] eqn:El.
  - left. split_and!; [done..| |apply is_Ok_Ok].
    apply GRAPH_TITLE_LABELS_lookup in El. apply list_elem_of_fmap.
    by exists (graph_type, label).
  - right. right. by apply GRAPH_TITLE_LABELS_None in El.
Qed.

(** C35. The order in which the two parameters are resolved does not show:
    resolving the y axis first gives the same outputs, and the same
    exception when the request fails. *)
Theorem graph_request_order x_axis y_axis filtered graph_type height width
    include_plotlyjs :
  graph_request x_axis y_axis filtered graph_type height width include_plotlyjs =
  (y_axis_column_headers ← axis_headers y_axis;
   x_axis_column_headers ← axis_headers x_axis;
   graph_outputs_of x_axis_column_headers y_axis_column_headers
     filtered graph_type height width include_plotlyjs).
Proof. apply commute_elim, axis_headers_commute. Qed.

(** A parameter that names no column is left out: the request does not
    fail for it, and its outputs are those of the other axis alone. *)
Theorem graph_request_absent_axis x_axis y_axis filtered graph_type height width
    include_plotlyjs :
  get_column_header_from_optional_column_id_graph_param
    state graph_creation_params x_axis = Ok None ->
  graph_request x_axis y_axis filtered graph_type height width include_plotlyjs =
  (y_axis_column_headers ← axis_headers y_axis;
   graph_outputs_of [] y_axis_column_headers
     filtered graph_type height width include_plotlyjs).
Proof. intros Hx. unfold graph_request. by rewrite (axis_headers_None _ Hx). Qed.

End Request.

(** ** Examples *)

(** An engine for the examples: the document of the docstring, with the
    size in the container and one script that holds the code of the tree
    on one line. *)
Definition sample_engine : @Renderer (list (str * pyval)) :=
  fun parameters include_plotlyjs height width =>
    plotly_html
      ("chart style=height:" ++ str_of_int height ++ "px;width:" ++
       str_of_int width ++ "px>")
      ["plot(" ++ param_dict_to_code (H := sample_transpiler) parameters 0 true ++ ")"].

(** An assembly for the examples: one entry per header. *)
Definition sample_assemble (xs ys : list ColumnHeader) : list (str * pyval) :=
  ((fun h => (lit "x", Scalar h)) <$> xs) ++ ((fun h => (lit "y", Scalar h)) <$> ys).

#[local] Existing Instance sample_transpiler.
#[local] Existing Instance sample_engine.

(** A request on the second sheet, whose [x_axis] names a column and whose
    [y_axis] is absent; the same request with an unknown graph type; the
    same request without [sheet_index], which fails for the resolution
    whatever the graph type is. *)
Theorem graph_request_examples :
  graph_request sample_assemble example_state (example_graph_params 1)
    "x_axis" "y_axis" false BAR 425 970 false =
  Ok {| graph_title := "C bar chart";
        graph_code := [newline] ++ "    x='C'" ++ [newline];
        graph_fragments :=
          {| html := "<div id=chart style=height:425px;width:970px>";
             script := "plot(x='C')" ++ STATEMENT_END |} |} /\
  graph_request sample_assemble example_state (example_graph_params 1)
    "x_axis" "y_axis" false "pie" 425 970 false = Raise (KeyError "pie") /\
  graph_request sample_assemble example_state ∅
    "x_axis" "y_axis" false "pie" 425 970 false = Raise (KeyError "sheet_index").
Proof. split_and!; by vm_compute. Qed.

Lemma graph_request_absent_axis_witness :
  graph_request sample_assemble example_state (example_graph_params 1)
    "y_axis" "x_axis" false BAR 425 970 false =
  (y_axis_column_headers ← axis_headers example_state (example_graph_params 1) "x_axis";
   graph_outputs_of sample_assemble [] y_axis_column_headers false BAR 425 970 false).
Proof.
  apply (graph_request_absent_axis sample_assemble example_state
           (example_graph_params 1) "y_axis" "x_axis"). by vm_compute.
Defined.
