(* ===== verification/Installer.v ===== *)
(** * Installer: the installer steps of mitosheet

    Models [mitosheet_installer_steps.py]: the four steps (dependency check,
    removal of [mitosheet3], installation of [mitosheet], activation of the
    notebook extension) and their list [MITOSHEET_INSTALLER_STEPS].

    The steps act on the host through the commands of [mitoinstaller.commands]
    and [mitoinstaller.log_utils], which are outside the sources.  A step is
    therefore a program [prog]: a tree whose nodes are the commands it issues
    ([cmd]) and whose branches are the answers of the host, a value or an
    exception.  The code after a call is the branch for a value; an enclosing
    [try] is the branch for an exception.  [exec] runs a program against a
    host, given as a function from commands and states to answers, and
    records the commands issued.  [sys.argv] and [sys.executable] are
    parameters of the steps.

    The runner of the steps is outside the sources too: [run_installer_steps]
    is the sequence that stops at the first step that raises. *)

From Stdlib Require Eqdep_dec.
From S2P Require Import Prelude PyStr PyText.

(** ** Commands and programs *)

Inductive cmd : Type :=
  | GetJupyterlabMetadata
  | InstallPipPackages (packages : list str) (test_pypi user_install : bool)
  | UninstallPipPackages (packages : list str)
  | RunCommand (command_array : list str)
  | GetRecentTraceback
  | Log (log_event : str)
  | Input (prompt : str).

#[export] Instance cmd_eq_dec : EqDecision cmd.
Proof. solve_decision. Defined.

(** What a command returns. *)
Definition response (c : cmd) : Type :=
  match c with
  | GetJupyterlabMetadata => (option str * option (list str))%type
  | GetRecentTraceback | Input _ => str
  | _ => unit
  end.

Inductive prog (A : Type) : Type :=
  | Ret (a : A)
  | Throw (e : exn)
  | Call (c : cmd) (k : result (response c) -> prog A).

Arguments Ret {A} a.
Arguments Throw {A} e.
Arguments Call {A} c k.

Fixpoint prog_bind {A B} (f : A -> prog B) (m : prog A) : prog B :=
  match m with
  | Ret a => f a
  | Throw e => Throw e
  | Call c k => Call c (fun r => prog_bind f (k r))
  end.

#[export] Instance prog_ret : MRet prog := @Ret.
#[export] Instance prog_mbind : MBind prog := @prog_bind.

(** A call outside any [try]: an exception of the command is the program's. *)
Definition call (c : cmd) : prog (response c) :=
  Call c (fun r => match r with Ok x => Ret x | Raise e => Throw e end).

(** [try: m  except: handler], the handler receiving the exception that a
    bare [raise] raises again. *)
Fixpoint try_except {A} (m : prog A) (handler : exn -> prog A) : prog A :=
  match m with
  | Ret a => Ret a
  | Throw e => handler e
  | Call c k => Call c (fun r => try_except (k r) handler)
  end.

(** A pure computation that can raise. *)
Definition lift {A} (r : result A) : prog A :=
  match r with Ok a => Ret a | Raise e => Throw e end.

(** ** Running a program *)

Record outcome (W A : Type) : Type := Outcome {
  res : result A;
  final : W;
  calls : list cmd
}.

Arguments Outcome {W A} res final calls.
Arguments res {W A} o.
Arguments final {W A} o.
Arguments calls {W A} o.

(** A host: the answer to a command in a state, and the state after it. *)
Definition host (W : Type) : Type := forall c : cmd, W -> result (response c) * W.

Fixpoint exec {W A} (h : host W) (m : prog A) (w : W) : outcome W A :=
  match m with
  | Ret a => Outcome (Ok a) w []
  | Throw e => Outcome (Raise e) w []
  | Call c k =>
      let '(r, w') := h c w in
      let o := exec h (k r) w' in
      Outcome (res o) (final o) (c :: calls o)
  end.

(** ** The steps *)

(** [len(extension_names)]: [None] has no length. *)
Definition len_opt (extension_names : option (list str)) : result Z :=
  match extension_names with
  | Some l => Ok (Z.of_nat (length l))
  | None => Raise TypeError
  end.

(** ['Installed extensions {extension_names}'.format(...)]. *)
Definition installed_extensions_message (extension_names : option (list str)) : str :=
  "Installed extensions " ++
  match extension_names with
  | Some l => repr_list l
  | None => lit "None"
  end.

Definition install_step_mitosheet_check_dependencies : prog unit :=
  '(jupyterlab_version, extension_names) ← call GetJupyterlabMetadata;
  match jupyterlab_version with
  | None => Ret ()
  | Some jupyterlab_version =>
      if startswith jupyterlab_version "3" then Ret ()
      else
        n ← lift (len_opt extension_names);
        if n =? 0 then Ret ()
        else Throw (Exception (installed_extensions_message extension_names))
  end.

Definition remove_mitosheet_3_if_present : prog unit :=
  call (UninstallPipPackages [lit "mitosheet3"]).

Definition PERMISSION_HINT : str :=
  "Consider using the `--user` option or check the permissions.".

Definition USER_INSTALL_PROMPT : str :=
  "The installer hit a permission error while trying to install Mito. Would you like to do a user install? Note that this will not work inside a virtual enviornment. [y/n] ".

Section Steps.
Context (sys_argv : list str) (sys_executable : str).

Definition install_step_mitosheet_install_mitosheet : prog unit :=
  try_except
    (call (InstallPipPackages [lit "mitosheet"]
             (bool_decide (lit "--test-pypi" ∈ sys_argv)) false))
    (fun e =>
       traceback ← call GetRecentTraceback;
       let error_traceback_last_line :=
         strip (last_piece (split newline (strip traceback))) in
       if false && bool_decide (error_traceback_last_line = PERMISSION_HINT) then
         do_user_install ← call (Input USER_INSTALL_PROMPT);
         if startswith (lower do_user_install) "y" then
           call (Log "install_mitosheet_user");;
           call (InstallPipPackages [lit "mitosheet"]
                   (bool_decide (lit "--test-pypi" ∈ sys_argv)) true);;
           Ret ()
         else Throw e
       else Throw e).

Definition nbextension (action : str) : list str :=
  [sys_executable; lit "-m"; lit "jupyter"; lit "nbextension"; action;
   lit "--py"; lit "--user"; lit "mitosheet"].

Definition install_step_mitosheet_activate_notebook_extension : prog unit :=
  call (RunCommand (nbextension "install"));;
  call (RunCommand (nbextension "enable")).

(** ** The list of steps and its runner *)

Record InstallerStep : Type := {
  installer_step_name : str;
  execution_function : prog unit
}.

Definition MITOSHEET_INSTALLER_STEPS : list InstallerStep :=
  [ {| installer_step_name := "Check dependencies";
       execution_function := install_step_mitosheet_check_dependencies |};
    {| installer_step_name := "Remove mitosheet3 if present";
       execution_function := remove_mitosheet_3_if_present |};
    {| installer_step_name := "Install mitosheet";
       execution_function := install_step_mitosheet_install_mitosheet |};
    {| installer_step_name := "Activate extension";
       execution_function := install_step_mitosheet_activate_notebook_extension |} ].

(** The steps in order, up to the first that raises. *)
Fixpoint run_installer_steps (installer_steps : list InstallerStep) : prog unit :=
  match installer_steps with
  | [] => Ret ()
  | installer_step :: installer_steps' =>
      execution_function installer_step;;
      run_installer_steps installer_steps'
  end.

End Steps.

(** ** Programs up to the choice of continuation

    Two programs are equivalent when they issue the same commands and
    continue in equivalent ways on every answer. *)

Inductive eqp {A} : relation (prog A) :=
  | eqp_Ret a : eqp (Ret a) (Ret a)
  | eqp_Throw e : eqp (Throw e) (Throw e)
  | eqp_Call c k k' : (forall r, eqp (k r) (k' r)) -> eqp (Call c k) (Call c k').

Infix "≈" := eqp (at level 70) : py_scope.

#[export] Instance eqp_refl {A} : Reflexive (@eqp A).
Proof. intros m. induction m; by constructor. Qed.

#[export] Instance eqp_sym {A} : Symmetric (@eqp A).
Proof. intros m m' H. induction H; by constructor. Qed.

Lemma eqp_Call_inv {A} c k (m : prog A) :
  Call c k ≈ m -> exists k', m = Call c k' /\ forall r, k r ≈ k' r.
Proof.
  intros H. inversion H as [| |? k1 k' Hk]. exists k'. split; [done|].
  match goal with
  | E : existT _ _ = existT _ _ |- _ =>
      apply (Eqdep_dec.inj_pair2_eq_dec _ cmd_eq_dec) in E
  end.
  by subst.
Qed.

#[export] Instance eqp_trans {A} : Transitive (@eqp A).
Proof.
  intros m1 m2 m3 H. revert m3.
  induction H as [| |c k k' _ IH]; intros m3 H'; [done..|].
  apply eqp_Call_inv in H' as (k'' & -> & Hk). constructor. intros r. by apply IH.
Qed.

#[export] Instance eqp_equiv {A} : Equivalence (@eqp A).
Proof. split; apply _. Qed.

#[export] Instance exec_proper {W A} (h : host W) :
  Proper (eqp ==> eq ==> eq) (@exec W A h).
Proof.
  intros m m' H w ? <-. revert w.
  induction H as [| |c k k' _ IH]; intros w; simpl; [done..|].
  destruct (h c w) as [r w']. by rewrite IH.
Qed.

#[export] Instance prog_bind_proper {A B} :
  Proper (pointwise_relation A eqp ==> eqp ==> eqp) (@prog_bind A B).
Proof.
  intros f f' Hf m m' H. induction H; simpl; [apply Hf | done | by constructor].
Qed.

#[export] Instance try_except_proper {A} :
  Proper (eqp ==> pointwise_relation exn eqp ==> eqp) (@try_except A).
Proof.
  intros m m' H g g' Hg. induction H; simpl; [done | apply Hg | by constructor].
Qed.

(** ** Laws of programs *)

Section Laws.
Context {W A B : Type} (h : host W).
Implicit Types (m : prog A) (f : A -> prog B) (w : W).

(** The outcome of [m] followed by [f]. *)
Definition then_exec (o : outcome W A) f : outcome W B :=
  match res o with
  | Ok a =>
      let o' := exec h (f a) (final o) in
      Outcome (res o') (final o') (calls o ++ calls o')
  | Raise e => Outcome (Raise e) (final o) (calls o)
  end.

Lemma exec_bind m f w : exec h (m ≫= f) w = then_exec (exec h m w) f.
Proof.
  revert w. induction m as [a|e|c k IH]; intros w.
  - unfold then_exec. simpl. by destruct (exec h (f a) w).
  - done.
  - change (Call c k ≫= f) with (Call c (fun r => k r ≫= f)). simpl.
    destruct (h c w) as [r w']. rewrite IH. unfold then_exec. simpl.
    by destruct (res (exec h (k r) w')).
Qed.

Lemma exec_call c w :
  exec h (call c) w = Outcome (h c w).1 (h c w).2 [c].
Proof. unfold call. simpl. by destruct (h c w) as [[x|e] w']. Qed.

Lemma bind_ret_l (a : A) f : (Ret a ≫= f) = f a.
Proof. reflexivity. Qed.

Lemma bind_ret_r m : (m ≫= Ret) ≈ m.
Proof.
  induction m as [a|e|c k IH]; [done..|].
  change (Call c k ≫= Ret) with (Call c (fun r => k r ≫= Ret)). by constructor.
Qed.

Lemma bind_assoc {C} m f (g : B -> prog C) :
  ((m ≫= f) ≫= g) ≈ (m ≫= fun a => f a ≫= g).
Proof.
  induction m as [a|e|c k IH]; [done..|].
  change (Call c (fun r => (k r ≫= f) ≫= g) ≈ Call c (fun r => k r ≫= fun a => f a ≫= g)).
  by constructor.
Qed.

End Laws.

(** The outcome of [try: m except: handler]. *)
Lemma exec_try_except {W A} (h : host W) (m : prog A) handler w :
  exec h (try_except m handler) w =
  let o := exec h m w in
  match res o with
  | Ok a => o
  | Raise e =>
      let o' := exec h (handler e) (final o) in
      Outcome (res o') (final o') (calls o ++ calls o')
  end.
Proof.
  revert w. induction m as [a|e|c k IH]; intros w.
  - done.
  - simpl. by destruct (exec h (handler e) w).
  - simpl. destruct (h c w) as [r w']. rewrite IH. cbv zeta.
    by destruct (exec h (k r) w') as [[a|e] wo co].
Qed.

(** ** Sequencing *)

Section Sequencing.
Context {W A B : Type} (h : host W).
Implicit Types (m : prog A) (f : A -> prog B) (w : W).

Lemma calls_bind m f w :
  calls (exec h (m ≫= f) w) =
  calls (exec h m w) ++
  match res (exec h m w) with
  | Ok a => calls (exec h (f a) (final (exec h m w)))
  | Raise _ => []
  end.
Proof.
  rewrite exec_bind. unfold then_exec.
  destruct (res (exec h m w)); simpl; by rewrite ?app_nil_r.
Qed.

Lemma res_bind_Ok m f w b :
  res (exec h (m ≫= f) w) = Ok b <->
  exists a, res (exec h m w) = Ok a /\
            res (exec h (f a) (final (exec h m w))) = Ok b.
Proof.
  rewrite exec_bind. unfold then_exec.
  destruct (res (exec h m w)) as [a|e]; simpl; [|split; [done | by intros (? & ? & _)]].
  split; [by exists a | by intros (? & [= <-] & ?)].
Qed.

Lemma exec_bind_Raise m f w e :
  res (exec h m w) = Raise e ->
  exec h (m ≫= f) w = Outcome (Raise e) (final (exec h m w)) (calls (exec h m w)).
Proof. intros E. rewrite exec_bind. unfold then_exec. by rewrite E. Qed.

End Sequencing.

(** A step that returns nothing, followed by the rest. *)
Lemma res_then_Ok {W B} (h : host W) (m : prog unit) (k : prog B) (w : W) (b : B) :
  res (exec h (m;; k) w) = Ok b <->
  res (exec h m w) = Ok () /\ res (exec h k (final (exec h m w))) = Ok b.
Proof.
  rewrite (res_bind_Ok h m (fun _ => k)). split; [by intros ([] & ? & ?) | by exists ()].
Qed.

(** ** The steps, one by one *)

(** The environments the dependency check lets through: no JupyterLab, a
    JupyterLab 3, or a JupyterLab without extensions. *)
Definition compatible (metadata : option str * option (list str)) : bool :=
  match metadata with
  | (None, _) => true
  | (Some jupyterlab_version, extension_names) =>
      startswith jupyterlab_version "3" ||
      bool_decide (extension_names = Some [])
  end.

(** What the dependency check answers to the metadata. *)
Definition check_verdict (metadata : option str * option (list str)) : result unit :=
  if compatible metadata then Ok ()
  else match metadata.2 with
       | Some l => Raise (Exception ("Installed extensions " ++ repr_list l))
       | None => Raise TypeError
       end.

(** The commands of a complete installation, in order. *)
Definition full_installation (sys_argv : list str) (sys_executable : str) : list cmd :=
  [ GetJupyterlabMetadata;
    UninstallPipPackages [lit "mitosheet3"];
    InstallPipPackages [lit "mitosheet"] (bool_decide (lit "--test-pypi" ∈ sys_argv)) false;
    RunCommand (nbextension sys_executable "install");
    RunCommand (nbextension sys_executable "enable") ].

(** The installation step without the branch that is switched off. *)
Definition install_reference (sys_argv : list str) : prog unit :=
  try_except
    (call (InstallPipPackages [lit "mitosheet"]
             (bool_decide (lit "--test-pypi" ∈ sys_argv)) false))
    (fun e => call GetRecentTraceback;; Throw e).

(** The whole installer. *)
Definition installer (sys_argv : list str) (sys_executable : str) : prog unit :=
  run_installer_steps (MITOSHEET_INSTALLER_STEPS sys_argv sys_executable).

Section StepLemmas.
Context {W : Type} (h : host W) (sys_argv : list str) (sys_executable : str).
Implicit Types (w : W).

Lemma exec_check_dependencies w :
  exec h install_step_mitosheet_check_dependencies w =
  Outcome ((h GetJupyterlabMetadata w).1 ≫= check_verdict)
          (h GetJupyterlabMetadata w).2 [GetJupyterlabMetadata].
Proof.
  unfold install_step_mitosheet_check_dependencies.
  rewrite exec_bind, (exec_call h GetJupyterlabMetadata). unfold then_exec. cbn [res final calls].
  destruct (h GetJupyterlabMetadata w) as [[[[v|] exts]|e] w']; cbn [fst snd]; [|done..].
  unfold check_verdict, compatible. cbn [mbind result_bind snd].
  destruct (startswith v "3"); [done|]. cbn [orb].
  destruct exts as [[|x l]|]; done.
Qed.

Lemma exec_remove_mitosheet_3 w :
  exec h remove_mitosheet_3_if_present w =
  Outcome (h (UninstallPipPackages [lit "mitosheet3"]) w).1
          (h (UninstallPipPackages [lit "mitosheet3"]) w).2
          [UninstallPipPackages [lit "mitosheet3"]].
Proof. apply (exec_call h (UninstallPipPackages _)). Qed.

Lemma exec_install_reference w :
  let install := InstallPipPackages [lit "mitosheet"]
                   (bool_decide (lit "--test-pypi" ∈ sys_argv)) false in
  exec h (install_reference sys_argv) w =
  match (h install w).1 with
  | Ok _ => Outcome (Ok ()) (h install w).2 [install]
  | Raise e =>
      let w1 := (h install w).2 in
      Outcome (match (h GetRecentTraceback w1).1 with
               | Ok _ => Raise e
               | Raise e' => Raise e'
               end)
              (h GetRecentTraceback w1).2 [install; GetRecentTraceback]
  end.
Proof.
  cbv zeta. unfold install_reference.
  rewrite exec_try_except, (exec_call h (InstallPipPackages _ _ _)).
  cbn [res final calls].
  destruct (h (InstallPipPackages _ _ _) w) as [[[]|e] w1]; cbn [fst snd]; [done|].
  rewrite exec_bind, (exec_call h GetRecentTraceback). unfold then_exec.
  cbn [res final calls].
  by destruct (h GetRecentTraceback w1) as [[tb|e'] w2].
Qed.

Lemma exec_activate w :
  let install := RunCommand (nbextension sys_executable "install") in
  let enable := RunCommand (nbextension sys_executable "enable") in
  exec h (install_step_mitosheet_activate_notebook_extension sys_executable) w =
  match (h install w).1 with
  | Ok _ => Outcome (h enable (h install w).2).1 (h enable (h install w).2).2
                    [install; enable]
  | Raise e => Outcome (Raise e) (h install w).2 [install]
  end.
Proof.
  cbv zeta. unfold install_step_mitosheet_activate_notebook_extension.
  rewrite exec_bind, (exec_call h (RunCommand _)). unfold then_exec.
  cbn [res final calls].
  destruct (h (RunCommand _) w) as [[[]|e] w1]; cbn [fst snd]; [|done].
  by rewrite (exec_call h (RunCommand _)).
Qed.

End StepLemmas.

(** ** The installation step and its reference *)

(** The branch under [if False and ...] is never taken: the step is the
    reference program. *)
Lemma install_step_eqp_reference sys_argv :
  install_step_mitosheet_install_mitosheet sys_argv ≈ install_reference sys_argv.
Proof.
  unfold install_step_mitosheet_install_mitosheet, install_reference.
  apply try_except_proper; [done|]. intros e.
  constructor. by intros [traceback|e'].
Qed.

Section Installer.
Context {W : Type} (h : host W) (sys_argv : list str) (sys_executable : str).
Implicit Types (w : W).

Lemma installer_unfold :
  installer sys_argv sys_executable =
  (install_step_mitosheet_check_dependencies;;
   remove_mitosheet_3_if_present;;
   install_step_mitosheet_install_mitosheet sys_argv;;
   install_step_mitosheet_activate_notebook_extension sys_executable;;
   Ret ()).
Proof. reflexivity. Qed.

Lemma exec_install_mitosheet w :
  exec h (install_step_mitosheet_install_mitosheet sys_argv) w =
  exec h (install_reference sys_argv) w.
Proof. by rewrite install_step_eqp_reference. Qed.

(** The commands the installation step issues, by its result. *)
Lemma calls_install_mitosheet w :
  let install := InstallPipPackages [lit "mitosheet"]
                   (bool_decide (lit "--test-pypi" ∈ sys_argv)) false in
  let o := exec h (install_step_mitosheet_install_mitosheet sys_argv) w in
  calls o = if res o is Ok _ then [install] else [install; GetRecentTraceback].
Proof.
  cbv zeta. rewrite exec_install_mitosheet, exec_install_reference.
  destruct (h (InstallPipPackages _ _ _) w).1; [done|]. cbn [res calls].
  by destruct (h GetRecentTraceback _).1.
Qed.

Lemma calls_activate w :
  let install := RunCommand (nbextension sys_executable "install") in
  let enable := RunCommand (nbextension sys_executable "enable") in
  let o := exec h (install_step_mitosheet_activate_notebook_extension sys_executable) w in
  (res o = Ok () -> calls o = [install; enable]) /\
  (calls o = [install] \/ calls o = [install; enable]).
Proof.
  cbv zeta. rewrite exec_activate.
  destruct (h (RunCommand _) w).1 as [[]|e]; cbn [res calls]; auto.
  split; [done | auto].
Qed.

(** The commands of the installer: the complete installation, cut where a
    step raised, with the traceback read after a failed installation. *)
Lemma calls_installer w :
  let o := exec h (installer sys_argv sys_executable) w in
  (res o = Ok () -> calls o = full_installation sys_argv sys_executable) /\
  (calls o `prefix_of` full_installation sys_argv sys_executable \/
   calls o = take 3 (full_installation sys_argv sys_executable) ++ [GetRecentTraceback]).
Proof.
  cbv zeta. rewrite installer_unfold, exec_bind, exec_check_dependencies.
  unfold then_exec. cbn [res final calls].
  destruct (_ ≫= check_verdict) as [[]|e];
    [|split; [done | left; by eexists]].
  rewrite exec_bind, exec_remove_mitosheet_3. unfold then_exec. cbn [res final calls].
  destruct (h (UninstallPipPackages _) _).1 as [[]|e];
    [|split; [done | left; by eexists]].
  rewrite exec_bind. unfold then_exec.
  pose proof (calls_install_mitosheet (h (UninstallPipPackages [lit "mitosheet3"])
                (h GetJupyterlabMetadata w).2).2) as Hi. cbv zeta in Hi.
  destruct (exec h (install_step_mitosheet_install_mitosheet sys_argv) _)
    as [[[]|e] w3 c3]; cbn [res final calls] in *; subst c3;
    [|split; [done | by right]].
  rewrite exec_bind. unfold then_exec.
  destruct (calls_activate w3) as [Hok Ha]. cbv zeta in Hok, Ha.
  destruct (exec h (install_step_mitosheet_activate_notebook_extension _) _)
    as [[[]|e] w4 c4]; cbn [res final calls exec app] in *.
  - rewrite Hok by done. split; [done | left; by eexists].
  - split; [done|]. destruct Ha as [-> | ->]; left; by eexists.
Qed.

End Installer.

(** ** Theorems *)

(** The commands the steps never issue: a question to the user, a log
    entry, an installation with [user_install]. *)
Definition switched_off (c : cmd) : bool :=
  match c with
  | Input _ | Log _ | InstallPipPackages _ _ true => true
  | _ => false
  end.

Section InstallerTheorems.
Context {W : Type} (h : host W) (sys_argv : list str) (sys_executable : str).
Implicit Types (w : W) (metadata : option str * option (list str)).

(** The dependency check reads the JupyterLab metadata and nothing else,
    and its result is the verdict on them: it returns when there is no
    JupyterLab, when its version starts with [3], or when it has no
    extension, and raises [Exception('Installed extensions [...]')]
    otherwise. *)
Theorem check_dependencies_verdict w metadata :
  (h GetJupyterlabMetadata w).1 = Ok metadata ->
  let o := exec h install_step_mitosheet_check_dependencies w in
  res o = check_verdict metadata /\
  (res o = Ok () <-> compatible metadata = true) /\
  final o = (h GetJupyterlabMetadata w).2 /\
  calls o = [GetJupyterlabMetadata].
Proof.
  intros E. cbv zeta. rewrite exec_check_dependencies, E. cbn.
  split_and!; try done. unfold check_verdict.
  destruct (compatible metadata); [done|]. by destruct metadata.2.
Qed.

(** C23. The installation step behaves on every host as its reference, the
    [try] whose handler reads the traceback and raises the exception again:
    same result, same final state, same commands; none of the commands of
    the branch under [if False] is issued. *)
Theorem install_mitosheet_dead_branch w :
  install_step_mitosheet_install_mitosheet sys_argv ≈ install_reference sys_argv /\
  exec h (install_step_mitosheet_install_mitosheet sys_argv) w =
    exec h (install_reference sys_argv) w /\
  Forall (fun c => switched_off c = false)
    (calls (exec h (install_step_mitosheet_install_mitosheet sys_argv) w)).
Proof.
  split_and!; [apply install_step_eqp_reference | apply exec_install_mitosheet |].
  rewrite calls_install_mitosheet. by destruct (res _); repeat constructor.
Qed.

(** When the installation of [mitosheet] raises, the step reads the
    traceback and raises the same exception again. *)
Theorem install_mitosheet_reraises w e traceback :
  let install := InstallPipPackages [lit "mitosheet"]
                   (bool_decide (lit "--test-pypi" ∈ sys_argv)) false in
  (h install w).1 = Raise e ->
  (h GetRecentTraceback (h install w).2).1 = Ok traceback ->
  exec h (install_step_mitosheet_install_mitosheet sys_argv) w =
  Outcome (Raise e) (h GetRecentTraceback (h install w).2).2
          [install; GetRecentTraceback].
Proof.
  cbv zeta. intros E1 E2.
  rewrite exec_install_mitosheet, exec_install_reference, E1. cbv zeta.
  by rewrite E2.
Qed.

Lemma exec_installer_rejected w metadata :
  (h GetJupyterlabMetadata w).1 = Ok metadata ->
  compatible metadata = false ->
  exec h (installer sys_argv sys_executable) w =
  Outcome (check_verdict metadata) (h GetJupyterlabMetadata w).2
          [GetJupyterlabMetadata].
Proof.
  intros E Hc. rewrite installer_unfold.
  assert (exists e, check_verdict metadata = Raise e) as [e He].
  { unfold check_verdict. rewrite Hc. destruct metadata.2; eauto. }
  rewrite (exec_bind_Raise h _ _ _ e); rewrite exec_check_dependencies, E; cbn;
    by rewrite He.
Qed.

(** C7. In an environment the dependency check rejects, the installer stops
    there: it raises the verdict of the check, and the only command issued
    is the reading of the metadata; no package is installed or removed. *)
Theorem installer_blocked w metadata :
  (h GetJupyterlabMetadata w).1 = Ok metadata ->
  compatible metadata = false ->
  exec h (installer sys_argv sys_executable) w =
  Outcome (check_verdict metadata) (h GetJupyterlabMetadata w).2
          [GetJupyterlabMetadata].
Proof. apply exec_installer_rejected. Qed.

(** When the installer returns, it has issued the five commands of a
    complete installation in order: metadata, removal of [mitosheet3],
    installation of [mitosheet], installation and activation of the
    notebook extension; and the environment was compatible. *)
Theorem installer_success w :
  res (exec h (installer sys_argv sys_executable) w) = Ok () ->
  calls (exec h (installer sys_argv sys_executable) w) =
    full_installation sys_argv sys_executable /\
  exists metadata,
    (h GetJupyterlabMetadata w).1 = Ok metadata /\ compatible metadata = true.
Proof.
  intros Hok. split; [by apply calls_installer|].
  rewrite installer_unfold in Hok. apply res_bind_Ok in Hok as ([] & Hc & _).
  rewrite exec_check_dependencies in Hc. cbn in Hc.
  apply bind_Ok_inv in Hc as (metadata & E & Hc).
  exists metadata. split; [done|]. unfold check_verdict in Hc.
  destruct (compatible metadata); [done|]. by destruct metadata.2.
Qed.

(** Whatever the host answers, the commands of the installer are a
    prefix of the complete installation, or its first three commands
    followed by the reading of the traceback; in particular the extension is
    never activated before [mitosheet] is installed. *)
Theorem installer_trace w :
  let o := exec h (installer sys_argv sys_executable) w in
  calls o `prefix_of` full_installation sys_argv sys_executable \/
  calls o = take 3 (full_installation sys_argv sys_executable) ++ [GetRecentTraceback].
Proof. apply calls_installer. Qed.

(** The installer never asks the user, never logs, and never installs
    with [user_install]. *)
Theorem installer_never_user_install w :
  Forall (fun c => switched_off c = false)
    (calls (exec h (installer sys_argv sys_executable) w)).
Proof.
  destruct (calls_installer h sys_argv sys_executable w) as [_ [Hp | ->]].
  - destruct Hp as [rest Hp].
    assert (Forall (fun c => switched_off c = false)
              (full_installation sys_argv sys_executable)) as Hall
      by (by repeat constructor).
    rewrite Hp in Hall. by apply Forall_app in Hall as [? _].
  - by repeat constructor.
Qed.

End InstallerTheorems.

(** ** A host for the examples *)

(** A machine: the JupyterLab metadata, the installed packages, and
    whether the package directory can be written. *)
Record machine : Type := Machine {
  jupyterlab : option str * option (list str);
  packages : list str;
  writable : bool
}.

Definition sample_traceback : str :=
  "ERROR: Could not install packages due to an OSError." ++ [newline] ++
  PERMISSION_HINT ++ [newline].

Definition sim_host : host machine := fun c w =>
  match c return result (response c) * machine with
  | GetJupyterlabMetadata => (Ok (jupyterlab w), w)
  | InstallPipPackages ps _ user_install =>
      if writable w || user_install
      then (Ok (), Machine (jupyterlab w) (ps ++ packages w) (writable w))
      else (Raise (Exception "pip install failed"), w)
  | UninstallPipPackages ps =>
      (Ok (), Machine (jupyterlab w) (filter (fun p => p ∉ ps) (packages w)) (writable w))
  | RunCommand _ => (Ok (), w)
  | GetRecentTraceback => (Ok sample_traceback, w)
  | Log _ => (Ok (), w)
  | Input _ => (Ok (lit "y"), w)
  end.

Definition fresh_machine : machine :=
  Machine (None, None) [lit "pandas"; lit "mitosheet3"] true.

Definition lab2_machine : machine :=
  Machine (Some (lit "2.2.9"), Some [lit "@jupyter-widgets/jupyterlab-manager"])
          [lit "jupyterlab"] true.

Definition locked_machine : machine :=
  Machine (Some (lit "3.0.1"), Some [lit "x"]) [] false.

(** Examples on the three machines: on a machine without JupyterLab the
    installer replaces [mitosheet3] by [mitosheet]; with JupyterLab 2 and an
    extension it raises and leaves the packages alone; on a machine whose
    package directory cannot be written it raises the installation error,
    although the traceback ends with the permission hint and the user would
    answer yes. *)
Theorem installer_examples :
  let run w := exec sim_host (installer [lit "installer.py"] "python3") w in
  res (run fresh_machine) = Ok () /\
  packages (final (run fresh_machine)) = [lit "mitosheet"; lit "pandas"] /\
  res (run lab2_machine) =
    Raise (Exception "Installed extensions ['@jupyter-widgets/jupyterlab-manager']") /\
  final (run lab2_machine) = lab2_machine /\
  res (run locked_machine) = Raise (Exception "pip install failed") /\
  strip (last_piece (split newline (strip sample_traceback))) = PERMISSION_HINT.
Proof. cbv zeta. split_and!; by vm_compute. Qed.

Lemma check_dependencies_verdict_witness :
  let o := exec sim_host install_step_mitosheet_check_dependencies lab2_machine in
  res o = check_verdict (jupyterlab lab2_machine) /\
  (res o = Ok () <-> compatible (jupyterlab lab2_machine) = true) /\
  final o = (sim_host GetJupyterlabMetadata lab2_machine).2 /\
  calls o = [GetJupyterlabMetadata].
Proof.
  apply (check_dependencies_verdict sim_host lab2_machine (jupyterlab lab2_machine)).
  reflexivity.
Defined.

Lemma install_mitosheet_reraises_witness :
  exec sim_host (install_step_mitosheet_install_mitosheet []) locked_machine =
  Outcome (Raise (Exception "pip install failed")) locked_machine
          [InstallPipPackages [lit "mitosheet"] false false; GetRecentTraceback].
Proof.
  apply (install_mitosheet_reraises sim_host [] locked_machine
           (Exception "pip install failed") sample_traceback); reflexivity.
Defined.

Lemma installer_blocked_witness :
  exec sim_host (installer [] "python3") lab2_machine =
  Outcome (check_verdict (jupyterlab lab2_machine)) lab2_machine [GetJupyterlabMetadata].
Proof.
  apply (installer_blocked sim_host [] "python3" lab2_machine (jupyterlab lab2_machine));
    reflexivity.
Defined.

Lemma installer_success_witness :
  calls (exec sim_host (installer [] "python3") fresh_machine) =
    full_installation [] "python3" /\
  exists metadata,
    (sim_host GetJupyterlabMetadata fresh_machine).1 = Ok metadata /\
    compatible metadata = true.
Proof.
  apply (installer_success sim_host [] "python3" fresh_machine). by vm_compute.
Defined.
