(* ===== verification/InstallerRun.v ===== *)
(** * InstallerRun: the run of the installer, command by command

    [exec] of [Installer] gives the outcome of a program in one piece.  This
    file gives the run its intermediate states: a [config] is the program
    that is left, the state of the host and the commands issued so far, and
    [run_body] issues the next command.  The run is the transition system of
    [Loop] on that body.

    Theorems: [exec] is the result of the run, which takes one step per
    command ([exec_run]); what a configuration is bound to return does not
    change along the run ([outcome_of_step]), so at every moment the
    commands issued are a prefix of those of the outcome; hence at every
    moment of a run of the installer the commands are a beginning of the
    complete installation or of the failed one, and none is switched off.
    The installer is the decision tree [installer_outcome] on the answers of
    the host; it returns exactly when the environment is compatible and
    each command of the complete installation succeeds in its turn, and
    then the run reaches the end of the list of steps; when the
    installation fails after the removal of the old package nothing is put
    back; on every host the run stops within five commands. *)

From stdpp Require Import relations.
From S2P Require Import Prelude Loop PyStr PyText Installer.

(** ** Configurations *)

Record config (W A : Type) : Type := Config {
  program : prog A;
  world : W;
  issued : list cmd
}.

Arguments Config {W A} program world issued.
Arguments program {W A} c.
Arguments world {W A} c.
Arguments issued {W A} c.

Section Run.
Context {W A : Type} (h : host W).
Implicit Types (c : config W A) (m : prog A) (w : W) (o : outcome W A).

(** The next command of the program, answered by the host; a program that
    has returned or raised is left with its outcome. *)
Definition run_body c : config W A + outcome W A :=
  match program c with
  | Ret a => inr (Outcome (Ok a) (world c) (issued c))
  | Throw e => inr (Outcome (Raise e) (world c) (issued c))
  | Call cm k =>
      let '(r, w') := h cm (world c) in
      inl (Config (k r) w' (issued c ++ [cm]))
  end.

Definition start m w : config W A := Config m w [].

(** What the run from a configuration returns. *)
Definition outcome_of c : outcome W A :=
  let o := exec h (program c) (world c) in
  Outcome (res o) (final o) (issued c ++ calls o).

(** Every command of the list succeeds, each in the state the one before
    left. *)
Fixpoint all_succeed (cs : list cmd) w : Prop :=
  match cs with
  | [] => True
  | cm :: cs => is_Ok (h cm w).1 /\ all_succeed cs (h cm w).2
  end.

(** ** The run and [exec] *)

Lemma outcome_of_start m w : outcome_of (start m w) = exec h m w.
Proof. unfold outcome_of, start. simpl. by destruct (exec h m w). Qed.

Lemma outcome_of_step c c' : step run_body c c' -> outcome_of c' = outcome_of c.
Proof.
  rewrite step_iff. unfold run_body, outcome_of. destruct c as [[a|e|cm k] w tr]; try done.
  simpl. destruct (h cm w) as [r w']. intros [= <-]. simpl.
  by rewrite <- app_assoc.
Qed.

Lemma outcome_of_exits c o : exits run_body c o -> outcome_of c = o.
Proof.
  unfold exits, run_body, outcome_of. destruct c as [[a|e|cm k] w tr]; simpl.
  - intros [= <-]. by rewrite app_nil_r.
  - intros [= <-]. by rewrite app_nil_r.
  - by destruct (h cm w).
Qed.

(** A configuration that is left holds what its outcome says. *)
Lemma exits_inv c o :
  exits run_body c o ->
  program c = lift (res o) /\ world c = final o /\ issued c = calls o.
Proof.
  unfold exits, run_body. destruct c as [[a|e|cm k] w tr]; simpl.
  - by intros [= <-].
  - by intros [= <-].
  - by destruct (h cm w).
Qed.

Lemma outcome_of_rtc c c' : rtc (step run_body) c c' -> outcome_of c' = outcome_of c.
Proof.
  apply (rtc_invariant run_body (fun c' => outcome_of c' = outcome_of c)); [|done].
  intros c1 c2 <- H12. by apply outcome_of_step.
Qed.

(** The run from a configuration: one step per command of the program. *)
Lemma run_nsteps c :
  exists c', nsteps (step run_body) (length (calls (exec h (program c) (world c)))) c c' /\
    exits run_body c' (outcome_of c).
Proof.
  destruct c as [m w tr]. revert w tr. induction m as [a|e|cm k IH]; intros w tr.
  - eexists. split; [constructor|]. unfold exits, run_body, outcome_of. simpl.
    by rewrite app_nil_r.
  - eexists. split; [constructor|]. unfold exits, run_body, outcome_of. simpl.
    by rewrite app_nil_r.
  - assert (step run_body (Config (Call cm k) w tr)
              (Config (k (h cm w).1) (h cm w).2 (tr ++ [cm]))) as Hs.
    { apply step_iff. unfold run_body. simpl. by destruct (h cm w). }
    destruct (IH (h cm w).1 (h cm w).2 (tr ++ [cm])) as (c' & Hn & He).
    exists c'. rewrite <- (outcome_of_step _ _ Hs). split; [|done].
    simpl. destruct (h cm w) as [r w']. simpl in *. by eapply nsteps_l.
Qed.

End Run.

Section Exec.
Context {W A : Type} (h : host W).
Implicit Types (c : config W A) (m : prog A) (w : W).

Lemma exec_run_nsteps m w :
  exists c, nsteps (step (run_body h)) (length (calls (exec h m w))) (start m w) c /\
    exits (run_body h) c (exec h m w).
Proof.
  destruct (run_nsteps h (start m w)) as (c & Hn & He).
  rewrite outcome_of_start in He. by exists c.
Qed.

(** At every moment of a run the commands issued are a beginning of the
    commands of its outcome. *)
Lemma reachable_issued m w c :
  rtc (step (run_body h)) (start m w) c -> issued c `prefix_of` calls (exec h m w).
Proof.
  intros Hr%outcome_of_rtc. rewrite outcome_of_start in Hr. rewrite <- Hr.
  unfold outcome_of. simpl. by eexists.
Qed.

End Exec.

(** ** The installer *)

Section InstallerRun.
Context {W : Type} (h : host W) (sys_argv : list str) (sys_executable : str).
Implicit Types (w : W) (c : config W unit).

(** The installer as a decision tree on the answers of the host: what it
    returns or raises, the state it leaves and the commands it has issued,
    at each place where it can stop. *)
Definition installer_outcome w : outcome W unit :=
  let uninstall := UninstallPipPackages [lit "mitosheet3"] in
  let install := InstallPipPackages [lit "mitosheet"]
                   (bool_decide (lit "--test-pypi" ∈ sys_argv)) false in
  let nb_install := RunCommand (nbextension sys_executable "install") in
  let nb_enable := RunCommand (nbextension sys_executable "enable") in
  let '(metadata, w1) := h GetJupyterlabMetadata w in
  match metadata ≫= check_verdict with
  | Raise e => Outcome (Raise e) w1 [GetJupyterlabMetadata]
  | Ok _ =>
  let '(removed, w2) := h uninstall w1 in
  match removed with
  | Raise e => Outcome (Raise e) w2 [GetJupyterlabMetadata; uninstall]
  | Ok _ =>
  let '(installed, w3) := h install w2 in
  match installed with
  | Raise e =>
      let '(traceback, w4) := h GetRecentTraceback w3 in
      Outcome (match traceback with Ok _ => Raise e | Raise e' => Raise e' end) w4
        [GetJupyterlabMetadata; uninstall; install; GetRecentTraceback]
  | Ok _ =>
  let '(copied, w4) := h nb_install w3 in
  match copied with
  | Raise e => Outcome (Raise e) w4 [GetJupyterlabMetadata; uninstall; install; nb_install]
  | Ok _ =>
  let '(enabled, w5) := h nb_enable w4 in
  Outcome enabled w5 (full_installation sys_argv sys_executable)
  end end end end.

Lemma exec_installer w :
  exec h (installer sys_argv sys_executable) w = installer_outcome w.
Proof.
  unfold installer_outcome. cbv zeta. rewrite installer_unfold.
  rewrite exec_bind, exec_check_dependencies. unfold then_exec. cbn [res final calls].
  destruct (h GetJupyterlabMetadata w) as [metadata w1]. cbn [fst snd].
  destruct (metadata ≫= check_verdict) as [[]|e]; [|done].
  rewrite exec_bind, exec_remove_mitosheet_3. unfold then_exec. cbn [res final calls].
  destruct (h (UninstallPipPackages _) w1) as [[[]|e] w2]; cbn [fst snd]; [|done].
  rewrite exec_bind, exec_install_mitosheet, exec_install_reference.
  unfold then_exec. cbv zeta.
  destruct (h (InstallPipPackages _ _ _) w2) as [[[]|e] w3]; cbn [fst snd res final calls].
  - rewrite exec_bind, exec_activate. unfold then_exec. cbv zeta.
    destruct (h (RunCommand (nbextension sys_executable "install")) w3)
      as [[[]|e] w4]; cbn [fst snd res final calls]; [|done].
    by destruct (h (RunCommand (nbextension sys_executable "enable")) w4)
      as [[[]|e] w5].
  - by destruct (h GetRecentTraceback w3) as [[tb|e'] w4].
Qed.

(** The verdict lets through exactly the compatible environments. *)
Lemma check_verdict_Ok metadata : check_verdict metadata = Ok () <-> compatible metadata = true.
Proof.
  unfold check_verdict. destruct (compatible metadata); [done|].
  by destruct metadata.2.
Qed.

(** The installer returns exactly when the environment is compatible and
    every command of the complete installation succeeds in its turn. *)
Lemma installer_Ok_iff w :
  res (exec h (installer sys_argv sys_executable) w) = Ok () <->
  (exists metadata,
     (h GetJupyterlabMetadata w).1 = Ok metadata /\ compatible metadata = true) /\
  all_succeed h (full_installation sys_argv sys_executable) w.
Proof.
  rewrite exec_installer. unfold installer_outcome. cbv zeta.
  cbn [all_succeed full_installation].
  destruct (h GetJupyterlabMetadata w) as [[metadata|e] w1]; cbn [fst snd];
    [|split; [done | by intros [(? & ? & _) _]]].
  rewrite bind_Ok. pose proof (check_verdict_Ok metadata) as Hv.
  destruct (check_verdict metadata) as [[]|e];
    [|split; [done | intros [(? & [= <-] & ?%Hv) _]; done]].
  repeat match goal with
  | |- context [h ?c ?w'] =>
      destruct (h c w') as [[[]|?] ?]; cbn [fst snd res];
      [|split; [by repeat case_match
               | intros [_ Hall]; exfalso; by eapply is_Ok_Raise, Hall]]
  end.
  split; [intros _|done].
  split; [exists metadata; split; [done | by apply Hv]|].
  repeat split; apply is_Ok_Ok.
Qed.

(** ** Theorems *)

(** C13. The installer completes in a cooperative environment: when the
    metadata are compatible and each of the five commands of the complete
    installation succeeds in its turn, the run reaches the end of the list
    of steps, having issued exactly those commands, and returns. *)
Theorem installer_completes w metadata :
  (h GetJupyterlabMetadata w).1 = Ok metadata ->
  compatible metadata = true ->
  all_succeed h (full_installation sys_argv sys_executable) w ->
  eventually (run_body h)
    (fun c => program c = Ret () /\
              issued c = full_installation sys_argv sys_executable)
    (start (installer sys_argv sys_executable) w) /\
  res (exec h (installer sys_argv sys_executable) w) = Ok ().
Proof.
  intros E Hc Hall.
  assert (res (exec h (installer sys_argv sys_executable) w) = Ok ()) as Hok
    by (apply installer_Ok_iff; eauto).
  split; [|done].
  destruct (exec_run_nsteps h (installer sys_argv sys_executable) w) as (c & Hn & He).
  apply eventually_rtc. exists c. split; [by eapply rtc_nsteps_2|].
  pose proof (proj1 (calls_installer h sys_argv sys_executable w) Hok) as Hcalls.
  destruct (exits_inv h _ _ He) as (Hp & _ & Hi).
  by rewrite Hp, Hi, Hok, Hcalls.
Qed.

(** C14. At every moment of a run of the installer, on any host, the
    commands issued so far are a beginning of the complete installation or
    of the failed one (three commands and the reading of the traceback),
    and none of them is switched off: the extension is not touched before
    [mitosheet] is installed, and nothing is installed before [mitosheet3]
    is removed. *)
Theorem installer_run_safe w c :
  rtc (step (run_body h)) (start (installer sys_argv sys_executable) w) c ->
  (issued c `prefix_of` full_installation sys_argv sys_executable \/
   issued c `prefix_of`
     take 3 (full_installation sys_argv sys_executable) ++ [GetRecentTraceback]) /\
  Forall (fun cm => switched_off cm = false) (issued c).
Proof.
  intros Hp%reachable_issued.
  destruct (calls_installer h sys_argv sys_executable w) as [_ Hcalls].
  cbv zeta in Hcalls.
  assert (issued c `prefix_of` full_installation sys_argv sys_executable \/
          issued c `prefix_of`
            take 3 (full_installation sys_argv sys_executable) ++ [GetRecentTraceback])
    as Hor.
  { destruct Hcalls as [Hfull | Hfail]; [left; by etrans | right; by rewrite <- Hfail]. }
  split; [done|].
  destruct Hor as [[rest Hr] | [rest Hr]];
    eapply (Forall_app _ (issued c) rest); rewrite <- Hr; by repeat constructor.
Qed.

(** On every host the run of the installer stops, within five
    commands, in a configuration whose outcome is that of [exec]. *)
Theorem installer_halts w :
  exists n c,
    (n <= 5)%nat /\
    nsteps (step (run_body h)) n (start (installer sys_argv sys_executable) w) c /\
    exits (run_body h) c (exec h (installer sys_argv sys_executable) w).
Proof.
  destruct (exec_run_nsteps h (installer sys_argv sys_executable) w) as (c & Hn & He).
  eexists _, c. split; [|done].
  destruct (calls_installer h sys_argv sys_executable w) as [_ Hc]. cbv zeta in Hc.
  destruct Hc as [Hp%prefix_length | ->]; [|cbn; lia].
  by change (length (full_installation sys_argv sys_executable)) with 5%nat in Hp.
Qed.

(** The run of a program returns the outcome [exec] computes. *)
Lemma exec_returns {A} (m : prog A) w :
  returns (run_body h) (start m w) (exec h m w).
Proof.
  destruct (exec_run_nsteps h m w) as (c & Hn & He).
  apply returns_rtc. exists c. split; [by eapply rtc_nsteps_2 | done].
Qed.

(** C24. The installer is its decision tree: on every host and in every
    state, its outcome (result, final state, commands) is the one
    [installer_outcome] reads off the answers of the host, and the run
    command by command returns it. *)
Theorem installer_decision_tree w :
  exec h (installer sys_argv sys_executable) w = installer_outcome w /\
  returns (run_body h) (start (installer sys_argv sys_executable) w)
    (installer_outcome w).
Proof.
  split; [apply exec_installer|]. rewrite <- exec_installer. apply exec_returns.
Qed.

Lemma exec_installer_failed_install w metadata e :
  let uninstall := UninstallPipPackages [lit "mitosheet3"] in
  let install := InstallPipPackages [lit "mitosheet"]
                   (bool_decide (lit "--test-pypi" ∈ sys_argv)) false in
  let w1 := (h GetJupyterlabMetadata w).2 in
  let w2 := (h uninstall w1).2 in
  let w3 := (h install w2).2 in
  (h GetJupyterlabMetadata w).1 = Ok metadata ->
  compatible metadata = true ->
  (h uninstall w1).1 = Ok () ->
  (h install w2).1 = Raise e ->
  exec h (installer sys_argv sys_executable) w =
  Outcome (match (h GetRecentTraceback w3).1 with
           | Ok _ => Raise e
           | Raise e' => Raise e'
           end)
          (h GetRecentTraceback w3).2
          [GetJupyterlabMetadata; uninstall; install; GetRecentTraceback].
Proof.
  cbv zeta. intros Em Hc Eu Ei. rewrite exec_installer. unfold installer_outcome.
  cbv zeta. destruct (h GetJupyterlabMetadata w) as [r w1]. cbn [fst snd] in *. subst r.
  rewrite bind_Ok, (proj2 (check_verdict_Ok metadata) Hc).
  destruct (h (UninstallPipPackages _) w1) as [r w2]. cbn [fst snd] in *. subst r.
  destruct (h (InstallPipPackages _ _ _) w2) as [r w3]. cbn [fst snd] in *. subst r.
  by destruct (h GetRecentTraceback w3).
Qed.

(** C33. No rollback: when [mitosheet3] has been removed and the
    installation of [mitosheet] then raises, the installer reads the
    traceback and raises (the exception of the installation, unless reading
    the traceback raises itself); it issues no other command, so the
    package it removed is not put back. *)
Theorem installer_no_rollback w metadata e :
  let uninstall := UninstallPipPackages [lit "mitosheet3"] in
  let install := InstallPipPackages [lit "mitosheet"]
                   (bool_decide (lit "--test-pypi" ∈ sys_argv)) false in
  let w1 := (h GetJupyterlabMetadata w).2 in
  let w2 := (h uninstall w1).2 in
  let w3 := (h install w2).2 in
  (h GetJupyterlabMetadata w).1 = Ok metadata ->
  compatible metadata = true ->
  (h uninstall w1).1 = Ok () ->
  (h install w2).1 = Raise e ->
  let o := Outcome (match (h GetRecentTraceback w3).1 with
                    | Ok _ => Raise e
                    | Raise e' => Raise e'
                    end)
                   (h GetRecentTraceback w3).2
                   [GetJupyterlabMetadata; uninstall; install; GetRecentTraceback] in
  exec h (installer sys_argv sys_executable) w = o /\
  returns (run_body h) (start (installer sys_argv sys_executable) w) o.
Proof.
  cbv zeta. intros Em Hc Eu Ei.
  rewrite <- (exec_installer_failed_install w metadata e Em Hc Eu Ei).
  split; [done | apply exec_returns].
Qed.

End InstallerRun.

(** [exec] is the run: a program started on a host takes one step per
    command it issues and is left with the outcome [exec] computes; the
    outcome is the only one the run can return. *)
Theorem exec_run {W A} (h : host W) (m : prog A) (w : W) :
  returns (run_body h) (start m w) (exec h m w) /\
  (forall o, returns (run_body h) (start m w) o -> o = exec h m w) /\
  exists c, nsteps (step (run_body h)) (length (calls (exec h m w))) (start m w) c /\
    exits (run_body h) c (exec h m w).
Proof.
  destruct (exec_run_nsteps h m w) as (c & Hn & He).
  pose proof (exec_returns h m w) as Hr.
  split_and!; [done | | by exists c].
  intros o Ho. by eapply returns_det.
Qed.

(** ** Concrete runs *)

Lemma installer_completes_witness :
  eventually (run_body sim_host)
    (fun c => program c = Ret () /\ issued c = full_installation [] "python3")
    (start (installer [] "python3") fresh_machine) /\
  res (exec sim_host (installer [] "python3") fresh_machine) = Ok ().
Proof.
  apply (installer_completes sim_host [] "python3" fresh_machine (None, None));
    [reflexivity | reflexivity |].
  cbn. repeat split; by eexists.
Defined.

Lemma installer_run_safe_witness :
  let c : config machine unit :=
    Config (Throw (Exception "Installed extensions ['@jupyter-widgets/jupyterlab-manager']"))
           lab2_machine [GetJupyterlabMetadata] in
  (issued c `prefix_of` full_installation [] "python3" \/
   issued c `prefix_of` take 3 (full_installation [] "python3") ++ [GetRecentTraceback]) /\
  Forall (fun cm => switched_off cm = false) (issued c).
Proof.
  apply (installer_run_safe sim_host [] "python3" lab2_machine).
  apply rtc_once, step_iff. reflexivity.
Defined.

Lemma installer_no_rollback_witness :
  let o := Outcome (Raise (Exception "pip install failed")) locked_machine
             [GetJupyterlabMetadata; UninstallPipPackages [lit "mitosheet3"];
              InstallPipPackages [lit "mitosheet"] false false; GetRecentTraceback] in
  exec sim_host (installer [] "python3") locked_machine = o /\
  returns (run_body sim_host) (start (installer [] "python3") locked_machine) o.
Proof.
  apply (installer_no_rollback sim_host [] "python3" locked_machine
           (jupyterlab locked_machine) (Exception "pip install failed"));
    reflexivity.
Defined.
