(* ===== verification/InstallerHost.v ===== *)
(** * InstallerHost: what the installer achieves on a host that keeps the
    contract of its commands

    [Installer] and [InstallerRun] hold for every host, a host being any
    function from commands and states to answers.  What the steps are for
    is said in the docstring of [remove_mitosheet_3_if_present]: a user who
    had [mitosheet3] moves to [mitosheet], and must not be left with both.
    That is a statement about the packages of the machine, so it needs what
    the commands of [mitoinstaller.commands] promise about them.  The class
    [PipHost] is that promise, as far as the installer relies on it: an
    uninstallation that returns has removed the packages it names and
    installs none, an installation that returns has installed the packages
    it names, one that raises has installed none, neither installs a
    package it does not name, and the other commands touch none.

    Theorems, for every host of the class: when the installer returns,
    [mitosheet] is installed and [mitosheet3] is not; when the installation
    step raises after the removal, [mitosheet3] is gone and [mitosheet] is
    there only if it was before, so a user who had only [mitosheet3] is
    left with neither; when the dependency check rejects the environment,
    the packages are as they were.  The simulated machine of [Installer]
    is an instance. *)

From S2P Require Import Prelude Loop PyStr PyText Installer InstallerRun.

(** ** The contract of the commands *)

(** The commands that change the packages of the machine. *)
Definition changes_packages (c : cmd) : bool :=
  match c with
  | InstallPipPackages _ _ _ | UninstallPipPackages _ => true
  | _ => false
  end.

Class PipHost {W : Type} (h : host W) (installed : str -> W -> Prop) : Prop := {
  uninstall_removes packages w p :
    (h (UninstallPipPackages packages) w).1 = Ok () -> p ∈ packages ->
    ~ installed p (h (UninstallPipPackages packages) w).2;
  uninstall_only packages w p :
    installed p (h (UninstallPipPackages packages) w).2 -> installed p w;
  install_installs packages test_pypi user_install w p :
    (h (InstallPipPackages packages test_pypi user_install) w).1 = Ok () ->
    p ∈ packages ->
    installed p (h (InstallPipPackages packages test_pypi user_install) w).2;
  install_only packages test_pypi user_install w p :
    installed p (h (InstallPipPackages packages test_pypi user_install) w).2 ->
    installed p w \/
    (h (InstallPipPackages packages test_pypi user_install) w).1 = Ok () /\ p ∈ packages;
  other_keeps c w p :
    changes_packages c = false -> installed p (h c w).2 <-> installed p w
}.

(** ** The installer on such a host *)

Section InstallerHost.
Context {W : Type} (h : host W) (installed : str -> W -> Prop) `{!PipHost h installed}.
Context (sys_argv : list str) (sys_executable : str).
Implicit Types (w : W) (p : str).

Local Abbreviation uninstall := (UninstallPipPackages [lit "mitosheet3"]).
Local Abbreviation install :=
  (InstallPipPackages [lit "mitosheet"] (bool_decide (lit "--test-pypi" ∈ sys_argv)) false).

(** The packages after the removal and the installation, whether the
    installation returned or raised: [mitosheet3] is gone. *)
Lemma mitosheet3_removed w :
  (h uninstall w).1 = Ok () ->
  ~ installed "mitosheet3" (h install (h uninstall w).2).2.
Proof.
  intros Hu [Hin|[_ Hin%list_elem_of_singleton]]%install_only.
  - by eapply uninstall_removes, Hin; [|apply list_elem_of_here].
  - by apply (inj lit) in Hin.
Qed.

(** When the installer returns, the removal and the installation have
    returned, and the packages are those the installation left. *)
Lemma final_installer_Ok w :
  let o := exec h (installer sys_argv sys_executable) w in
  let w2 := (h uninstall (h GetJupyterlabMetadata w).2).2 in
  res o = Ok () ->
  (h uninstall (h GetJupyterlabMetadata w).2).1 = Ok () /\
  (h install w2).1 = Ok () /\
  forall p, installed p (final o) <-> installed p (h install w2).2.
Proof.
  cbv zeta. rewrite exec_installer. unfold installer_outcome. cbv zeta.
  destruct (h GetJupyterlabMetadata w) as [metadata w1]. cbn [fst snd].
  destruct (metadata ≫= check_verdict) as [[]|e]; [|done].
  destruct (h uninstall w1) as [[[]|e] w2]; cbn [fst snd]; [|done].
  destruct (h install w2) as [[[]|e] w3]; cbn [fst snd];
    [|by destruct (h GetRecentTraceback w3) as [[tb|e'] w4]].
  pose proof (other_keeps (RunCommand (nbextension sys_executable "install")) w3) as H4.
  destruct (h (RunCommand (nbextension sys_executable "install")) w3) as [[[]|e] w4];
    cbn [fst snd] in H4; [|done].
  pose proof (other_keeps (RunCommand (nbextension sys_executable "enable")) w4) as H5.
  destruct (h (RunCommand (nbextension sys_executable "enable")) w4) as [r w5].
  cbn [fst snd res final] in *. intros _. split_and!; [done..|].
  intros p. by rewrite H5, H4.
Qed.

(** ** Theorems *)

(** When the dependency check rejects the environment, the packages are
    as they were. *)
Theorem installer_blocked_state w metadata p :
  (h GetJupyterlabMetadata w).1 = Ok metadata ->
  compatible metadata = false ->
  installed p (final (exec h (installer sys_argv sys_executable) w)) <-> installed p w.
Proof.
  intros Em Hc. rewrite (exec_installer_rejected h sys_argv sys_executable w metadata Em Hc).
  cbn [final]. by apply other_keeps.
Qed.

End InstallerHost.

(** C15. When the installer returns, on a host that keeps the contract of the
    commands, [mitosheet] is installed and [mitosheet3] is not: the user is
    not left with the two packages whose extensions have the same name. *)
Theorem installer_goal {W : Type} (h : host W) (installed : str -> W -> Prop)
    `{!PipHost h installed} (sys_argv : list str) (sys_executable : str) (w : W) :
  res (exec h (installer sys_argv sys_executable) w) = Ok () ->
  let w' := final (exec h (installer sys_argv sys_executable) w) in
  installed "mitosheet" w' /\ ~ installed "mitosheet3" w'.
Proof.
  intros (Hu & Hi & Hfinal)%(final_installer_Ok h installed). cbv zeta.
  rewrite !Hfinal. split.
  - by apply install_installs; [|apply list_elem_of_here].
  - by apply (mitosheet3_removed h installed).
Qed.

(** C34. When the removal returns and the installation then raises, on a
    host that keeps the contract of the commands, the installer leaves the
    machine without [mitosheet3], and with [mitosheet] only if it was there
    before: nothing is put back, and a user who had only [mitosheet3] is
    left with neither package. *)
Theorem installer_failed_state {W : Type} (h : host W) (installed : str -> W -> Prop)
    `{!PipHost h installed} (sys_argv : list str) (sys_executable : str) (w : W)
    metadata e :
  let uninstall := UninstallPipPackages [lit "mitosheet3"] in
  let install := InstallPipPackages [lit "mitosheet"]
                   (bool_decide (lit "--test-pypi" ∈ sys_argv)) false in
  let w1 := (h GetJupyterlabMetadata w).2 in
  let w' := final (exec h (installer sys_argv sys_executable) w) in
  (h GetJupyterlabMetadata w).1 = Ok metadata ->
  compatible metadata = true ->
  (h uninstall w1).1 = Ok () ->
  (h install (h uninstall w1).2).1 = Raise e ->
  ~ installed "mitosheet3" w' /\ (installed "mitosheet" w' -> installed "mitosheet" w).
Proof.
  cbv zeta. intros Em Hc Eu Ei.
  rewrite (exec_installer_failed_install h sys_argv sys_executable w metadata e Em Hc Eu Ei).
  cbn [final]. rewrite !(other_keeps GetRecentTraceback) by done. split.
  - by apply (mitosheet3_removed h installed).
  - intros [Hin|[Hok _]]%install_only; [|by rewrite Ei in Hok].
    apply uninstall_only in Hin. by rewrite (other_keeps GetJupyterlabMetadata) in Hin.
Qed.

(** ** The simulated machine keeps the contract *)

#[export] Instance sim_host_pip : PipHost sim_host (fun p w => p ∈ packages w).
Proof.
  split.
  - intros ps w p _ Hp. cbn. rewrite list_elem_of_filter. tauto.
  - intros ps w p. cbn. rewrite list_elem_of_filter. tauto.
  - intros ps t u w p. cbn. destruct (writable w || u); [|done].
    intros _ Hp. cbn. apply elem_of_app. by left.
  - intros ps t u w p. cbn. destruct (writable w || u); cbn; [|by left].
    rewrite elem_of_app. tauto.
  - by intros [] w p.
Qed.

(** ** Concrete runs *)

Lemma installer_goal_witness :
  let w' := final (exec sim_host (installer [] "python3") fresh_machine) in
  lit "mitosheet" ∈ packages w' /\ lit "mitosheet3" ∉ packages w'.
Proof.
  apply (installer_goal sim_host (fun p w => p ∈ packages w) [] "python3" fresh_machine).
  reflexivity.
Defined.

Lemma installer_failed_state_witness :
  let w' := final (exec sim_host (installer [] "python3") locked_machine) in
  (lit "mitosheet3" ∉ packages w') /\
  (lit "mitosheet" ∈ packages w' -> lit "mitosheet" ∈ packages locked_machine).
Proof.
  apply (installer_failed_state sim_host (fun p w => p ∈ packages w) [] "python3"
           locked_machine (jupyterlab locked_machine) (Exception "pip install failed"));
    reflexivity.
Defined.
